(** * go-diskfs: partition entries, disk partition I/O, squashfs facade, ordered comparison

    A shallow embedding of the parts of the repository that the
    specification speaks about.

    Part I, the program:
    - [Go]       : what the code takes from the Go language and its
                   standard library (errors, slices, [fmt], [path], [os] flags);
    - [Cmp]      : filesystem/ext4/cmp.go ([isNaN], [Less], [Compare]);
    - [Mbr]      : partition/mbr (entry codec and [WriteContents]);
    - [Disk]     : disk/disk.go ([ReadPartitionContents], [WritePartitionContents]);
    - [Squashfs] : filesystem/squashfs/squashfs.go ([validateBlocksize],
                   [Create], [Read], [Close], [OpenFile], [readBlock],
                   [readFragment]).

    Part II, the properties, one section per module. *)

From Stdlib Require Import ZArith List Bool Lia String Ascii DecimalString.
From Stdlib Require Import Floats.SpecFloat.
From Stdlib Require Import Reals Lra.
Import ListNotations.

Local Open Scope string_scope.
Local Open Scope Z_scope.

(* ================================================================== *)
(** * Part I: the program *)
(* ================================================================== *)

(** ** Go: language and standard library *)

Module Go.

(** A byte is an integer in [0, 256). *)
Definition byte : Type := Z.

Definition isByte (b : byte) : Prop := 0 <= b < 256.

(** [make([]byte, n)]: [n] zero bytes. *)
Definition make (n : Z) : list byte := repeat 0 (Z.to_nat n).

(** [len(s)] as a Go [int]. *)
Definition len {A : Type} (s : list A) : Z := Z.of_nat (List.length s).

(** [s[i]]: an index outside [0, len(s)) is a run-time panic, here [None]. *)
Definition index {A : Type} (s : list A) (i : Z) : option A :=
  if i <? 0 then None else nth_error s (Z.to_nat i).

(** [s[lo:hi]] for a slice whose capacity is its length: the bounds
    must satisfy [0 <= lo <= hi <= len(s)], otherwise a run-time panic. *)
Definition slice {A : Type} (s : list A) (lo hi : Z) : option (list A) :=
  if (0 <=? lo) && (lo <=? hi) && (hi <=? len s)
  then Some (firstn (Z.to_nat (hi - lo)) (skipn (Z.to_nat lo) s))
  else None.

(** Errors.  The sentinels are the ones the code compares against or
    returns by name; [NewError] is an error made by [fmt.Errorf] or
    [errors.New], or one coming from the operating system, carrying its
    message. *)
Inductive error : Type :=
| ErrReadonlyFilesystem  (* filesystem.ErrReadonlyFilesystem *)
| ErrNotImplemented      (* filesystem.ErrNotImplemented *)
| EOF                    (* io.EOF *)
| NewError (msg : string).

(** [err.Error()] *)
Definition Error (e : error) : string :=
  match e with
  | ErrReadonlyFilesystem => "read-only filesystem"
  | ErrNotImplemented => "method not implemented (patches are welcome)"
  | EOF => "EOF"
  | NewError msg => msg
  end.

(** The verb [%d]. *)
Definition itoa (z : Z) : string := NilZero.string_of_int (Z.to_int z).

(** [strings.HasPrefix(s, prefix)] *)
Definition HasPrefix (s pre : string) : bool := String.prefix pre s.

(** What a call gives back: a value, an error, or a run-time panic. *)
Inductive outcome (A : Type) : Type :=
| Ok (a : A)
| Err (e : error)
| Panic (msg : string).
Arguments Ok {A} a.
Arguments Err {A} e.
Arguments Panic {A} msg.

(** *** Package [os]: the open flags (values of the Linux port) *)

Definition O_RDONLY : Z := 0x0.
Definition O_WRONLY : Z := 0x1.
Definition O_RDWR   : Z := 0x2.
Definition O_CREATE : Z := 0x40.
Definition O_EXCL   : Z := 0x80.
Definition O_TRUNC  : Z := 0x200.
Definition O_APPEND : Z := 0x400.

(** *** Package [path] *)

(** The elements of [s] between slashes: ["a//b"] gives [["a"; ""; "b"]]. *)
Fixpoint splitSlash (s : string) : list string :=
  match s with
  | EmptyString => [EmptyString]
  | String c s' =>
      if Ascii.eqb c "/" then EmptyString :: splitSlash s'
      else match splitSlash s' with
           | h :: t => String c h :: t
           | [] => [String c EmptyString]
           end
  end.

(** One element of the path seen by [Clean]; [acc] holds the elements
    kept so far, last one first. *)
Definition cleanStep (rooted : bool) (acc : list string) (elem : string)
  : list string :=
  if String.eqb elem "" || String.eqb elem "." then acc
  else if String.eqb elem ".." then
    match acc with
    | top :: rest =>
        if String.eqb top ".." then ".." :: acc else rest
    | [] => if rooted then [] else [".."]
    end
  else elem :: acc.

(** [path.Clean]: single slashes, no [.] element, no inner [..]
    element, no [..] at the start of a rooted path; the empty result is
    ["."]. *)
Definition Clean (p : string) : string :=
  if String.eqb p "" then "."
  else
    let rooted := String.prefix "/" p in
    let kept := fold_left (cleanStep rooted) (splitSlash p) [] in
    let body := String.concat "/" (rev kept) in
    if rooted then "/" ++ body
    else if String.eqb body "" then "." else body.

(** [path.Split]: the part up to and including the last slash, and the rest. *)
Definition Split (p : string) : string * string :=
  let elems := splitSlash p in
  (String.concat "" (map (fun e => e ++ "/") (removelast elems)),
   last elems "").

(** [path.Dir] *)
Definition Dir (p : string) : string := Clean (fst (Split p)).

Fixpoint dropEmptyPrefix (l : list string) : list string :=
  match l with
  | e :: l' => if String.eqb e "" then dropEmptyPrefix l' else l
  | [] => []
  end.

(** [path.Base]: the last element, trailing slashes removed; ["."] for
    the empty path and ["/"] for a path of slashes only. *)
Definition Base (p : string) : string :=
  if String.eqb p "" then "."
  else match dropEmptyPrefix (rev (splitSlash p)) with
       | e :: _ => e
       | [] => "/"
       end.

(** [path.Join] of two elements. *)
Definition Join (a b : string) : string :=
  if String.eqb a "" && String.eqb b "" then ""
  else if String.eqb a "" then Clean b
  else if String.eqb b "" then Clean a
  else Clean (a ++ "/" ++ b).

End Go.

(** ** filesystem/ext4/cmp.go *)

Module Cmp.

(** [Ordered] is the constraint of cmp.go: the types that support the
    operators [<], [>] and [!=].  The operators are fields; the laws are
    the ones that every type of the constraint obeys (integers, strings
    and IEEE-754 floating point alike): [<] is asymmetric, and a value
    that differs from itself (a NaN) is unordered with everything.
    In Go [x > y] is [y < x] for every such type. *)
Class Ordered (T : Type) : Type := {
  lt  : T -> T -> bool;
  neq : T -> T -> bool;
  lt_asym  : forall x y, lt x y = true -> lt y x = false;
  lt_nan_l : forall x y, neq x x = true -> lt x y = false;
  lt_nan_r : forall x y, neq y y = true -> lt x y = false
}.

Definition gt {T : Type} `{Ordered T} (x y : T) : bool := lt y x.

Section Generic.
Context {T : Type} `{Ordered T}.

(** func isNaN[T Ordered](x T) bool { return x != x } *)
Definition isNaN (x : T) : bool := neq x x.

(** func Less[T Ordered](x, y T) bool *)
Definition Less (x y : T) : bool :=
  (isNaN x && negb (isNaN y)) || lt x y.

(** func Compare[T Ordered](x, y T) int *)
Definition Compare (x y : T) : Z :=
  let xNaN := isNaN x in
  let yNaN := isNaN y in
  if xNaN then
    if yNaN then 0 else -1
  else if yNaN then 1
  else if lt x y then -1
  else if gt x y then 1
  else 0.

(** func max[T Ordered](x T, y T) T *)
Definition max (x y : T) : T := if gt x y then x else y.

(** func min[T Ordered](x T, y T) T *)
Definition min (x y : T) : T := if lt x y then x else y.

End Generic.

(** Signed and unsigned integers of every width: the comparison is the one
    of the integer that the value denotes. *)
#[global, refine] Instance Ordered_int : Ordered Z :=
  {| lt := Z.ltb; neq := fun x y => negb (Z.eqb x y) |}.
Proof.
  - intros x y Hxy. apply Z.ltb_lt in Hxy. apply Z.ltb_ge. lia.
  - intros x y Hx. rewrite Z.eqb_refl in Hx. discriminate.
  - intros x y Hy. rewrite Z.eqb_refl in Hy. discriminate.
Defined.

(** Strings: byte-wise lexicographic order. *)
#[global, refine] Instance Ordered_string : Ordered string :=
  {| lt := String.ltb; neq := fun x y => negb (String.eqb x y) |}.
Proof.
  - intros x y. unfold String.ltb. rewrite (String.compare_antisym y x).
    destruct (String.compare x y); simpl; congruence.
  - intros x y Hx. rewrite String.eqb_refl in Hx. discriminate.
  - intros x y Hy. rewrite String.eqb_refl in Hy. discriminate.
Defined.

(** float32 and float64: the IEEE-754 comparison, with NaN, signed zeros
    and infinities. *)
#[global, refine] Instance Ordered_float : Ordered spec_float :=
  {| lt := SFltb; neq := fun x y => negb (SFeqb x y) |}.
Proof.
  - assert (antisym : forall x y : spec_float,
               SFcompare y x = option_map CompOpp (SFcompare x y)).
    { intros x y.
      destruct x as [sx|sx| |sx mx ex], y as [sy|sy| |sy my ey]; simpl;
        try reflexivity;
        try (destruct sx; reflexivity);
        try (destruct sy; reflexivity);
        try (destruct sx, sy; reflexivity).
      assert (Hm : Pos.compare_cont Eq my mx
                   = CompOpp (Pos.compare_cont Eq mx my)).
      { rewrite Pos.compare_cont_antisym. reflexivity. }
      rewrite Hm, (Z.compare_antisym ex ey).
      destruct sx, sy; try reflexivity;
        destruct (ex ?= ey); simpl; try reflexivity. }
    intros x y. unfold SFltb. rewrite (antisym x y).
    destruct (SFcompare x y) as [[]|]; simpl; congruence.
  - intros x y. unfold SFeqb, SFltb.
    destruct x as [s|s| |s m e]; simpl; try discriminate; try reflexivity.
    + destruct s; discriminate.
    + rewrite Z.compare_refl.
      assert (Hm : Pos.compare_cont Eq m m = Eq) by apply Pos.compare_refl.
      rewrite Hm. destruct s; discriminate.
  - intros x y. unfold SFeqb, SFltb.
    destruct y as [s|s| |s m e]; simpl; try discriminate.
    + destruct s; discriminate.
    + intros _. destruct x; reflexivity.
    + rewrite Z.compare_refl.
      assert (Hm : Pos.compare_cont Eq m m = Eq) by apply Pos.compare_refl.
      rewrite Hm. destruct s; discriminate.
Defined.

Definition nan : spec_float := S754_nan.
Definition one : spec_float := S754_finite false 1 0.

End Cmp.

(** ** partition/mbr *)

Module Mbr.
Import Go.

(** Modelled from the spec: partition/mbr/partition.go, with the type
    [Partition] and its functions [toBytes], [partitionFromBytes],
    [Equal] and [WriteContents], is not among the sources; only its
    internal test is.  The model follows sections 3, 4.1, 7 and 8 of the
    specification; the field names, the error messages and the default
    sector size are the ones that the test uses. *)

Definition partitionEntrySize : Z := 16.

(** Modelled from the spec: the error kinds of section 7 that the MBR
    entry raises; [SizeMismatch] is the failure that the test "mismatched
    size" expects when the producer ends before the partition is full. *)
Inductive error : Type :=
| InvalidEntry (reason : string)
| PartitionTooSmall (written capacity : Z)
| BackendIO (cause : Go.error)
| SizeMismatch (written capacity : Z).

(** The one-byte type code. *)
Definition Type_ : Type := byte.
Definition Empty : Type_ := 0x00.
Definition Linux : Type_ := 0x83.

(** Modelled from the spec: "bootable flag; starting CHS triple (head,
    sector 1-63, cylinder 0-1023); one-byte type code; ending CHS triple;
    32-bit LBA start; 32-bit sector count", and the two sector sizes that
    [partitionFromBytes] receives. *)
Record Partition : Type := {
  Bootable : bool;
  StartHead : Z;
  StartSector : Z;
  StartCylinder : Z;
  Type' : Type_;
  EndHead : Z;
  EndSector : Z;
  EndCylinder : Z;
  Start : Z;
  Size : Z;
  logicalSectorSize : Z;
  physicalSectorSize : Z
}.

(** The values that the fields of an entry can hold: a head is a byte,
    a sector has 6 bits, a cylinder has 10 bits, the type is a byte, the
    LBA start and the sector count have 32 bits. *)
Definition wellFormed (p : Partition) : Prop :=
  0 <= StartHead p < 256 /\ 0 <= StartSector p < 64 /\
  0 <= StartCylinder p < 1024 /\
  0 <= Type' p < 256 /\
  0 <= EndHead p < 256 /\ 0 <= EndSector p < 64 /\
  0 <= EndCylinder p < 1024 /\
  0 <= Start p < 2 ^ 32 /\ 0 <= Size p < 2 ^ 32.

(** Modelled from the spec: "Two entries are equal iff every semantic
    field (bootable flag, CHS, type, LBA range) matches bit-for-bit". *)
Definition Equal (p q : Partition) : bool :=
  Bool.eqb (Bootable p) (Bootable q) &&
  (StartHead p =? StartHead q) && (StartSector p =? StartSector q) &&
  (StartCylinder p =? StartCylinder q) &&
  (Type' p =? Type' q) &&
  (EndHead p =? EndHead q) && (EndSector p =? EndSector q) &&
  (EndCylinder p =? EndCylinder q) &&
  (Start p =? Start q) && (Size p =? Size q).

(** Modelled from the spec: "CHS fields are packed as three bytes:
    {head, ((sector & 0x3F) | ((cylinder >> 2) & 0xC0)), (cylinder & 0xFF)}". *)
Definition packCHS (head sector cylinder : Z) : list byte :=
  [ Z.land head 0xFF;
    Z.lor (Z.land sector 0x3F) (Z.land (Z.shiftr cylinder 2) 0xC0);
    Z.land cylinder 0xFF ].

(** The inverse of the packing: the sector is the low 6 bits of the
    second byte, the cylinder takes its bits 8 and 9 from the top of the
    second byte. *)
Definition unpackCHS (b0 b1 b2 : byte) : Z * Z * Z :=
  (b0, Z.land b1 0x3F, Z.lor (Z.shiftl (Z.land b1 0xC0) 2) b2).

(** [binary.LittleEndian.PutUint32] *)
Definition putUint32 (v : Z) : list byte :=
  [ Z.land v 0xFF;
    Z.land (Z.shiftr v 8) 0xFF;
    Z.land (Z.shiftr v 16) 0xFF;
    Z.land (Z.shiftr v 24) 0xFF ].

(** [binary.LittleEndian.Uint32] *)
Definition getUint32 (b0 b1 b2 b3 : byte) : Z :=
  Z.lor (Z.lor (Z.lor b0 (Z.shiftl b1 8)) (Z.shiftl b2 16)) (Z.shiftl b3 24).

(** Modelled from the spec: the encoder of the 16-byte entry.  The CHS
    bytes are the packed fields of the entry; they are not computed from
    the LBA fields. *)
Definition toBytes (p : Partition) : list byte :=
  ([ if Bootable p then 0x80 else 0x00 ]
   ++ packCHS (StartHead p) (StartSector p) (StartCylinder p)
   ++ [ Z.land (Type' p) 0xFF ]
   ++ packCHS (EndHead p) (EndSector p) (EndCylinder p)
   ++ putUint32 (Start p)
   ++ putUint32 (Size p))%list.

(** Modelled from the spec: the decoder.  It fails when the input is not
    16 bytes long, with the message of section 8, and when the bootable
    byte is neither 0x00 nor 0x80.  As in Go the result is a pair of a
    partition (or nil) and an error (or nil). *)
Definition partitionFromBytes (b : list byte)
    (logicalSectorSize physicalSectorSize : Z)
  : option Partition * option error :=
  if negb (len b =? partitionEntrySize) then
    (None, Some (InvalidEntry
       ("data for partition was " ++ itoa (len b)
        ++ " bytes instead of expected " ++ itoa partitionEntrySize)))
  else
    let at' (i : nat) : byte := nth i b 0 in
    let decoded (bootable : bool) :=
      let '(sh, ss, sc) := unpackCHS (at' 1%nat) (at' 2%nat) (at' 3%nat) in
      let '(eh, es, ec) := unpackCHS (at' 5%nat) (at' 6%nat) (at' 7%nat) in
      (Some {| Bootable := bootable;
               StartHead := sh; StartSector := ss; StartCylinder := sc;
               Type' := at' 4%nat;
               EndHead := eh; EndSector := es; EndCylinder := ec;
               Start := getUint32 (at' 8%nat) (at' 9%nat) (at' 10%nat) (at' 11%nat);
               Size := getUint32 (at' 12%nat) (at' 13%nat) (at' 14%nat) (at' 15%nat);
               logicalSectorSize := logicalSectorSize;
               physicalSectorSize := physicalSectorSize |}, None) in
    if at' 0%nat =? 0x00 then decoded false
    else if at' 0%nat =? 0x80 then decoded true
    else (None, Some (InvalidEntry "invalid partition")).

(** The entry with the sector sizes that the decoder was given. *)
Definition withSectorSizes (p : Partition) (lss pss : Z) : Partition :=
  {| Bootable := Bootable p;
     StartHead := StartHead p; StartSector := StartSector p;
     StartCylinder := StartCylinder p;
     Type' := Type' p;
     EndHead := EndHead p; EndSector := EndSector p;
     EndCylinder := EndCylinder p;
     Start := Start p; Size := Size p;
     logicalSectorSize := lss; physicalSectorSize := pss |}.

(** The fixture testdata/mbr_partition.dat as the test "Valid partition"
    reads it back. *)
Definition fixture : list byte :=
  [0x00; 0x20; 0x21; 0x00; 0x83; 0x31; 0x18; 0x00;
   0x00; 0x08; 0x00; 0x00; 0x00; 0x50; 0x00; 0x00].

(** *** Writing the contents of a partition *)

(** The sector sizes of an entry, physical then logical; an entry that
    does not set them has 512-byte sectors. *)
Definition sectorSizes (p : Partition) : Z * Z :=
  (if physicalSectorSize p =? 0 then 512 else physicalSectorSize p,
   if logicalSectorSize p =? 0 then 512 else logicalSectorSize p).

(** The writable backing store: [WriteAt(b, offset)] gives the number of
    bytes written and an error or nil. *)
Record WritableFile : Type := {
  WriteAt : list byte -> Z -> Z * option Go.error
}.

(** What the backing store received: the offset and the bytes of each
    [WriteAt], latest first. *)
Definition writeLog : Type := list (Z * list byte).

(** Modelled from the spec: "writes fail with PartitionTooSmall{written,
    capacity} when the producer has more bytes than the partition can
    hold.  Writes transfer in chunks [...]", "Streaming reads/writes
    return the byte count delivered so far alongside the error".
    The producer is a reader over the bytes [contents], as in the test:
    each read fills the chunk while bytes remain, and the read after the
    last byte reports the end of the data.  [fuel] bounds the number of
    reads; [None] is a loop that ran out of it. *)
Fixpoint writeLoop (fuel : nat) (f : WritableFile) (contents : list byte)
    (chunk start capacity total : Z) (log : writeLog)
  : option (Z * option error * writeLog) :=
  match fuel with
  | O => None
  | S fuel' =>
      let b := firstn (Z.to_nat chunk) contents in
      let rest := skipn (Z.to_nat chunk) contents in
      let read := len b in
      let eof := match contents with [] => true | _ => false end in
      if total + read >? capacity then
        Some (total, Some (PartitionTooSmall total capacity), log)
      else if eof then
        if negb (total =? capacity)
        then Some (total, Some (SizeMismatch total capacity), log)
        else Some (total, None, log)
      else
        let '(written, err) := WriteAt f b (start + total) in
        let log' := ((start + total, b) :: log)%list in
        match err with
        | Some e => Some (total, Some (BackendIO e), log')
        | None =>
            writeLoop fuel' f rest chunk start capacity (total + written) log'
        end
  end.

(** Modelled from the spec: the byte range of the partition is
    [[Start * lss, (Start + Size) * lss)]; the chunk has the physical
    sector size "but never less than one logical sector". *)
Definition WriteContents (p : Partition) (f : WritableFile)
    (contents : list byte) : option (Z * option error * writeLog) :=
  let '(pss, lss) := sectorSizes p in
  let chunk := Z.max pss lss in
  let start := Start p * lss in
  let capacity := Size p * lss in
  writeLoop (S (List.length contents)) f contents chunk start capacity 0 [].


(** The backing store of the test "too large for partition": every
    write is accepted in full. *)
Definition acceptAll : WritableFile :=
  {| WriteAt := fun b _ => (len b, None) |}.

(** The backing store of the test "error writing file". *)
Definition rejectAll : WritableFile :=
  {| WriteAt := fun _ _ => (0, Some (NewError "error writing to file")) |}.

End Mbr.

(** ** disk/disk.go *)

Module Disk.
Import Go.

(** What a call on the disk does outside the disk object. *)
Inductive event : Type :=
| Writable                (* d.Backend.Writable() *)
| ReadContents (slot : Z)   (* partitions[slot].ReadContents(...) *)
| WriteContents (slot : Z). (* partitions[slot].WriteContents(...) *)

(** partition.Partition, the interface: the result of streaming the
    contents out of and into the partition, and its extent. *)
Record Partition : Type := {
  readContents : Z * option error;
  writeContents : list byte -> Z * option error;
  GetSize : Z;
  GetStart : Z
}.

(** partition.Table, the interface: [GetPartitions()]. *)
Record Table : Type := {
  GetPartitions : list Partition
}.

(** backend.Storage: [Writable()] gives the writable view, or an error. *)
Record Storage : Type := {
  writable : option error
}.

(** type Disk struct; a nil [Table] is [None]. *)
Record Disk : Type := {
  Backend : Storage;
  Size : Z;
  LogicalBlocksize : Z;
  PhysicalBlocksize : Z;
  Table' : option Table;
  DefaultBlocks : bool
}.

(** The conversion [int64(x)] of an unsigned 64-bit count. *)
Definition int64 (x : Z) : Z := (x + 2 ^ 63) mod 2 ^ 64 - 2 ^ 63.

(** What a method of the disk gives back: the pair of a count and an
    error (or nil), or the run-time panic of an index out of range. *)
Inductive result : Type :=
| Return (n : Z) (err : option error)
| PanicIndexOutOfRange (i : Z) (length : Z).

(** func (d *Disk) WritePartitionContents(part int, reader io.Reader) (int64, error)
    The reader is the list of bytes it holds.  The events are the calls
    made, in order. *)
Definition WritePartitionContents (d : Disk) (part : Z) (reader : list byte)
  : list event * result :=
  match writable (Backend d) with
  | Some err => ([Writable], Return (-1) (Some err))
  | None =>
      match Table' d with
      | None =>
          ([Writable], Return (-1) (Some (NewError
             "cannot write contents of a partition on a disk without a partition table")))
      | Some table =>
          if part <? 0 then
            ([Writable], Return (-1) (Some (NewError
               "cannot write contents of a partition without specifying a partition")))
          else
            let partitions := GetPartitions table in
            (* API indexes from 1, but slice from 0 *)
            if part >? len partitions then
              ([Writable], Return (-1) (Some (NewError
                 ("cannot write contents of partition " ++ itoa part
                  ++ " which is greater than max partition "
                  ++ itoa (len partitions)))))
            else
              match index partitions (part - 1) with
              | None =>
                  ([Writable], PanicIndexOutOfRange (part - 1) (len partitions))
              | Some p =>
                  let '(written, err) := writeContents p reader in
                  ([Writable; WriteContents (part - 1)],
                   Return (int64 written) err)
              end
      end
  end.

(** func (d *Disk) ReadPartitionContents(part int, writer io.Writer) (int64, error) *)
Definition ReadPartitionContents (d : Disk) (part : Z) : list event * result :=
  match Table' d with
  | None =>
      ([], Return (-1) (Some (NewError
         "cannot read contents of a partition on a disk without a partition table")))
  | Some table =>
      if part <? 0 then
        ([], Return (-1) (Some (NewError
           "cannot read contents of a partition without specifying a partition")))
      else
        let partitions := GetPartitions table in
        (* API indexes from 1, but slice from 0 *)
        if part >? len partitions then
          ([], Return (-1) (Some (NewError
             ("cannot read contents of partition " ++ itoa part
              ++ " which is greater than max partition "
              ++ itoa (len partitions)))))
        else
          match index partitions (part - 1) with
          | None => ([], PanicIndexOutOfRange (part - 1) (len partitions))
          | Some p =>
              let '(read, err) := readContents p in
              ([ReadContents (part - 1)], Return read err)
          end
  end.

(** The result is an error returned to the caller. *)
Definition isError (r : result) : bool :=
  match r with
  | Return _ (Some _) => true
  | _ => false
  end.

(** No partition content was read or written. *)
Definition noContentIO (evs : list event) : bool :=
  forallb (fun e => match e with Writable => true | _ => false end) evs.

(** A disk with an MBR-like table of one 20480-sector partition on a
    backend that can be written. *)
Definition onePartition : Partition :=
  {| readContents := (20480 * 512, None);
     writeContents := fun b => (len b, None);
     GetSize := 20480 * 512;
     GetStart := 2048 * 512 |}.

Definition oneDisk : Disk :=
  {| Backend := {| writable := None |};
     Size := 16 * 1024 * 1024;
     LogicalBlocksize := 512;
     PhysicalBlocksize := 512;
     Table' := Some {| GetPartitions := [onePartition] |};
     DefaultBlocks := false |}.

End Disk.

(** ** filesystem/squashfs/squashfs.go *)

Module Squashfs.
Import Go.

Definition KB : Z := 1024.
Definition MB : Z := 1024 * KB.

Definition defaultBlockSize : Z := 128 * KB.
Definition metadataBlockSize : Z := 8 * KB.
Definition minBlocksize : Z := 4 * KB.
Definition maxBlocksize : Z := 1 * MB.
Definition defaultCacheSize : Z := 128 * MB.

(** *** The types that squashfs.go uses *)

(** The superblock: the fields that [Read] and [readBlock] look at. *)
Record superblock : Type := {
  blocksize : Z;
  compression : Z;
  noXattrs : bool;
  xattrTableStart : Z;
  rootInodeBlock : Z;
  rootInodeOffset : Z
}.

Record fragmentEntry : Type := {
  start : Z;
  size : Z;
  compressed : bool
}.

(** An inode as [getInode] gives it: the type tag of its header and the
    bytes of its body. *)
Record inode : Type := {
  inodeType : Z;
  inodeBody : list byte
}.

Record xAttrTable : Type := {
  xattrList : list (Z * Z * Z);
  xattrData : list byte
}.

(** A hydrated directory entry; [Name()] is [name] and [IsDir()] is
    [isSubdirectory]. *)
Record directoryEntry : Type := {
  isSubdirectory : bool;
  name : string;
  entrySize : Z;
  mode : Z;
  uid : Z;
  gid : Z
}.

(** filesystem.File: a file of the image, or a file of the workspace. *)
Inductive File : Type :=
| ImageFile (e : directoryEntry)
| WorkspaceFile (path : string) (flag : Z).

(** backend.Storage: [ReadAt(b, off)] for a buffer of [n] bytes gives the
    bytes read, at most [n], and an error or nil. *)
Record Storage : Type := {
  ReadAt : Z -> Z -> list byte * option error
}.

(** Compressor: [decompress(b)] gives the bytes, or an error. *)
Record Compressor : Type := {
  decompress : list byte -> outcome (list byte)
}.

(** type FileSystem struct; the nil pointers and interfaces are [None].
    The cache, which the methods update in place, is in the [world]. *)
Record FileSystem : Type := {
  workspace : string;
  superblock' : option superblock;
  fsSize : Z;
  fsStart : Z;
  backend : Storage;
  fsBlocksize : Z;
  compressor : option Compressor;
  fragments : list fragmentEntry;
  uidsGids : list Z;
  xattrs : option xAttrTable;
  rootDir : option inode
}.

(** *** Effects *)

(** What a call does outside the filesystem object, as it happens. *)
Inductive event : Type :=
| BackendReadAt (n off : Z)            (* backend.ReadAt *)
| Decompress (n : Z)                   (* compressor.decompress *)
| CacheInsert (pos : Z)                (* a block enters the cache *)
| ReadFragmentTable                    (* readFragmentTable *)
| ReadXattrsTable                      (* readXattrsTable *)
| ReadUidsGids                         (* readUidsGids *)
| GetInode (block offset : Z)          (* fs.getInode *)
| GetDirectoryEntries (p : string)     (* fs.getDirectoryEntries *)
| EntryOpen (name : string)            (* directoryEntry.Open *)
| OsMkdirTemp (dir pattern : string)   (* os.MkdirTemp *)
| OsRemoveAll (path : string)          (* os.RemoveAll *)
| OsOpenFile (path : string) (flag perm : Z). (* os.OpenFile *)

(** A cached block: the decompressed payload and the size on disk. *)
Definition block : Type := (list byte * Z)%type.

(** Modelled from the spec: lru.go is not among the sources.  Section 4.4:
    capacity in number of slots; an access moves the entry to the
    most-recent position; an insertion at capacity evicts the
    least-recent entry.  The entries are kept most recent first. *)
Record lru : Type := {
  maxBlocks : Z;
  blocks : list (Z * block)
}.

Definition newLRU (maxBlocks : Z) : lru :=
  {| maxBlocks := maxBlocks; blocks := [] |}.

(** The world: the events so far, latest first, and the cache of the
    filesystem ([None] is a nil cache). *)
Record world : Type := {
  trace : list event;
  cache : option lru
}.

(** Computations that read and update the world. *)
Definition M (A : Type) : Type := world -> A * world.

Definition ret {A : Type} (a : A) : M A := fun w => (a, w).

Definition bind {A B : Type} (m : M A) (k : A -> M B) : M B :=
  fun w => let '(a, w') := m w in k a w'.

Notation "x <- c1 ;; c2" := (bind c1 (fun x => c2))
  (at level 61, c1 at next level, right associativity).
Notation "' pat <- c1 ;; c2" := (bind c1 (fun x => let pat := x in c2))
  (at level 61, pat pattern, c1 at next level, right associativity).

Definition emit (e : event) : M unit :=
  fun w => (tt, {| trace := (e :: trace w)%list; cache := cache w |}).

Definition getCache : M (option lru) := fun w => (cache w, w).

Definition setCache (c : option lru) : M unit :=
  fun w => (tt, {| trace := trace w; cache := c |}).

(** An error of a callee, wrapped as [fmt.Errorf(prefix + "%v", err)]. *)
Definition wrap {A : Type} (pre : string) (r : outcome A) : outcome A :=
  match r with
  | Err e => Err (NewError (pre ++ Error e))
  | _ => r
  end.

(** Sequencing on success: an error or a panic of the first step is the
    result. *)
Definition andThen {A B : Type} (m : M (outcome A)) (k : A -> M (outcome B))
  : M (outcome B) :=
  r <- m ;;
  match r with
  | Ok a => k a
  | Err e => ret (Err e)
  | Panic msg => ret (Panic msg)
  end.

Notation "x <-? c1 ;; c2" := (andThen c1 (fun x => c2))
  (at level 61, c1 at next level, right associativity).

(** What the environment answers: package [os], and the functions of
    package squashfs whose bodies rest on code that is not among the
    sources (the superblock and inode parsers, the metadata reader).
    Each of the latter is a step that leaves an event; its result is the
    one given here.  [newCompressor] may answer a nil compressor with a
    nil error.  [inodeAt] and [directoryEntries] stand for [fs.getInode]
    and [fs.getDirectoryEntries], which fetch the metadata through the
    cache of the filesystem: they are given the cache as it is and give
    back, with their result, the cache as they leave it. *)
Record externals : Type := {
  osMkdirTemp : string -> string -> string * option error;
  osRemoveAll : string -> option error;
  osOpenFile : string -> Z -> Z -> option error;
  superblockSize : Z;
  inodeBasicDirectory : Z;
  parseSuperblock : list byte -> outcome superblock;
  newCompressor : Z -> outcome (option Compressor);
  fragmentTable : superblock -> outcome (list fragmentEntry);
  xattrsTable : superblock -> outcome (option xAttrTable);
  uidsGidsTable : superblock -> outcome (list Z);
  inodeAt : Z -> Z -> Z -> option lru -> outcome inode * option lru;
  directoryEntries : string -> option inode -> option lru
                     -> outcome (list directoryEntry) * option lru;
  entryOpen : directoryEntry -> option error
}.

(** A step that works on the cache of the filesystem. *)
Definition throughCache {A : Type} (step : option lru -> A * option lru)
  : M A :=
  c <- getCache ;;
  let '(r, c') := step c in
  _ <- setCache c' ;;
  ret r.

(** [b.ReadAt(buf, off)] with [len(buf) = n]. *)
Definition backendReadAt (b : Storage) (n off : Z)
  : M (list byte * option error) :=
  _ <- emit (BackendReadAt n off) ;; ret (ReadAt b n off).

(** [c.decompress(b)] *)
Definition runDecompress (c : Compressor) (b : list byte)
  : M (outcome (list byte)) :=
  _ <- emit (Decompress (len b)) ;; ret (decompress c b).

Definition isEOF (e : error) : bool :=
  match e with EOF => true | _ => false end.

(** [err != nil && err != io.EOF] *)
Definition failed (err : option error) : option error :=
  match err with
  | Some e => if isEOF e then None else Some e
  | None => None
  end.

(** *** The block cache *)

Fixpoint lookup (pos : Z) (l : list (Z * block)) : option block :=
  match l with
  | [] => None
  | (p, b) :: l' => if p =? pos then Some b else lookup pos l'
  end.

Fixpoint remove (pos : Z) (l : list (Z * block)) : list (Z * block) :=
  match l with
  | [] => []
  | (p, b) :: l' => if p =? pos then remove pos l' else (p, b) :: remove pos l'
  end.

(** Modelled from the spec: [lru.get(pos, fetch)].  "Capacity <= 0
    disables caching entirely (every access is a miss and yields no
    insertion) [...] Accessing a missing key triggers the caller-supplied
    loader exactly once; if the loader fails, nothing is inserted."  A nil
    cache behaves as a disabled one. *)
Definition cacheGet (pos : Z) (fetch : M (outcome block)) : M (outcome block) :=
  c <- getCache ;;
  match c with
  | None => fetch
  | Some l =>
      if maxBlocks l <=? 0 then fetch
      else
        match lookup pos (blocks l) with
        | Some b =>
            _ <- setCache (Some {| maxBlocks := maxBlocks l;
                                   blocks := (pos, b) :: remove pos (blocks l) |}) ;;
            ret (Ok b)
        | None =>
            b <-? fetch ;;
            _ <- emit (CacheInsert pos) ;;
            _ <- setCache (Some {| maxBlocks := maxBlocks l;
                                   blocks := firstn (Z.to_nat (maxBlocks l))
                                                    ((pos, b) :: blocks l) |}) ;;
            ret (Ok b)
        end
  end.

(** *** Block size *)

(** The type float64 is taken as the real numbers: the conversion of an
    integer below 2^53 is exact, and the logarithm is looked at only for
    the integers from 4096 to 1048576, where [math.Log2] is a whole
    number exactly for the powers of two. *)
Definition Log2 (x : R) : R := (ln x / ln 2)%R.

(** [math.Trunc]: the integer part, towards zero. *)
Definition Trunc (x : R) : R :=
  if Rlt_dec x 0 then (- IZR (Int_part (- x)))%R else IZR (Int_part x).

(** func validateBlocksize(blocksize int64) error *)
Definition validateBlocksize (blocksize : Z) : option error :=
  let blocksizeFloat := IZR blocksize in
  let l2 := Log2 blocksizeFloat in
  if blocksize <? minBlocksize then
    Some (NewError ("blocksize " ++ itoa blocksize
                    ++ " too small, must be at least " ++ itoa minBlocksize))
  else if blocksize >? maxBlocksize then
    Some (NewError ("blocksize " ++ itoa blocksize
                    ++ " too large, must be no more than " ++ itoa maxBlocksize))
  else if Req_EM_T (Trunc l2) l2 then None
  else Some (NewError ("blocksize " ++ itoa blocksize ++ " is not a power of 2")).

(** The same test on integers, which computes. *)
Definition isPowerOfTwo (n : Z) : bool := (0 <? n) && (2 ^ Z.log2 n =? n).

Definition validateBlocksizeZ (blocksize : Z) : option error :=
  if blocksize <? minBlocksize then
    Some (NewError ("blocksize " ++ itoa blocksize
                    ++ " too small, must be at least " ++ itoa minBlocksize))
  else if blocksize >? maxBlocksize then
    Some (NewError ("blocksize " ++ itoa blocksize
                    ++ " too large, must be no more than " ++ itoa maxBlocksize))
  else if isPowerOfTwo blocksize then None
  else Some (NewError ("blocksize " ++ itoa blocksize ++ " is not a power of 2")).

(** *** Create, Read, Close *)

(** The steps of [Create] after the block size is validated. *)
Definition createWorkspace (ext : externals) (b : Storage)
    (size start blocksize : Z) : M (outcome FileSystem) :=
  _ <- emit (OsMkdirTemp "" "diskfs_squashfs") ;;
  let '(tmpdir, err) := osMkdirTemp ext "" "diskfs_squashfs" in
  match err with
  | Some e =>
      ret (Err (NewError ("could not create working directory: " ++ Error e)))
  | None =>
      ret (Ok {| workspace := tmpdir;
                 superblock' := None;
                 fsSize := size;
                 fsStart := start;
                 backend := b;
                 fsBlocksize := blocksize;
                 compressor := None;
                 fragments := [];
                 uidsGids := [];
                 xattrs := None;
                 rootDir := None |})
  end.

(** func Create(b backend.Storage, size, start, blocksize int64): a filesystem, or an error *)
Definition Create (ext : externals) (b : Storage) (size start blocksize : Z)
  : M (outcome FileSystem) :=
  let blocksize := if blocksize =? 0 then defaultBlockSize else blocksize in
  (* make sure it is an allowed blocksize *)
  match validateBlocksize blocksize with
  | Some err => ret (Err err)
  | None => createWorkspace ext b size start blocksize
  end.

(** The steps of [Read] after the superblock is parsed. *)
Definition loadTables (ext : externals) (b : Storage) (size start : Z)
    (s : superblock) : M (outcome FileSystem) :=
  match wrap "unable to create compressor: " (newCompressor ext (compression s)) with
  | Err e => ret (Err e)
  | Panic msg => ret (Panic msg)
  | Ok compress =>
      fragments <-? (_ <- emit ReadFragmentTable ;;
                     ret (wrap "error reading fragments: " (fragmentTable ext s))) ;;
      xattrs <-? (if negb (noXattrs s)
                     && negb (xattrTableStart s =? 0xffffffffffffffff)
                  then _ <- emit ReadXattrsTable ;;
                       ret (wrap "error reading xattr table: " (xattrsTable ext s))
                  else ret (Ok None)) ;;
      uidsgids <-? (_ <- emit ReadUidsGids ;;
                    ret (wrap "error reading uids/gids: " (uidsGidsTable ext s))) ;;
      if blocksize s =? 0 then ret (Panic "integer divide by zero")
      else
        _ <- setCache (Some (newLRU (Z.quot defaultCacheSize (blocksize s)))) ;;
        (* for efficiency, read in the root inode right now *)
        _ <- emit (GetInode (rootInodeBlock s) (rootInodeOffset s)) ;;
        r <- throughCache (inodeAt ext (rootInodeBlock s) (rootInodeOffset s)
                                   (inodeBasicDirectory ext)) ;;
        match r with
        | Err _ => ret (Err (NewError "unable to read root inode"))
        | Panic msg => ret (Panic msg)
        | Ok rootInode =>
            ret (Ok {| workspace := "";
                       superblock' := Some s;
                       fsSize := size;
                       fsStart := start;
                       backend := b;
                       fsBlocksize := blocksize s;
                       compressor := compress;
                       fragments := fragments;
                       uidsGids := uidsgids;
                       xattrs := xattrs;
                       rootDir := Some rootInode |})
        end
  end.

(** The steps of [Read] after the block size is validated: the
    superblock is read from the backend and parsed, then the tables. *)
Definition readImage (ext : externals) (b : Storage) (size start : Z)
  : M (outcome FileSystem) :=
  ' (superblockBytes, err) <- backendReadAt b (superblockSize ext) start ;;
  match err with
  | Some e =>
      ret (Err (NewError ("unable to read bytes for superblock: " ++ Error e)))
  | None =>
      if negb (len superblockBytes =? superblockSize ext) then
        ret (Err (NewError ("read " ++ itoa (len superblockBytes)
                            ++ " bytes instead of expected "
                            ++ itoa (superblockSize ext) ++ " for superblock")))
      else
        match wrap "error parsing superblock: "
                   (parseSuperblock ext superblockBytes) with
        | Err e => ret (Err e)
        | Panic msg => ret (Panic msg)
        | Ok s => loadTables ext b size start s
        end
  end.

(** func Read(b backend.Storage, size, start, blocksize int64): a filesystem, or an error *)
Definition Read (ext : externals) (b : Storage) (size start blocksize : Z)
  : M (outcome FileSystem) :=
  let blocksize := if blocksize =? 0 then defaultBlockSize else blocksize in
  (* make sure it is an allowed blocksize *)
  match validateBlocksize blocksize with
  | Some err => ret (Err err)
  | None => readImage ext b size start
  end.

(** func (fs *FileSystem) Close() error *)
Definition Close (ext : externals) (fs : FileSystem) : M (option error) :=
  if negb (String.eqb (workspace fs) "") then
    _ <- emit (OsRemoveAll (workspace fs)) ;;
    ret (osRemoveAll ext (workspace fs))
  else ret None.

(** *** Opening a file *)

(** func (fs *FileSystem) readDirectory(p string): the entries, or an error *)
Definition readDirectory (ext : externals) (fs : FileSystem) (p : string)
  : M (outcome (list directoryEntry)) :=
  _ <- emit (GetDirectoryEntries p) ;;
  r <- throughCache (directoryEntries ext p (rootDir fs)) ;;
  ret (wrap ("could not read directory at path " ++ p ++ ": ") r).

(** The loop of [OpenFile] over the entries of the directory: the entry
    called [filename], unless it is a directory. *)
Fixpoint findTarget (p filename : string) (entries : list directoryEntry)
  : outcome (option directoryEntry) :=
  match entries with
  | [] => Ok None
  | e :: rest =>
      let eName := name e in
      if String.eqb eName filename && isSubdirectory e then
        Err (NewError ("cannot open directory " ++ p ++ " as file"))
      else if String.eqb eName filename then Ok (Some e)
      else findTarget p filename rest
  end.

(** A flag set that carries a write intent: write-only, read-write,
    append, create, truncate or exclusive. *)
Definition hasWriteIntent (flag : Z) : Prop :=
  Z.land flag O_WRONLY <> 0 \/ Z.land flag O_RDWR <> 0
  \/ Z.land flag O_APPEND <> 0 \/ Z.land flag O_CREATE <> 0
  \/ Z.land flag O_TRUNC <> 0 \/ Z.land flag O_EXCL <> 0.

(** The condition [writeMode] of [OpenFile]. *)
Definition writeMode (flag : Z) : bool :=
  negb (Z.land flag O_WRONLY =? 0) || negb (Z.land flag O_RDWR =? 0)
  || negb (Z.land flag O_APPEND =? 0) || negb (Z.land flag O_CREATE =? 0)
  || negb (Z.land flag O_TRUNC =? 0) || negb (Z.land flag O_EXCL =? 0).

(** The permission bits 0o644. *)
Definition perm644 : Z := 6 * 64 + 4 * 8 + 4.

(** func (fs *FileSystem) OpenFile(p string, flag int) (filesystem.File, error) *)
Definition OpenFile (ext : externals) (fs : FileSystem) (p : string) (flag : Z)
  : M (outcome File) :=
  (* get the path and filename *)
  let dir := Dir p in
  let filename := Base p in
  (* if the dir == filename, then it is just / *)
  if String.eqb dir filename then
    ret (Err (NewError ("cannot open directory " ++ p ++ " as file")))
  else
    (* cannot open to write or append or create if we do not have a workspace *)
    let writeMode := writeMode flag in
    if String.eqb (workspace fs) "" then
      if writeMode then ret (Err ErrReadonlyFilesystem)
      else
        r <- readDirectory ext fs dir ;;
        match r with
        | Err _ =>
            ret (Err (NewError ("could not read directory entries for " ++ dir)))
        | Panic msg => ret (Panic msg)
        | Ok entries =>
            match findTarget p filename entries with
            | Err e => ret (Err e)
            | Panic msg => ret (Panic msg)
            | Ok None =>
                ret (Err (NewError ("target file " ++ p ++ " does not exist")))
            | Ok (Some targetEntry) =>
                _ <- emit (EntryOpen (name targetEntry)) ;;
                match entryOpen ext targetEntry with
                | Some err => ret (Err err)
                | None => ret (Ok (ImageFile targetEntry))
                end
            end
        end
    else
      let full := Join (workspace fs) p in
      _ <- emit (OsOpenFile full flag perm644) ;;
      match osOpenFile ext full flag perm644 with
      | Some err =>
          ret (Err (NewError ("target file " ++ p ++ " does not exist: "
                              ++ Error err)))
      | None => ret (Ok (WorkspaceFile full flag))
      end.

(** *** Reading data blocks and fragments *)

(** func (fs *FileSystem) readBlock(location int64, compressed bool, size uint32) ([]byte, error) *)
Definition readBlock (fs : FileSystem) (location : Z) (compressed : bool)
    (size : Z) : M (outcome (list byte)) :=
  (* Zero size is a sparse block of blocksize *)
  if size =? 0 then
    match superblock' fs with
    | None => ret (Panic "nil pointer dereference")
    | Some sb => ret (Ok (make (blocksize sb)))
    end
  else
    ' (b, err) <- backendReadAt (backend fs) size location ;;
    match failed err with
    | Some e =>
        ret (Err (NewError ("error reading block " ++ itoa location ++ ": "
                            ++ Error e)))
    | None =>
        if negb (len b =? size) then
          ret (Err (NewError ("read " ++ itoa (len b)
                              ++ " bytes instead of expected " ++ itoa size)))
        else if compressed then
          match compressor fs with
          | None => ret (Panic "nil pointer dereference")
          | Some c =>
              r <- runDecompress c b ;;
              ret (wrap "decompress error: " r)
          end
        else ret (Ok b)
    end.

(** The loader that [readFragment] hands to the cache. *)
Definition fetchFragment (fs : FileSystem) (index : Z)
    (fragmentInfo : fragmentEntry) (pos : Z) : M (outcome block) :=
  ' (b, err) <- backendReadAt (backend fs) (size fragmentInfo) pos ;;
  match failed err with
  | Some e =>
      ret (Err (NewError ("unable to read fragment block " ++ itoa index
                          ++ ": " ++ Error e)))
  | None =>
      if negb (len b =? size fragmentInfo) then
        ret (Err (NewError ("read " ++ itoa (len b) ++ " instead of expected "
                            ++ itoa (size fragmentInfo)
                            ++ " bytes for fragment block " ++ itoa index)))
      else if compressed fragmentInfo then
        match compressor fs with
        | None =>
            ret (Err (NewError
                   "fragment compressed but do not have valid compressor"))
        | Some c =>
            r <- runDecompress c b ;;
            match wrap "decompress error: " r with
            | Ok data => ret (Ok (data, 0))
            | Err e => ret (Err e)
            | Panic msg => ret (Panic msg)
            end
        end
      else ret (Ok (b, 0))
  end.

(** The conversion [int64(x)] of an unsigned 64-bit value. *)
Definition int64 (x : Z) : Z := (x + 2 ^ 63) mod 2 ^ 64 - 2 ^ 63.

(** func (fs *FileSystem) readFragment(index, offset uint32, fragmentSize int64) ([]byte, error) *)
Definition readFragment (fs : FileSystem) (index offset fragmentSize : Z)
  : M (outcome (list byte)) :=
  (* first find where the compressed fragment table entry for the given index is *)
  if len (fragments fs) - 1 <? index then
    ret (Err (NewError ("cannot find fragment block with index " ++ itoa index)))
  else
    match Go.index (fragments fs) index with
    | None => ret (Panic "index out of range")
    | Some fragmentInfo =>
        let pos := int64 (start fragmentInfo) in
        r <- cacheGet pos (fetchFragment fs index fragmentInfo pos) ;;
        match r with
        | Err e => ret (Err e)
        | Panic msg => ret (Panic msg)
        | Ok (data, _) =>
            (* now get the data from the offset *)
            match slice data offset (offset + fragmentSize) with
            | Some s => ret (Ok s)
            | None => ret (Panic "slice bounds out of range")
            end
        end
    end.

(** *** Sample values *)

Definition emptyWorld : world := {| trace := []; cache := None |}.

(** A backend that holds [data] from offset 0 on. *)
Definition storageOf (data : list byte) : Storage :=
  {| ReadAt := fun n off =>
       let got := firstn (Z.to_nat n) (skipn (Z.to_nat off) data) in
       (got, if len got <? n then Some EOF else None) |}.

(** A compressor that stores the bytes as they are. *)
Definition identityCompressor : Compressor :=
  {| decompress := fun b => Ok b |}.

(** An environment whose file system calls fail with [failure], and
    whose squashfs parsers find nothing. *)
Definition failingOS (failure : error) : externals :=
  {| osMkdirTemp := fun _ _ => ("", Some failure);
     osRemoveAll := fun _ => Some failure;
     osOpenFile := fun _ _ _ => Some failure;
     superblockSize := 96;
     inodeBasicDirectory := 1;
     parseSuperblock := fun _ => Err (NewError "no valid magic");
     newCompressor := fun _ => Ok (Some identityCompressor);
     fragmentTable := fun _ => Ok [];
     xattrsTable := fun _ => Ok None;
     uidsGidsTable := fun _ => Ok [];
     inodeAt := fun _ _ _ c => (Err (NewError "no inode"), c);
     directoryEntries := fun _ _ c => (Ok [], c);
     entryOpen := fun _ => None |}.

(** An environment whose file system calls succeed. *)
Definition workingOS : externals :=
  {| osMkdirTemp := fun _ pattern => ("/tmp/" ++ pattern ++ "1", None);
     osRemoveAll := fun _ => None;
     osOpenFile := fun _ _ _ => None;
     superblockSize := 96;
     inodeBasicDirectory := 1;
     parseSuperblock := fun _ => Err (NewError "no valid magic");
     newCompressor := fun _ => Ok (Some identityCompressor);
     fragmentTable := fun _ => Ok [];
     xattrsTable := fun _ => Ok None;
     uidsGidsTable := fun _ => Ok [];
     inodeAt := fun _ _ _ c => (Err (NewError "no inode"), c);
     directoryEntries := fun _ _ c => (Ok [], c);
     entryOpen := fun _ => None |}.

(** A filesystem as [Read] makes it, with no workspace, on an image
    with 4 KiB blocks and two fragment blocks. *)
Definition sampleSuperblock : superblock :=
  {| blocksize := 4096;
     compression := 1;
     noXattrs := true;
     xattrTableStart := 0xffffffffffffffff;
     rootInodeBlock := 0;
     rootInodeOffset := 0 |}.

Definition readOnlyFS : FileSystem :=
  {| workspace := "";
     superblock' := Some sampleSuperblock;
     fsSize := 1048576;
     fsStart := 0;
     backend := storageOf (repeat 7 4096);
     fsBlocksize := 4096;
     compressor := Some identityCompressor;
     fragments := [ {| start := 96; size := 16; compressed := false |};
                    {| start := 112; size := 16; compressed := true |} ];
     uidsGids := [0];
     xattrs := None;
     rootDir := Some {| inodeType := 1; inodeBody := [] |} |}.

(** A filesystem as [Create] makes it, with a workspace. *)
Definition workspaceFS : FileSystem :=
  {| workspace := "/tmp/diskfs_squashfs1";
     superblock' := None;
     fsSize := 1048576;
     fsStart := 0;
     backend := storageOf [];
     fsBlocksize := 131072;
     compressor := None;
     fragments := [];
     uidsGids := [];
     xattrs := None;
     rootDir := None |}.

End Squashfs.

(** ** disk/disk.go: filesystems on a disk, closing *)

Module DiskFS.
Import Go.

(** filesystem.Type: the four types that [CreateFilesystem] knows, and
    any other value. *)
Inductive FSType : Type :=
| TypeFat32
| TypeISO9660
| TypeExt4
| TypeSquashfs
| TypeOther (code : Z).

(** type FilesystemSpec struct *)
Record FilesystemSpec : Type := {
  Partition : Z;
  FSType' : FSType;
  VolumeLabel : string;
  WorkDir : string
}.

(** The packages fat32, iso9660 and ext4 are not among the sources: what
    their [Create] and [Read] answer for a size, a start, a block size
    (and a label or a working directory) is given here; [F] is the type
    of the filesystems they make. *)
Record drivers (F : Type) : Type := {
  fat32Create : Z -> Z -> Z -> string -> outcome F;
  iso9660Create : Z -> Z -> Z -> string -> outcome F;
  ext4Create : Z -> Z -> Z -> outcome F;
  fat32Read : Z -> Z -> Z -> outcome F;
  iso9660Read : Z -> Z -> Z -> outcome F;
  ext4Read : Z -> Z -> Z -> outcome F
}.
Arguments fat32Create {F} _ _ _ _ _.
Arguments iso9660Create {F} _ _ _ _ _.
Arguments ext4Create {F} _ _ _ _.
Arguments fat32Read {F} _ _ _ _.
Arguments iso9660Read {F} _ _ _ _.
Arguments ext4Read {F} _ _ _ _.

(** filesystem.FileSystem: a squashfs filesystem, or one of another
    package. *)
Inductive FileSystem (F : Type) : Type :=
| Squash (fs : Squashfs.FileSystem)
| Foreign (fs : F).
Arguments Squash {F} fs.
Arguments Foreign {F} fs.

(** The calls to the filesystem packages, with the size, the start and
    the block size they are given. *)
Inductive call : Type :=
| Fat32Create (size start blocksize : Z)
| Iso9660Create (size start blocksize : Z)
| Ext4Create (size start blocksize : Z)
| SquashfsCreate (size start blocksize : Z)
| Fat32Read (size start blocksize : Z)
| Iso9660Read (size start blocksize : Z)
| SquashfsRead (size start blocksize : Z)
| Ext4Read (size start blocksize : Z).

(** What a method gives back: the calls it made, in order, its result,
    and the world of the squashfs package after it. *)
Definition answer (F : Type) : Type :=
  (list call * outcome (FileSystem F) * Squashfs.world)%type.

(** The result of a filesystem package as a [filesystem.FileSystem]. *)
Definition foreign {F : Type} (r : outcome F) : outcome (FileSystem F) :=
  match r with
  | Ok f => Ok (Foreign f)
  | Err e => Err e
  | Panic msg => Panic msg
  end.

Definition squash {F : Type} (r : outcome Squashfs.FileSystem)
  : outcome (FileSystem F) :=
  match r with
  | Ok fs => Ok (Squash fs)
  | Err e => Err e
  | Panic msg => Panic msg
  end.

(** The second switch of [CreateFilesystem]: the filesystem is made by
    the package of the type asked for, on [size] bytes from [start], with
    the logical block size of the disk.  [b] is the backend of the disk
    as the squashfs package reads it. *)
Definition create {F : Type} (ext : Squashfs.externals) (drv : drivers F)
    (d : Disk.Disk) (b : Squashfs.Storage) (spec : FilesystemSpec)
    (size start : Z) (w : Squashfs.world) : answer F :=
  match FSType' spec with
  | TypeFat32 =>
      ([Fat32Create size start (Disk.LogicalBlocksize d)],
       foreign (fat32Create drv size start (Disk.LogicalBlocksize d)
                            (VolumeLabel spec)), w)
  | TypeISO9660 =>
      ([Iso9660Create size start (Disk.LogicalBlocksize d)],
       foreign (iso9660Create drv size start (Disk.LogicalBlocksize d)
                              (WorkDir spec)), w)
  | TypeExt4 =>
      ([Ext4Create size start (Disk.LogicalBlocksize d)],
       foreign (ext4Create drv size start (Disk.LogicalBlocksize d)), w)
  | TypeSquashfs =>
      let '(r, w') :=
        Squashfs.Create ext b size start (Disk.LogicalBlocksize d) w in
      ([SquashfsCreate size start (Disk.LogicalBlocksize d)], squash r, w')
  | TypeOther _ =>
      ([], Err (NewError "unknown filesystem type requested"), w)
  end.

(** func (d *Disk) CreateFilesystem(spec FilesystemSpec) (filesystem.FileSystem, error) *)
Definition CreateFilesystem {F : Type} (ext : Squashfs.externals)
    (drv : drivers F) (d : Disk.Disk) (b : Squashfs.Storage)
    (spec : FilesystemSpec) (w : Squashfs.world) : answer F :=
  (* find out where the partition starts and ends, or if it is the entire disk *)
  if Partition spec =? 0 then create ext drv d b spec (Disk.Size d) 0 w
  else
    match Disk.Table' d with
    | None =>
        ([], Err (NewError
           "cannot create filesystem on a partition without a partition table"), w)
    | Some table =>
        let partitions := Disk.GetPartitions table in
        (* API indexes from 1, but slice from 0 *)
        let part := Partition spec - 1 in
        if Partition spec >? len partitions then
          ([], Err (NewError
             ("cannot create filesystem on partition " ++ itoa (Partition spec)
              ++ " greater than maximum partition " ++ itoa (len partitions))), w)
        else
          match index partitions part with
          | None => ([], Panic "index out of range", w)
          | Some p => create ext drv d b spec (Disk.GetSize p) (Disk.GetStart p) w
          end
    end.

(** The block size that [GetFilesystem] gives to iso9660. *)
Definition pbs (d : Disk.Disk) : Z :=
  if Disk.DefaultBlocks d then 0 else Disk.PhysicalBlocksize d.

(** The second half of [GetFilesystem], "just try each type": fat32,
    iso9660, squashfs and ext4 in this order, the first that reads the
    filesystem wins; a package that panics ends the call. *)
Definition probe {F : Type} (ext : Squashfs.externals) (drv : drivers F)
    (d : Disk.Disk) (b : Squashfs.Storage) (part size start : Z)
    (w : Squashfs.world) : answer F :=
  let lbs := Disk.LogicalBlocksize d in
  match fat32Read drv size start lbs with
  | Ok f => ([Fat32Read size start lbs], Ok (Foreign f), w)
  | Panic msg => ([Fat32Read size start lbs], Panic msg, w)
  | Err _ =>
      match iso9660Read drv size start (pbs d) with
      | Ok f =>
          ([Fat32Read size start lbs; Iso9660Read size start (pbs d)],
           Ok (Foreign f), w)
      | Panic msg =>
          ([Fat32Read size start lbs; Iso9660Read size start (pbs d)],
           Panic msg, w)
      | Err _ =>
          match Squashfs.Read ext b size start lbs w with
          | (Ok fs, w') =>
              ([Fat32Read size start lbs; Iso9660Read size start (pbs d);
                SquashfsRead size start lbs], Ok (Squash fs), w')
          | (Panic msg, w') =>
              ([Fat32Read size start lbs; Iso9660Read size start (pbs d);
                SquashfsRead size start lbs], Panic msg, w')
          | (Err _, w') =>
              match ext4Read drv size start lbs with
              | Ok f =>
                  ([Fat32Read size start lbs; Iso9660Read size start (pbs d);
                    SquashfsRead size start lbs; Ext4Read size start lbs],
                   Ok (Foreign f), w')
              | Panic msg =>
                  ([Fat32Read size start lbs; Iso9660Read size start (pbs d);
                    SquashfsRead size start lbs; Ext4Read size start lbs],
                   Panic msg, w')
              | Err _ =>
                  ([Fat32Read size start lbs; Iso9660Read size start (pbs d);
                    SquashfsRead size start lbs; Ext4Read size start lbs],
                   Err (NewError ("unknown filesystem on partition "
                                  ++ itoa part)), w')
              end
          end
      end
  end.

(** func (d *Disk) GetFilesystem(part int) (filesystem.FileSystem, error) *)
Definition GetFilesystem {F : Type} (ext : Squashfs.externals)
    (drv : drivers F) (d : Disk.Disk) (b : Squashfs.Storage)
    (part : Z) (w : Squashfs.world) : answer F :=
  (* find out where the partition starts and ends, or if it is the entire disk *)
  if part =? 0 then probe ext drv d b part (Disk.Size d) 0 w
  else
    match Disk.Table' d with
    | None =>
        ([], Err (NewError
           "cannot read filesystem on a partition without a partition table"), w)
    | Some table =>
        let partitions := Disk.GetPartitions table in
        (* API indexes from 1, but slice from 0 *)
        if part >? len partitions then
          ([], Err (NewError
             ("cannot get filesystem on partition " ++ itoa part
              ++ " greater than maximum partition " ++ itoa (len partitions))), w)
        else
          match index partitions (part - 1) with
          | None => ([], Panic "index out of range", w)
          | Some p => probe ext drv d b part (Disk.GetSize p) (Disk.GetStart p) w
          end
    end.

(** The size and the start that both methods work on, when they get to
    the filesystem packages: the whole disk for the partition number 0,
    the extent of the partition for a number from 1 to the number of
    partitions. *)
Definition extent (d : Disk.Disk) (part : Z) : option (Z * Z) :=
  if part =? 0 then Some (Disk.Size d, 0)
  else
    match Disk.Table' d with
    | None => None
    | Some table =>
        if part >? len (Disk.GetPartitions table) then None
        else
          match index (Disk.GetPartitions table) (part - 1) with
          | None => None
          | Some p => Some (Disk.GetSize p, Disk.GetStart p)
          end
    end.

(** The disk with another partition table, or none. *)
Definition withTable (d : Disk.Disk) (t : option Disk.Table) : Disk.Disk :=
  {| Disk.Backend := Disk.Backend d;
     Disk.Size := Disk.Size d;
     Disk.LogicalBlocksize := Disk.LogicalBlocksize d;
     Disk.PhysicalBlocksize := Disk.PhysicalBlocksize d;
     Disk.Table' := t;
     Disk.DefaultBlocks := Disk.DefaultBlocks d |}.

(** The zero value [Disk{}].  Its backend is nil; the field holds a
    backend that cannot be made writable, and no property below calls it. *)
Definition zeroDisk : Disk.Disk :=
  {| Disk.Backend := {| Disk.writable := Some (NewError "nil backend") |};
     Disk.Size := 0;
     Disk.LogicalBlocksize := 0;
     Disk.PhysicalBlocksize := 0;
     Disk.Table' := None;
     Disk.DefaultBlocks := false |}.

(** func (d *Disk) Close() error; [closed] is what [d.Backend.Close()]
    returns.  The result is the error and the disk after the call. *)
Definition Close (d : Disk.Disk) (closed : option error)
  : option error * Disk.Disk :=
  match closed with
  | Some err => (Some err, d)
  | None => (None, zeroDisk)
  end.

(** func (d *Disk) GetPartitionTable() (partition.Table, error); [read]
    is what [partition.Read] returns for the backend and the block sizes
    of the disk.  The result is the pair returned and the disk after the
    call. *)
Definition GetPartitionTable (d : Disk.Disk) (read : outcome Disk.Table)
  : outcome Disk.Table * Disk.Disk :=
  match read with
  | Ok t =>
      (Ok t,
       {| Disk.Backend := Disk.Backend d;
          Disk.Size := Disk.Size d;
          Disk.LogicalBlocksize := Disk.LogicalBlocksize d;
          Disk.PhysicalBlocksize := Disk.PhysicalBlocksize d;
          Disk.Table' := Some t;
          Disk.DefaultBlocks := Disk.DefaultBlocks d |})
  | _ => (read, d)
  end.

(** Drivers that recognise nothing. *)
Definition noDrivers : drivers unit :=
  {| fat32Create := fun _ _ _ _ => Err (NewError "fat32: cannot create");
     iso9660Create := fun _ _ _ _ => Err (NewError "iso9660: cannot create");
     ext4Create := fun _ _ _ => Err (NewError "ext4: cannot create");
     fat32Read := fun _ _ _ => Err (NewError "fat32: no boot sector");
     iso9660Read := fun _ _ _ => Err (NewError "iso9660: no volume descriptor");
     ext4Read := fun _ _ _ => Err (NewError "ext4: no superblock") |}.

(** Drivers of which fat32 recognises every disk. *)
Definition fat32Drivers : drivers unit :=
  {| fat32Create := fun _ _ _ _ => Ok tt;
     iso9660Create := fun _ _ _ _ => Err (NewError "iso9660: cannot create");
     ext4Create := fun _ _ _ => Err (NewError "ext4: cannot create");
     fat32Read := fun _ _ _ => Ok tt;
     iso9660Read := fun _ _ _ => Err (NewError "iso9660: no volume descriptor");
     ext4Read := fun _ _ _ => Err (NewError "ext4: no superblock") |}.

End DiskFS.

(** ** filesystem/squashfs/squashfs.go: the other methods, the tables, the inodes *)

Module Sqfs.
Import Go.

(** *** The methods that change the filesystem *)

(** What these functions call outside the filesystem. *)
Inductive call : Type :=
| OsMkdirAll (path : string) (perm : Z)   (* os.MkdirAll *)
| OsRename (oldpath newpath : string)     (* os.Rename *)
| OsRemove (path : string)                (* os.Remove *)
| OsReadDir (path : string)               (* os.ReadDir *)
| BackendRead (n off : Z)                 (* file.ReadAt *)
| MetaBlockRead (pos : Z)                 (* fs.readMetaBlock *)
| MetadataRead (block offset size : Z).   (* fs.readMetadata *)

(** What package [os] answers. *)
Record system : Type := {
  osMkdirAll : string -> Z -> option error;
  osRename : string -> string -> option error;
  osRemove : string -> option error
}.

(** The permission bits 0o755. *)
Definition perm755 : Z := 7 * 64 + 5 * 8 + 5.

(** func (fs *FileSystem) Label() string *)
Definition Label (fs : Squashfs.FileSystem) : string := "".

(** func (fs *FileSystem) SetLabel(string) error *)
Definition SetLabel (fs : Squashfs.FileSystem) (label : string)
  : list call * option error :=
  ([], Some ErrReadonlyFilesystem).

(** func (fs *FileSystem) Workspace() string *)
Definition Workspace (fs : Squashfs.FileSystem) : string :=
  Squashfs.workspace fs.

(** func (fs *FileSystem) Mkdir(p string) error *)
Definition Mkdir (sys : system) (fs : Squashfs.FileSystem) (p : string)
  : list call * option error :=
  if String.eqb (Squashfs.workspace fs) "" then ([], Some ErrReadonlyFilesystem)
  else
    let full := Join (Squashfs.workspace fs) p in
    match osMkdirAll sys full perm755 with
    | Some err =>
        ([OsMkdirAll full perm755],
         Some (NewError ("could not create directory " ++ p ++ ": "
                         ++ Error err)))
    | None => ([OsMkdirAll full perm755], None)
    end.

(** func (fs *FileSystem) Mknod(pathname string, mode uint32, dev int) error *)
Definition Mknod (fs : Squashfs.FileSystem) (pathname : string) (mode dev : Z)
  : list call * option error :=
  ([], Some ErrNotImplemented).

(** func (fs *FileSystem) Link(oldpath, newpath string) error *)
Definition Link (fs : Squashfs.FileSystem) (oldpath newpath : string)
  : list call * option error :=
  ([], Some ErrNotImplemented).

(** func (fs *FileSystem) Symlink(oldpath, newpath string) error *)
Definition Symlink (fs : Squashfs.FileSystem) (oldpath newpath : string)
  : list call * option error :=
  ([], Some ErrNotImplemented).

(** func (fs *FileSystem) Chmod(name string, mode os.FileMode) error *)
Definition Chmod (fs : Squashfs.FileSystem) (name : string) (mode : Z)
  : list call * option error :=
  ([], Some ErrNotImplemented).

(** func (fs *FileSystem) Chown(name string, uid, gid int) error *)
Definition Chown (fs : Squashfs.FileSystem) (name : string) (uid gid : Z)
  : list call * option error :=
  ([], Some ErrNotImplemented).

(** func (fs *FileSystem) Rename(oldpath, newpath string) error *)
Definition Rename (sys : system) (fs : Squashfs.FileSystem)
    (oldpath newpath : string) : list call * option error :=
  if String.eqb (Squashfs.workspace fs) "" then ([], Some ErrReadonlyFilesystem)
  else
    let o := Join (Squashfs.workspace fs) oldpath in
    let n := Join (Squashfs.workspace fs) newpath in
    ([OsRename o n], osRename sys o n).

(** func (fs *FileSystem) Remove(p string) error *)
Definition Remove (sys : system) (fs : Squashfs.FileSystem) (p : string)
  : list call * option error :=
  if String.eqb (Squashfs.workspace fs) "" then ([], Some ErrReadonlyFilesystem)
  else
    let full := Join (Squashfs.workspace fs) p in
    ([OsRemove full], osRemove sys full).

(** *** Listing a directory *)

(** An [os.FileInfo] as [ReadDir] returns it: an entry of the image, or
    what the system tells of a file of the workspace. *)
Inductive FileInfo (I : Type) : Type :=
| EntryInfo (e : Squashfs.directoryEntry)
| OsInfo (i : I).
Arguments EntryInfo {I} e.
Arguments OsInfo {I} i.

(** What package [os] answers about a directory: [os.ReadDir(path)]
    gives entries of the type [E], and [e.Info()] the [os.FileInfo] of
    one of them. *)
Record directories (E I : Type) : Type := {
  osReadDir : string -> outcome (list E);
  entryInfo : E -> outcome I
}.
Arguments osReadDir {E I} _ _.
Arguments entryInfo {E I} _ _.

(** The loop of [ReadDir] over the entries of a directory of the
    workspace. *)
Fixpoint workspaceInfos {E I : Type} (dirs : directories E I) (p : string)
    (dirEntries : list E) : outcome (list (FileInfo I)) :=
  match dirEntries with
  | [] => Ok []
  | e :: rest =>
      match entryInfo dirs e with
      | Ok info =>
          match workspaceInfos dirs p rest with
          | Ok fi => Ok (OsInfo info :: fi)
          | other => other
          end
      | Err err =>
          Err (NewError ("could not read directory " ++ p ++ ": " ++ Error err))
      | Panic msg => Panic msg
      end
  end.

(** func (fs *FileSystem) ReadDir(p string) ([]os.FileInfo, error); the
    result is the calls to package [os] and what is returned. *)
Definition ReadDir {E I : Type} (ext : Squashfs.externals)
    (dirs : directories E I) (fs : Squashfs.FileSystem) (p : string)
  : Squashfs.M (list call * outcome (list (FileInfo I))) :=
  (* non-workspace: read from squashfs *)
  (* workspace: read from regular filesystem *)
  if negb (String.eqb (Squashfs.workspace fs) "") then
    let fullPath := Join (Squashfs.workspace fs) p in
    (* read the entries *)
    Squashfs.ret
      ([OsReadDir fullPath],
       match osReadDir dirs fullPath with
       | Ok dirEntries => workspaceInfos dirs p dirEntries
       | Err err =>
           Err (NewError ("could not read directory " ++ p ++ ": " ++ Error err))
       | Panic msg => Panic msg
       end)
  else
    Squashfs.bind (Squashfs.readDirectory ext fs p) (fun r =>
    Squashfs.ret
      ([],
       match Squashfs.wrap ("error reading directory " ++ p ++ ": ") r with
       | Ok dirEntries => Ok (map EntryInfo dirEntries)
       | Err err => Err err
       | Panic msg => Panic msg
       end)).

(** *** The size of the cache *)

(** Modelled from the spec: [lru.setMaxBlocks] is in lru.go, which is not
    among the sources.  It sets the capacity, in slots, and keeps the
    most recent entries that fit. *)
Definition setMaxBlocks (n : Z) (l : Squashfs.lru) : Squashfs.lru :=
  {| Squashfs.maxBlocks := n;
     Squashfs.blocks := firstn (Z.to_nat n) (Squashfs.blocks l) |}.

(** func (fs *FileSystem) SetCacheSize(cacheSize int) *)
Definition SetCacheSize (fs : Squashfs.FileSystem) (cacheSize : Z)
  : Squashfs.M (outcome unit) :=
  Squashfs.bind Squashfs.getCache (fun c =>
  match c with
  | None => Squashfs.ret (Ok tt)
  | Some l =>
      if Squashfs.fsBlocksize fs =? 0 then
        Squashfs.ret (Panic "integer divide by zero")
      else
        let blocks := Z.quot cacheSize (Squashfs.fsBlocksize fs) in
        let blocks := if blocks <=? 0 then 0 else blocks in
        Squashfs.bind (Squashfs.setCache (Some (setMaxBlocks blocks l)))
                      (fun _ => Squashfs.ret (Ok tt))
  end).

(** func (fs *FileSystem) GetCacheSize() int *)
Definition GetCacheSize (fs : Squashfs.FileSystem) : Squashfs.M Z :=
  Squashfs.bind Squashfs.getCache (fun c =>
  match c with
  | None => Squashfs.ret 0
  | Some l => Squashfs.ret (Squashfs.maxBlocks l * Squashfs.fsBlocksize fs)
  end).

(** *** The tables *)

(** The conversions [uint16(x)] and [uint32(x)]: arithmetic in these
    types wraps around. *)
Definition uint16 (x : Z) : Z := x mod 2 ^ 16.
Definition uint32 (x : Z) : Z := x mod 2 ^ 32.

(** The fields of the superblock that the table readers look at:
    [fragmentCount] is a uint32, [idCount] a uint16. *)
Record tables : Type := {
  fragmentCount : Z;
  fragmentTableStart : Z;
  idTableStart : Z;
  idCount : Z
}.

(** The size of an id, "4 bytes (uint32)". *)
Definition idEntrySize : Z := 4.

(** The functions of the package that are not among the sources:
    [fs.readMetaBlock(file, c, pos)] gives the payload of the metadata
    block at [pos] and its size on disk. *)
Record parsers : Type := {
  readMetaBlock : Z -> outcome (list byte * Z);
  parseIDTable : list byte -> list Z;
  parseFragmentEntry : list byte -> outcome Squashfs.fragmentEntry
}.

(** [binary.LittleEndian.Uint64] *)
Definition getUint64 (b0 b1 b2 b3 b4 b5 b6 b7 : byte) : Z :=
  Z.lor b0 (Z.lor (Z.shiftl b1 8) (Z.lor (Z.shiftl b2 16)
    (Z.lor (Z.shiftl b3 24) (Z.lor (Z.shiftl b4 32) (Z.lor (Z.shiftl b5 40)
      (Z.lor (Z.shiftl b6 48) (Z.shiftl b7 56))))))).

(** The number of 8-byte index entries that [readUidsGids] reads:
    [idBytes := idCount * idEntrySize] and
    [idBlocks := ((idBytes - 1) / uint16(metadataBlockSize)) + 1], in uint16. *)
Definition idBlocks (idCount : Z) : Z :=
  let idBytes := uint16 (idCount * idEntrySize) in
  uint16 (uint16 (idBytes - 1) / uint16 Squashfs.metadataBlockSize + 1).

(** The loop of [readUidsGids] over the index [b], from the byte [i]:
    each 8 bytes locate a metadata block, whose payload is appended. *)
Fixpoint readIdBlocks (px : parsers) (i : Z) (b : list byte)
  : list call * outcome (list byte) :=
  match b with
  | b0 :: b1 :: b2 :: b3 :: b4 :: b5 :: b6 :: b7 :: rest =>
      let locn := getUint64 b0 b1 b2 b3 b4 b5 b6 b7 in
      let pos := Squashfs.int64 locn in
      match readMetaBlock px pos with
      | Ok (uncompressed, _) =>
          let '(calls, r) := readIdBlocks px (i + 8) rest in
          (MetaBlockRead pos :: calls,
           match r with
           | Ok data => Ok (uncompressed ++ data)%list
           | Err e => Err e
           | Panic msg => Panic msg
           end)
      | Err e =>
          ([MetaBlockRead pos],
           Err (NewError ("error reading uidgid index meta block " ++ itoa i
                          ++ " at position " ++ itoa locn ++ ": " ++ Error e)))
      | Panic msg => ([MetaBlockRead pos], Panic msg)
      end
  | _ => ([], Ok [])
  end.

(** func readUidsGids(s *superblock, file backend.File, c Compressor) ([]uint32, error) *)
Definition readUidsGids (px : parsers) (s : tables) (file : Squashfs.Storage)
  : list call * outcome (list Z) :=
  let idStart := idTableStart s in
  let idCount := idCount s in
  (* if we have none? *)
  if idCount =? 0 then ([], Ok [])
  else
    let n := uint16 (idBlocks idCount * 8) in
    let '(b, err) := Squashfs.ReadAt file n (Squashfs.int64 idStart) in
    let read := BackendRead n (Squashfs.int64 idStart) in
    match Squashfs.failed err with
    | Some e =>
        ([read], Err (NewError
           ("unable to read index bytes for uidgid ID table: " ++ Error e)))
    | None =>
        if negb (len b =? n) then
          ([read], Err (NewError
             ("read " ++ itoa (len b) ++ " bytes instead of expected "
              ++ itoa n ++ " for uidgid ID table")))
        else
          let '(calls, r) := readIdBlocks px 0 b in
          (read :: calls,
           match r with
           | Ok data => Ok (parseIDTable px data)
           | Err e => Err e
           | Panic msg => Panic msg
           end)
    end.

(** The number of 8-byte index entries that [readFragmentTable] reads. *)
Definition fragmentBlockCount (fragmentCount : Z) : Z :=
  let blockCount := uint32 (fragmentCount / 512) in
  if fragmentCount mod 512 >? 0 then uint32 (blockCount + 1) else blockCount.

(** The offsets held by the index, 8 bytes each. *)
Fixpoint indexOffsets (b : list byte) : list Z :=
  match b with
  | b0 :: b1 :: b2 :: b3 :: b4 :: b5 :: b6 :: b7 :: rest =>
      Squashfs.int64 (getUint64 b0 b1 b2 b3 b4 b5 b6 b7) :: indexOffsets rest
  | _ => []
  end.

(** The loop over one metadata block of the fragment table: an entry is
    parsed at every 16th byte [j] below the length. *)
Fixpoint fragmentEntries (fuel : nat) (px : parsers) (i j : Z)
    (uncompressed : list byte) : outcome (list Squashfs.fragmentEntry) :=
  match fuel, uncompressed with
  | O, _ | _, [] => Ok []
  | S fuel', _ =>
      match parseFragmentEntry px uncompressed with
      | Ok entry =>
          match fragmentEntries fuel' px i (j + 16) (skipn 16 uncompressed) with
          | Ok entries => Ok (entry :: entries)
          | other => other
          end
      | Err e =>
          Err (NewError ("error parsing fragment table entry in block "
                         ++ itoa i ++ " position " ++ itoa j ++ ": " ++ Error e))
      | Panic msg => Panic msg
      end
  end.

(** The loop over the offsets of the metadata blocks. *)
Fixpoint fragmentBlocks (px : parsers) (i : Z) (offsets : list Z)
  : list call * outcome (list Squashfs.fragmentEntry) :=
  match offsets with
  | [] => ([], Ok [])
  | offset :: rest =>
      match readMetaBlock px offset with
      | Ok (uncompressed, _) =>
          match fragmentEntries (List.length uncompressed) px i 0 uncompressed with
          | Ok entries =>
              let '(calls, r) := fragmentBlocks px (i + 1) rest in
              (MetaBlockRead offset :: calls,
               match r with
               | Ok more => Ok (entries ++ more)%list
               | other => other
               end)
          | other => ([MetaBlockRead offset], other)
          end
      | Err e =>
          ([MetaBlockRead offset],
           Err (NewError ("error reading meta block " ++ itoa i
                          ++ " at position " ++ itoa offset ++ ": " ++ Error e)))
      | Panic msg => ([MetaBlockRead offset], Panic msg)
      end
  end.

(** func readFragmentTable(s *superblock, file backend.File, c Compressor) ([]*fragmentEntry, error) *)
Definition readFragmentTable (px : parsers) (s : tables)
    (file : Squashfs.Storage)
  : list call * outcome (list Squashfs.fragmentEntry) :=
  let blockCount := fragmentBlockCount (fragmentCount s) in
  let n := uint32 (8 * blockCount) in
  let start := Squashfs.int64 (fragmentTableStart s) in
  let '(b, err) := Squashfs.ReadAt file n start in
  let read := BackendRead n start in
  match err with
  | Some e =>
      ([read], Err (NewError ("error reading fragment table index: " ++ Error e)))
  | None =>
      if negb (len b =? n) then
        ([read], Err (NewError
           ("read " ++ itoa (len b) ++ " bytes instead of expected "
            ++ itoa n ++ " bytes of fragment table index")))
      else
        let '(calls, r) := fragmentBlocks px 0 (indexOffsets b) in
        (read :: calls, r)
  end.

(** *** Inodes *)

(** The functions and constants of the package that [getInode] uses and
    that are not among the sources; [H] is the type of an inode header,
    whose type tag is [headerInodeType], and [B] the type of a body.
    [readMetadata block offset size] stands for
    [fs.readMetadata(fs.backend, fs.compressor, inodeTableStart, block, offset, size)]. *)
Record inodeReader (H B : Type) : Type := {
  inodeHeaderSize : Z;
  inodeTypeToSize : Z -> Z;
  readMetadata : Z -> Z -> Z -> outcome (list byte);
  parseInodeHeader : list byte -> outcome H;
  headerInodeType : H -> Z;
  parseInodeBody : list byte -> Z -> Z -> outcome (B * Z)
}.
Arguments inodeHeaderSize {H B} _.
Arguments inodeTypeToSize {H B} _ _.
Arguments readMetadata {H B} _ _ _ _.
Arguments parseInodeHeader {H B} _ _.
Arguments headerInodeType {H B} _ _.
Arguments parseInodeBody {H B} _ _ _ _.

(** One call of [fs.readMetadata] for an inode, with the error of
    [getInode]. *)
Definition readInodeBytes {H B : Type} (ir : inodeReader H B)
    (blockOffset byteOffset size : Z) : outcome (list byte) :=
  Squashfs.wrap ("error reading block at position " ++ itoa blockOffset ++ ": ")
                (readMetadata ir blockOffset byteOffset size).

(** [parseInodeBody(uncompressed[inodeHeaderSize:], int(fs.blocksize), iType)] *)
Definition parseBodyOf {H B : Type} (ir : inodeReader H B)
    (fs : Squashfs.FileSystem) (uncompressed : list byte) (iType : Z)
  : outcome (B * Z) :=
  match slice uncompressed (inodeHeaderSize ir) (len uncompressed) with
  | None => Panic "slice bounds out of range"
  | Some rest =>
      Squashfs.wrap "error parsing inode body: "
                    (parseInodeBody ir rest (Squashfs.fsBlocksize fs) iType)
  end.

(** func (fs *FileSystem) getInode(blockOffset uint32, byteOffset uint16, iType inodeType) (inode, error) *)
Definition getInode {H B : Type} (ir : inodeReader H B)
    (fs : Squashfs.FileSystem) (blockOffset byteOffset iType : Z)
  : list call * outcome (H * B) :=
  (* start by getting the minimum for the proposed type. It very well might be wrong. *)
  let size := inodeTypeToSize ir iType in
  let read1 := MetadataRead blockOffset byteOffset size in
  match readInodeBytes ir blockOffset byteOffset size with
  | Err e => ([read1], Err e)
  | Panic msg => ([read1], Panic msg)
  | Ok uncompressed =>
      (* parse the header to see the type matches *)
      match Squashfs.wrap "error parsing inode header: "
                          (parseInodeHeader ir uncompressed) with
      | Err e => ([read1], Err e)
      | Panic msg => ([read1], Panic msg)
      | Ok header =>
          let differs := negb (headerInodeType ir header =? iType) in
          let iType := if differs then headerInodeType ir header else iType in
          let size := if differs then inodeTypeToSize ir iType else size in
          (* Read more data if necessary (quite rare) *)
          let reread := differs && (size >? len uncompressed) in
          let calls2 :=
            if reread then [read1; MetadataRead blockOffset byteOffset size]
            else [read1] in
          match (if reread then readInodeBytes ir blockOffset byteOffset size
                 else Ok uncompressed) with
          | Err e => (calls2, Err e)
          | Panic msg => (calls2, Panic msg)
          | Ok uncompressed =>
              (* now read the body, which may have a variable size *)
              match parseBodyOf ir fs uncompressed iType with
              | Err e => (calls2, Err e)
              | Panic msg => (calls2, Panic msg)
              | Ok (body, extra) =>
                  (* if it returns extra > 0, then it needs that many more bytes *)
                  if extra >? 0 then
                    let size := size + extra in
                    let calls3 :=
                      (calls2 ++ [MetadataRead blockOffset byteOffset size])%list in
                    match readInodeBytes ir blockOffset byteOffset size with
                    | Err e => (calls3, Err e)
                    | Panic msg => (calls3, Panic msg)
                    | Ok uncompressed =>
                        match parseBodyOf ir fs uncompressed iType with
                        | Err e => (calls3, Err e)
                        | Panic msg => (calls3, Panic msg)
                        | Ok (body, _) => (calls3, Ok (header, body))
                        end
                    end
                  else (calls2, Ok (header, body))
              end
          end
      end
  end.

(** *** Sample values *)

(** A system on which every call succeeds. *)
Definition workingSystem : system :=
  {| osMkdirAll := fun _ _ => None;
     osRename := fun _ _ => None;
     osRemove := fun _ => None |}.

(** Metadata blocks of 8 bytes that hold their own position, no
    fragment entry that parses, ids read as they are. *)
Definition sampleParsers : parsers :=
  {| readMetaBlock := fun pos => Ok (repeat (pos mod 256) 8, 10);
     parseIDTable := fun data => data;
     parseFragmentEntry := fun _ => Err (NewError "short fragment entry") |}.

(** An inode reader whose inodes are one byte of type tag and one byte
    of body: the header is the tag, the body the byte after it; the type
    1 has the minimum size 2, the type 2 asks for one more byte. *)
Definition sampleInodeReader (table : list byte) : inodeReader Z Z :=
  {| inodeHeaderSize := 1;
     inodeTypeToSize := fun _ => 2;
     readMetadata := fun _ offset size =>
       Ok (firstn (Z.to_nat size) (skipn (Z.to_nat offset) table));
     parseInodeHeader := fun b =>
       match b with
       | tag :: _ => Ok tag
       | [] => Err (NewError "header too short")
       end;
     headerInodeType := fun h => h;
     parseInodeBody := fun b _ iType =>
       match b with
       | x :: rest =>
           if (iType =? 2) && (len rest =? 0) then Ok (x, 1) else Ok (x, 0)
       | [] => Err (NewError "body too short")
       end |}.

(** The cache after a metadata reader has fetched the block at [pos]
    through it: the block is the most recent entry of a cache that is
    enabled. *)
Definition withBlock (pos : Z) (b : Squashfs.block) (c : option Squashfs.lru)
  : option Squashfs.lru :=
  match c with
  | Some l =>
      if Squashfs.maxBlocks l <=? 0 then c
      else Some {| Squashfs.maxBlocks := Squashfs.maxBlocks l;
                   Squashfs.blocks :=
                     firstn (Z.to_nat (Squashfs.maxBlocks l))
                            ((pos, b) :: Squashfs.remove pos (Squashfs.blocks l)) |}
  | None => None
  end.

(** An environment in which [Read] finds a squashfs image: the
    superblock parses, the tables are empty, the root inode is a
    directory.  The inode and the directory are in the metadata blocks
    at 96 and 104, which are fetched through the cache. *)
Definition imageOS : Squashfs.externals :=
  {| Squashfs.osMkdirTemp := fun _ pattern => ("/tmp/" ++ pattern ++ "1", None);
     Squashfs.osRemoveAll := fun _ => None;
     Squashfs.osOpenFile := fun _ _ _ => None;
     Squashfs.superblockSize := 96;
     Squashfs.inodeBasicDirectory := 1;
     Squashfs.parseSuperblock := fun _ => Ok Squashfs.sampleSuperblock;
     Squashfs.newCompressor := fun _ => Ok (Some Squashfs.identityCompressor);
     Squashfs.fragmentTable := fun _ => Ok [];
     Squashfs.xattrsTable := fun _ => Ok None;
     Squashfs.uidsGidsTable := fun _ => Ok [0];
     Squashfs.inodeAt := fun _ _ _ c =>
       (Ok {| Squashfs.inodeType := 1; Squashfs.inodeBody := [] |},
        withBlock 96 ([1; 0], 2) c);
     Squashfs.directoryEntries := fun _ _ c =>
       (Ok [ {| Squashfs.isSubdirectory := true; Squashfs.name := "etc";
                Squashfs.entrySize := 0; Squashfs.mode := 493;
                Squashfs.uid := 0; Squashfs.gid := 0 |};
             {| Squashfs.isSubdirectory := false; Squashfs.name := "README";
                Squashfs.entrySize := 7; Squashfs.mode := 420;
                Squashfs.uid := 0; Squashfs.gid := 0 |} ],
        withBlock 104 ([2; 0], 2) c);
     Squashfs.entryOpen := fun _ => None |}.

(** The filesystem that [Read] makes of 96 bytes in that environment. *)
Definition imageFS : Squashfs.FileSystem :=
  {| Squashfs.workspace := "";
     Squashfs.superblock' := Some Squashfs.sampleSuperblock;
     Squashfs.fsSize := 1048576;
     Squashfs.fsStart := 0;
     Squashfs.backend := Squashfs.storageOf (repeat 0 96);
     Squashfs.fsBlocksize := 4096;
     Squashfs.compressor := Some Squashfs.identityCompressor;
     Squashfs.fragments := [];
     Squashfs.uidsGids := [0];
     Squashfs.xattrs := None;
     Squashfs.rootDir :=
       Some {| Squashfs.inodeType := 1; Squashfs.inodeBody := [] |} |}.

(** The world that [Read] leaves: the block of the root inode is in
    the cache. *)
Definition imageWorld : Squashfs.world :=
  {| Squashfs.trace :=
       [Squashfs.GetInode 0 0; Squashfs.ReadUidsGids;
        Squashfs.ReadFragmentTable; Squashfs.BackendReadAt 96 0];
     Squashfs.cache :=
       Some {| Squashfs.maxBlocks := 32768;
               Squashfs.blocks := [(96, ([1; 0], 2))] |} |}.

End Sqfs.

(* ================================================================== *)
(** * Part II: the properties *)
(* ================================================================== *)

(** ** Ordered comparison (filesystem/ext4/cmp.go) *)

(** C10.  For every pair [x], [y] of an ordered type, [Compare x y] is
    [-1] exactly when [Less x y], [+1] exactly when [Less y x], and [0]
    exactly when neither holds; two NaN compare equal, a NaN is less than
    any value that is not a NaN; and [Compare x y = - Compare y x]. *)
Theorem Compare_agrees_with_Less :
  forall (T : Type) (O : Cmp.Ordered T) (x y : T),
    (Cmp.Compare x y = -1 <-> Cmp.Less x y = true) /\
    (Cmp.Compare x y = 1 <-> Cmp.Less y x = true) /\
    (Cmp.Compare x y = 0 <-> Cmp.Less x y = false /\ Cmp.Less y x = false) /\
    (Cmp.isNaN x = true -> Cmp.isNaN y = true -> Cmp.Compare x y = 0) /\
    (Cmp.isNaN x = true -> Cmp.isNaN y = false ->
       Cmp.Less x y = true /\ Cmp.Compare x y = -1) /\
    Cmp.Compare x y = - Cmp.Compare y x.
Proof.
  intros T O x y.
  unfold Cmp.Compare, Cmp.Less, Cmp.isNaN, Cmp.gt.
  pose proof (Cmp.lt_asym x y) as Hxy.
  pose proof (Cmp.lt_asym y x) as Hyx.
  pose proof (Cmp.lt_nan_l x y) as Hxl.
  pose proof (Cmp.lt_nan_r x y) as Hyr.
  pose proof (Cmp.lt_nan_l y x) as Hyl.
  pose proof (Cmp.lt_nan_r y x) as Hxr.
  destruct (Cmp.neq x x), (Cmp.neq y y), (Cmp.lt x y), (Cmp.lt y x);
    simpl; repeat split; intros;
    try reflexivity; try discriminate; try lia;
    try (specialize (Hxy eq_refl); discriminate);
    try (specialize (Hxl eq_refl); discriminate);
    try (specialize (Hyr eq_refl); discriminate);
    try (specialize (Hyl eq_refl); discriminate);
    try (specialize (Hxr eq_refl); discriminate);
    try (destruct H; discriminate).
Qed.

(** The three families of ordered types, on values. *)
Example Compare_nan_nan : Cmp.Compare Cmp.nan Cmp.nan = 0.
Proof. reflexivity. Qed.

Example Compare_nan_one :
  Cmp.Compare Cmp.nan Cmp.one = -1 /\ Cmp.Less Cmp.nan Cmp.one = true.
Proof. split; reflexivity. Qed.

Example Compare_one_nan :
  Cmp.Compare Cmp.one Cmp.nan = 1 /\ Cmp.Less Cmp.one Cmp.nan = false.
Proof. split; reflexivity. Qed.

Example Compare_zeros : Cmp.Compare (S754_zero true) (S754_zero false) = 0.
Proof. reflexivity. Qed.

Example Compare_strings : Cmp.Compare "abc" "abd" = -1.
Proof. reflexivity. Qed.

Example Compare_ints : Cmp.Compare 7 3 = 1.
Proof. reflexivity. Qed.

(** ** MBR partition entries (partition/mbr) *)

(** *** Bits *)

Lemma testbit_small (a k n : Z) :
  0 <= a < 2 ^ k -> 0 <= k <= n -> Z.testbit a n = false.
Proof.
  intros Ha Hk.
  rewrite <- (Z.mod_small a (2 ^ k)) by assumption.
  apply Z.mod_pow2_bits_high. lia.
Qed.

Lemma testbit_mask (k sh n : Z) :
  0 <= k -> 0 <= sh ->
  Z.testbit (Z.shiftl (Z.ones k) sh) n = (sh <=? n) && (n <? sh + k).
Proof.
  intros Hk Hsh. destruct (Z.ltb_spec n 0) as [Hneg|Hpos].
  - rewrite Z.testbit_neg_r by assumption.
    destruct (Z.leb_spec sh n); [lia | reflexivity].
  - rewrite Z.shiftl_spec, Z.testbit_ones by assumption.
    destruct (Z.leb_spec 0 (n - sh)), (Z.leb_spec sh n),
      (Z.ltb_spec (n - sh) k), (Z.ltb_spec n (sh + k)); try lia; reflexivity.
Qed.

Lemma testbit_shiftr_any (a k n : Z) :
  0 <= k -> Z.testbit (Z.shiftr a k) n = (0 <=? n) && Z.testbit a (n + k).
Proof.
  intros Hk. destruct (Z.leb_spec 0 n).
  - rewrite Z.shiftr_spec by assumption. reflexivity.
  - rewrite Z.testbit_neg_r by assumption. reflexivity.
Qed.

Lemma testbit_shiftl_any (a k n : Z) :
  0 <= k -> Z.testbit (Z.shiftl a k) n = (0 <=? n) && Z.testbit a (n - k).
Proof.
  intros Hk. destruct (Z.leb_spec 0 n).
  - rewrite Z.shiftl_spec by assumption. reflexivity.
  - rewrite Z.testbit_neg_r by assumption. reflexivity.
Qed.

Ltac testbits :=
  apply Z.bits_inj'; intros n Hn;
  repeat first
    [ rewrite Z.land_spec | rewrite Z.lor_spec
    | rewrite testbit_mask by lia
    | rewrite Z.testbit_ones by lia
    | rewrite testbit_shiftl_any by lia
    | rewrite testbit_shiftr_any by lia ].

Ltac split_comparisons :=
  repeat match goal with
         | |- context [?a <=? ?b] => destruct (Z.leb_spec a b)
         | |- context [?a <? ?b] => destruct (Z.ltb_spec a b)
         end.

Ltac bool_finish :=
  simpl;
  rewrite ?andb_true_r, ?andb_false_r, ?orb_false_r, ?orb_true_r; simpl;
  rewrite ?andb_true_r, ?andb_false_r, ?orb_false_r, ?orb_true_r; simpl;
  try reflexivity;
  try (match goal with
       | |- context [Z.testbit ?v ?n] => destruct (Z.testbit v n)
       end; reflexivity).

Lemma land_byte (v : Z) : 0 <= v < 256 -> Z.land v 0xFF = v.
Proof.
  intros Hv. change 0xFF with (Z.ones 8).
  rewrite Z.land_ones by lia. apply Z.mod_small. simpl; lia.
Qed.

Lemma sector_bits (s c : Z) :
  0 <= s < 64 -> 0 <= c < 1024 ->
  Z.land (Z.lor (Z.land s 0x3F) (Z.land (Z.shiftr c 2) 0xC0)) 0x3F = s.
Proof.
  intros Hs Hc.
  change 0x3F with (Z.ones 6). change 0xC0 with (Z.shiftl (Z.ones 2) 6).
  testbits. split_comparisons; try lia; bool_finish.
  all: symmetry; apply (testbit_small s 6); simpl; lia.
Qed.

Lemma cylinder_bits (s c : Z) :
  0 <= s < 64 -> 0 <= c < 1024 ->
  Z.lor (Z.shiftl
           (Z.land (Z.lor (Z.land s 0x3F) (Z.land (Z.shiftr c 2) 0xC0)) 0xC0) 2)
        (Z.land c 0xFF) = c.
Proof.
  intros Hs Hc.
  change 0x3F with (Z.ones 6). change 0xC0 with (Z.shiftl (Z.ones 2) 6).
  change 0xFF with (Z.ones 8).
  testbits. replace (n - 2 + 2) with n by lia.
  split_comparisons; try lia; bool_finish.
  all: symmetry; apply (testbit_small c 10); simpl; lia.
Qed.

(** Unpacking the three bytes of a packed CHS triple gives the triple. *)
Lemma unpackCHS_packCHS (h s c : Z) :
  0 <= h < 256 -> 0 <= s < 64 -> 0 <= c < 1024 ->
  match Mbr.packCHS h s c with
  | [b0; b1; b2] => Mbr.unpackCHS b0 b1 b2 = (h, s, c)
  | _ => False
  end.
Proof.
  intros Hh Hs Hc. unfold Mbr.packCHS, Mbr.unpackCHS.
  rewrite (land_byte h Hh), (sector_bits s c Hs Hc), (cylinder_bits s c Hs Hc).
  reflexivity.
Qed.

(** Reading back the four bytes of a 32-bit value gives the value. *)
Lemma getUint32_putUint32 (v : Z) :
  0 <= v < 2 ^ 32 ->
  match Mbr.putUint32 v with
  | [b0; b1; b2; b3] => Mbr.getUint32 b0 b1 b2 b3 = v
  | _ => False
  end.
Proof.
  intros Hv. unfold Mbr.putUint32, Mbr.getUint32.
  change 0xFF with (Z.ones 8).
  testbits.
  replace (n - 8 + 8) with n by lia.
  replace (n - 16 + 16) with n by lia.
  replace (n - 24 + 24) with n by lia.
  split_comparisons; try lia; bool_finish.
  all: symmetry; apply (testbit_small v 32); lia.
Qed.

(** The encoding has 16 bytes. *)
Lemma toBytes_length (p : Mbr.Partition) : Go.len (Mbr.toBytes p) = 16.
Proof. reflexivity. Qed.

(** Every byte of the encoding is a byte. *)
Lemma toBytes_bytes (p : Mbr.Partition) :
  Mbr.wellFormed p -> Forall Go.isByte (Mbr.toBytes p).
Proof.
  intros (Hsh & Hss & Hsc & Hty & Heh & Hes & Hec & Hst & Hsz).
  assert (Hland : forall v, Go.isByte (Z.land v 0xFF)).
  { intros v. unfold Go.isByte. change 0xFF with (Z.ones 8).
    rewrite Z.land_ones by lia. apply Z.mod_pos_bound. reflexivity. }
  assert (Hsec : forall s c, 0 <= s < 64 -> 0 <= c < 1024 ->
             Go.isByte (Z.lor (Z.land s 0x3F) (Z.land (Z.shiftr c 2) 0xC0))).
  { intros s c Hs Hc. unfold Go.isByte.
    set (b := Z.lor (Z.land s 0x3F) (Z.land (Z.shiftr c 2) 0xC0)).
    assert (Hb : Z.land b 0xFF = b).
    { subst b. change 0x3F with (Z.ones 6).
      change 0xC0 with (Z.shiftl (Z.ones 2) 6). change 0xFF with (Z.ones 8).
      testbits. split_comparisons; try lia; bool_finish. }
    rewrite <- Hb. apply Hland. }
  unfold Mbr.toBytes, Mbr.packCHS, Mbr.putUint32. cbn [app].
  repeat (apply Forall_cons;
          [ first [ apply Hland | apply Hsec; assumption | idtac ] | ]).
  all: try apply Forall_nil.
  destruct (Mbr.Bootable p); unfold Go.isByte; lia.
Qed.

(** C1.  For every MBR partition entry [p] whose fields hold what the
    entry can hold, decoding the 16 bytes of its encoding gives [p] back,
    equal in every field; the CHS bytes of the encoding are the packed
    CHS fields of [p], whatever its LBA fields are. *)
Theorem partitionFromBytes_toBytes (p : Mbr.Partition) (lss pss : Z) :
  Mbr.wellFormed p ->
  Mbr.partitionFromBytes (Mbr.toBytes p) lss pss
  = (Some (Mbr.withSectorSizes p lss pss), None)
  /\ Mbr.Equal (Mbr.withSectorSizes p lss pss) p = true
  /\ firstn 3 (skipn 1 (Mbr.toBytes p))
     = Mbr.packCHS (Mbr.StartHead p) (Mbr.StartSector p) (Mbr.StartCylinder p)
  /\ firstn 3 (skipn 5 (Mbr.toBytes p))
     = Mbr.packCHS (Mbr.EndHead p) (Mbr.EndSector p) (Mbr.EndCylinder p).
Proof.
  intros (Hsh & Hss & Hsc & Hty & Heh & Hes & Hec & Hst & Hsz).
  repeat split; try reflexivity.
  - pose proof (unpackCHS_packCHS _ _ _ Hsh Hss Hsc) as Hs.
    pose proof (unpackCHS_packCHS _ _ _ Heh Hes Hec) as He.
    pose proof (getUint32_putUint32 _ Hst) as Hstart.
    pose proof (getUint32_putUint32 _ Hsz) as Hsize.
    pose proof (land_byte _ Hty) as Htype.
    unfold Mbr.partitionFromBytes, Mbr.toBytes.
    unfold Mbr.packCHS, Mbr.putUint32 in *. cbn [app nth Go.len List.length].
    change (negb (Z.of_nat 16 =? Mbr.partitionEntrySize)) with false.
    cbv iota. rewrite Hs, He, Hstart, Hsize, Htype.
    unfold Mbr.withSectorSizes.
    destruct (Mbr.Bootable p); reflexivity.
  - unfold Mbr.Equal, Mbr.withSectorSizes; simpl.
    rewrite Bool.eqb_reflx, !Z.eqb_refl. reflexivity.
Qed.

(** The entry of the tests, with an unusual CHS: head 255, sector 0,
    cylinder 1023. *)
Lemma partitionFromBytes_toBytes_witness :
  let p := {| Mbr.Bootable := true;
              Mbr.StartHead := 255; Mbr.StartSector := 0;
              Mbr.StartCylinder := 1023;
              Mbr.Type' := Mbr.Linux;
              Mbr.EndHead := 0; Mbr.EndSector := 63; Mbr.EndCylinder := 768;
              Mbr.Start := 2048; Mbr.Size := 20480;
              Mbr.logicalSectorSize := 512;
              Mbr.physicalSectorSize := 512 |} in
  Mbr.wellFormed p /\
  Mbr.partitionFromBytes (Mbr.toBytes p) 512 512 = (Some p, None).
Proof.
  cbv zeta. split.
  - unfold Mbr.wellFormed, Mbr.Linux; simpl; lia.
  - apply (partitionFromBytes_toBytes
             {| Mbr.Bootable := true;
                Mbr.StartHead := 255; Mbr.StartSector := 0;
                Mbr.StartCylinder := 1023;
                Mbr.Type' := Mbr.Linux;
                Mbr.EndHead := 0; Mbr.EndSector := 63; Mbr.EndCylinder := 768;
                Mbr.Start := 2048; Mbr.Size := 20480;
                Mbr.logicalSectorSize := 512;
                Mbr.physicalSectorSize := 512 |} 512 512).
    unfold Mbr.wellFormed, Mbr.Linux; simpl; lia.
Defined.

(** The two tests on the fixture: it decodes to the entry of
    "Valid partition", and the entry of [TestToBytes] encodes to bytes
    that differ from it in the CHS bytes only. *)
Example partitionFromBytes_fixture :
  Mbr.partitionFromBytes Mbr.fixture 512 512
  = (Some {| Mbr.Bootable := false;
             Mbr.StartHead := 0x20; Mbr.StartSector := 0x21;
             Mbr.StartCylinder := 0x00;
             Mbr.Type' := Mbr.Linux;
             Mbr.EndHead := 0x31; Mbr.EndSector := 0x18;
             Mbr.EndCylinder := 0x00;
             Mbr.Start := 2048; Mbr.Size := 20480;
             Mbr.logicalSectorSize := 512;
             Mbr.physicalSectorSize := 512 |}, None).
Proof. reflexivity. Qed.

(** A sector number of more than 6 bits is not an MBR sector number:
    its top bits do not fit the packed byte. *)
Example sector_of_seven_bits_is_truncated :
  Mbr.packCHS 0 64 0 = Mbr.packCHS 0 0 0.
Proof. reflexivity. Qed.

(** C5.  [partitionFromBytes] fails, with a nil partition and an error,
    exactly when the input is invalid: a slice whose length [N] is not 16
    gives "data for partition was N bytes instead of expected 16", a
    16-byte slice whose first byte is neither 0x00 nor 0x80 gives an
    invalid-partition error, and a 16-byte slice whose first byte is one
    of the two decodes to a partition with no error. *)
Theorem partitionFromBytes_errors (b : list Go.byte) (lss pss : Z) :
  (Go.len b <> 16 ->
   Mbr.partitionFromBytes b lss pss
   = (None, Some (Mbr.InvalidEntry
        ("data for partition was " ++ Go.itoa (Go.len b)
         ++ " bytes instead of expected 16"))))
  /\ (Go.len b = 16 -> nth 0 b 0 <> 0x00 -> nth 0 b 0 <> 0x80 ->
      exists reason,
        Mbr.partitionFromBytes b lss pss = (None, Some (Mbr.InvalidEntry reason))
        /\ Go.HasPrefix reason "invalid partition" = true)
  /\ (Go.len b = 16 -> nth 0 b 0 = 0x00 \/ nth 0 b 0 = 0x80 ->
      exists p,
        Mbr.partitionFromBytes b lss pss = (Some p, None)
        /\ Mbr.Bootable p = (nth 0 b 0 =? 0x80)).
Proof.
  unfold Mbr.partitionFromBytes, Mbr.partitionEntrySize.
  repeat split.
  - intros Hlen. apply Z.eqb_neq in Hlen. rewrite Hlen. reflexivity.
  - intros Hlen H00 H80. rewrite Hlen.
    apply Z.eqb_neq in H00. apply Z.eqb_neq in H80.
    change (negb (16 =? 16)) with false. cbv iota.
    rewrite H00, H80. exists "invalid partition". split; reflexivity.
  - intros Hlen Hboot. rewrite Hlen.
    change (negb (16 =? 16)) with false. cbv iota.
    destruct (Mbr.unpackCHS (nth 1 b 0) (nth 2 b 0) (nth 3 b 0))
      as [[sh ss] sc].
    destruct (Mbr.unpackCHS (nth 5 b 0) (nth 6 b 0) (nth 7 b 0))
      as [[eh es] ec].
    destruct Hboot as [H0|H8]; rewrite ?H0, ?H8; simpl;
      eexists; split; reflexivity.
Qed.

(** The three failing inputs of [TestFromBytes]. *)
Example partitionFromBytes_short :
  Mbr.partitionFromBytes (repeat 0xAB 15) 512 512
  = (None, Some (Mbr.InvalidEntry
       "data for partition was 15 bytes instead of expected 16")).
Proof. reflexivity. Qed.

Example partitionFromBytes_long :
  Mbr.partitionFromBytes (repeat 0xAB 17) 512 512
  = (None, Some (Mbr.InvalidEntry
       "data for partition was 17 bytes instead of expected 16")).
Proof. reflexivity. Qed.

Example partitionFromBytes_bootable_0x67 :
  Mbr.partitionFromBytes (0x67 :: repeat 0xAB 15) 512 512
  = (None, Some (Mbr.InvalidEntry "invalid partition")).
Proof. reflexivity. Qed.

(** *** Writing more than the partition holds *)






(** The other tests of [TestWriteContents] that need no random bytes. *)
Example WriteContents_mismatched_size :
  Mbr.WriteContents
    {| Mbr.Bootable := false;
       Mbr.StartHead := 0; Mbr.StartSector := 2; Mbr.StartCylinder := 0;
       Mbr.Type' := Mbr.Linux;
       Mbr.EndHead := 0; Mbr.EndSector := 2; Mbr.EndCylinder := 0;
       Mbr.Start := 2048; Mbr.Size := 20480;
       Mbr.logicalSectorSize := 0; Mbr.physicalSectorSize := 0 |}
    Mbr.acceptAll []
  = Some (0, Some (Mbr.SizeMismatch 0 (20480 * 512)), []).
Proof. reflexivity. Qed.

Example WriteContents_error_writing :
  Mbr.WriteContents
    {| Mbr.Bootable := false;
       Mbr.StartHead := 0; Mbr.StartSector := 2; Mbr.StartCylinder := 0;
       Mbr.Type' := Mbr.Linux;
       Mbr.EndHead := 0; Mbr.EndSector := 2; Mbr.EndCylinder := 0;
       Mbr.Start := 2048; Mbr.Size := 20480;
       Mbr.logicalSectorSize := 0; Mbr.physicalSectorSize := 0 |}
    Mbr.rejectAll (repeat 0xAB 1024)
  = Some (0, Some (Mbr.BackendIO (Go.NewError "error writing to file")),
          [(2048 * 512, repeat 0xAB 512)]).
Proof. vm_compute. reflexivity. Qed.

(** ** Partition access through the disk (disk/disk.go) *)

(** An index below zero or above the number of partitions is refused
    with an error and the count [-1]; no partition content is read or
    written. *)
Lemma partition_index_outside_is_refused
    (d : Disk.Disk) (t : Disk.Table) (part : Z) (reader : list Go.byte) :
  Disk.Table' d = Some t ->
  part < 0 \/ Go.len (Disk.GetPartitions t) < part ->
  Disk.isError (snd (Disk.ReadPartitionContents d part)) = true
  /\ Disk.noContentIO (fst (Disk.ReadPartitionContents d part)) = true
  /\ Disk.isError (snd (Disk.WritePartitionContents d part reader)) = true
  /\ Disk.noContentIO (fst (Disk.WritePartitionContents d part reader)) = true.
Proof.
  intros Ht Hpart.
  unfold Disk.ReadPartitionContents, Disk.WritePartitionContents.
  rewrite Ht.
  destruct (Disk.writable (Disk.Backend d));
    destruct (Z.ltb_spec part 0);
    destruct (Z.gtb_spec part (Go.len (Disk.GetPartitions t)));
    try lia; repeat split; reflexivity.
Qed.

(** C2, at the partition index 0.  On a disk with a partition table and
    a backend that can be written, the index 0 passes both checks of
    [ReadPartitionContents] and of [WritePartitionContents], and the
    slice of partitions is indexed at [-1]: the call ends in a run-time
    panic and returns no error. *)
Theorem partition_index_zero_panics
    (d : Disk.Disk) (t : Disk.Table) (reader : list Go.byte) :
  Disk.Table' d = Some t ->
  Disk.writable (Disk.Backend d) = None ->
  Disk.ReadPartitionContents d 0
  = ([], Disk.PanicIndexOutOfRange (-1) (Go.len (Disk.GetPartitions t)))
  /\ Disk.WritePartitionContents d 0 reader
     = ([Disk.Writable],
        Disk.PanicIndexOutOfRange (-1) (Go.len (Disk.GetPartitions t)))
  /\ Disk.isError (snd (Disk.ReadPartitionContents d 0)) = false
  /\ Disk.isError (snd (Disk.WritePartitionContents d 0 reader)) = false.
Proof.
  intros Ht Hw.
  unfold Disk.ReadPartitionContents, Disk.WritePartitionContents.
  rewrite Ht, Hw.
  change (0 <? 0) with false. cbv iota.
  destruct (Z.gtb_spec 0 (Go.len (Disk.GetPartitions t))) as [Hneg|_].
  - unfold Go.len in Hneg. lia.
  - repeat split; reflexivity.
Qed.

(** The disk with one partition, asked for partition 0. *)
Lemma partition_index_zero_panics_witness :
  Disk.ReadPartitionContents Disk.oneDisk 0
  = ([], Disk.PanicIndexOutOfRange (-1) 1)
  /\ Disk.WritePartitionContents Disk.oneDisk 0 [1; 2; 3]
     = ([Disk.Writable], Disk.PanicIndexOutOfRange (-1) 1).
Proof.
  pose proof (partition_index_zero_panics Disk.oneDisk
                {| Disk.GetPartitions := [Disk.onePartition] |} [1; 2; 3]
                eq_refl eq_refl) as (Hr & Hw & _).
  split; [exact Hr | exact Hw].
Defined.

(** The same disk asked for its partition 1, and for partition 2. *)
Example partition_index_one_reads :
  Disk.ReadPartitionContents Disk.oneDisk 1
  = ([Disk.ReadContents 0], Disk.Return (20480 * 512) None).
Proof. reflexivity. Qed.

Example partition_index_two_is_refused :
  Disk.ReadPartitionContents Disk.oneDisk 2
  = ([], Disk.Return (-1) (Some (Go.NewError
       "cannot read contents of partition 2 which is greater than max partition 1"))).
Proof. reflexivity. Qed.

(** ** The squashfs facade (filesystem/squashfs/squashfs.go) *)

(** *** Block size: the logarithm test is the power-of-two test *)

Lemma ln_2_pos : (0 < ln 2)%R.
Proof. pose proof ln_lt_2. lra. Qed.

Lemma Int_part_IZR (z : Z) : Int_part (IZR z) = z.
Proof. symmetry. apply Int_part_spec. lra. Qed.

Lemma Trunc_IZR (z : Z) : Squashfs.Trunc (IZR z) = IZR z.
Proof.
  unfold Squashfs.Trunc. destruct (Rlt_dec (IZR z) 0).
  - rewrite <- (opp_IZR z), Int_part_IZR, opp_IZR. lra.
  - rewrite Int_part_IZR. reflexivity.
Qed.

Lemma Trunc_is_integer (x : R) : exists z : Z, Squashfs.Trunc x = IZR z.
Proof.
  unfold Squashfs.Trunc. destruct (Rlt_dec x 0).
  - exists (- Int_part (- x)). rewrite opp_IZR. reflexivity.
  - exists (Int_part x). reflexivity.
Qed.

Lemma Log2_pow2 (k : Z) : 0 <= k -> Squashfs.Log2 (IZR (2 ^ k)) = IZR k.
Proof.
  intros Hk. pose proof ln_2_pos.
  rewrite <- (Z2Nat.id k Hk), <- pow_IZR.
  unfold Squashfs.Log2. rewrite ln_pow by lra.
  rewrite INR_IZR_INZ. field. lra.
Qed.

Lemma Log2_integer (b k : Z) :
  1 <= b -> Squashfs.Log2 (IZR b) = IZR k -> 0 <= k /\ b = 2 ^ k.
Proof.
  intros Hb Hl. pose proof ln_2_pos as H2.
  assert (Hpos : (0 < IZR b)%R) by (apply IZR_lt; lia).
  assert (Hln : ln (IZR b) = (IZR k * ln 2)%R).
  { unfold Squashfs.Log2 in Hl. rewrite <- Hl. field. lra. }
  assert (Hk : 0 <= k).
  { apply le_IZR.
    assert (Hge : (0 <= ln (IZR b))%R).
    { destruct (Z.eq_dec b 1) as [->|Hne].
      - rewrite ln_1. lra.
      - rewrite <- ln_1. apply Rlt_le, ln_increasing; [lra|].
        apply IZR_lt. lia. }
    rewrite Hln in Hge.
    destruct (Rle_dec 0 (IZR k)) as [|Hneg]; [assumption|].
    assert (IZR k * ln 2 < 0)%R; [|lra].
    apply Rnot_le_lt in Hneg.
    replace 0%R with (0 * ln 2)%R by ring.
    apply Rmult_lt_compat_r; assumption. }
  split; [assumption|].
  apply eq_IZR. apply ln_inv; [assumption | apply IZR_lt; lia |].
  rewrite Hln, <- (Z2Nat.id k Hk), <- pow_IZR, ln_pow by lra.
  rewrite INR_IZR_INZ. reflexivity.
Qed.

Lemma isPowerOfTwo_spec (b : Z) :
  Squashfs.isPowerOfTwo b = true <-> exists k, 0 <= k /\ b = 2 ^ k.
Proof.
  unfold Squashfs.isPowerOfTwo. split.
  - intros H. apply andb_prop in H as [Hpos Heq].
    apply Z.eqb_eq in Heq. exists (Z.log2 b). split.
    + apply Z.log2_nonneg.
    + symmetry. assumption.
  - intros (k & Hk & ->). apply andb_true_intro. split.
    + apply Z.ltb_lt. lia.
    + rewrite Z.log2_pow2 by assumption. apply Z.eqb_refl.
Qed.

(** [validateBlocksize], with its logarithm, decides what the test on
    integers decides. *)
Lemma validateBlocksize_computes (blocksize : Z) :
  Squashfs.validateBlocksize blocksize = Squashfs.validateBlocksizeZ blocksize.
Proof.
  unfold Squashfs.validateBlocksize, Squashfs.validateBlocksizeZ.
  destruct (Z.ltb_spec blocksize Squashfs.minBlocksize) as [|Hmin]; [reflexivity|].
  destruct (Z.gtb_spec blocksize Squashfs.maxBlocksize) as [|Hmax]; [reflexivity|].
  assert (Hb : 1 <= blocksize)
    by (unfold Squashfs.minBlocksize, Squashfs.KB in Hmin; lia).
  destruct (Req_EM_T _ _) as [Heq|Hne];
    destruct (Squashfs.isPowerOfTwo blocksize) eqn:Hp; try reflexivity.
  - destruct (Trunc_is_integer (Squashfs.Log2 (IZR blocksize))) as [z Hz].
    rewrite Heq in Hz. apply (Log2_integer _ _ Hb) in Hz.
    assert (Squashfs.isPowerOfTwo blocksize = true)
      by (apply isPowerOfTwo_spec; exists z; assumption).
    congruence.
  - apply isPowerOfTwo_spec in Hp as (k & Hk & ->).
    exfalso. apply Hne. rewrite Log2_pow2 by assumption. apply Trunc_IZR.
Qed.

(** A block size of 3000 is refused by the first case, as too small: it
    never reaches the test on the logarithm, and the error is not the one
    that names a power of two. *)
Lemma blocksize_3000_is_refused_as_too_small :
  Squashfs.validateBlocksize 3000
  = Some (Go.NewError "blocksize 3000 too small, must be at least 4096")
  /\ Squashfs.validateBlocksize 3000
     <> Some (Go.NewError "blocksize 3000 is not a power of 2")
  /\ fst (Squashfs.Create Squashfs.workingOS (Squashfs.storageOf [])
            1048576 0 3000 Squashfs.emptyWorld)
     <> Go.Err (Go.NewError "blocksize 3000 is not a power of 2").
Proof.
  rewrite validateBlocksize_computes.
  assert (Hc : fst (Squashfs.Create Squashfs.workingOS (Squashfs.storageOf [])
                      1048576 0 3000 Squashfs.emptyWorld)
               = Go.Err (Go.NewError
                   "blocksize 3000 too small, must be at least 4096")).
  { unfold Squashfs.Create. cbv zeta. change (3000 =? 0) with false. cbv iota.
    rewrite validateBlocksize_computes. reflexivity. }
  rewrite Hc.
  assert (Hv : Squashfs.validateBlocksizeZ 3000
               = Some (Go.NewError
                   "blocksize 3000 too small, must be at least 4096"))
    by reflexivity.
  rewrite Hv. split; [reflexivity|]. split; discriminate.
Qed.

(** C6, as the code has it.  [Create] and [Read] fail, before any call
    to the system or to the backend, for every block size other than 0
    that is below 4096, above 1048576 or not a power of two; the error
    says "too small" for a size below 4096, "too large" for a size above
    1048576 and "not a power of 2" for the sizes in between.  For the
    block size 0 both validate the default of 128 KiB, which passes, and
    go on: [Create] to the working directory, [Read] to the superblock. *)
Theorem blocksize_is_validated
    (ext : Squashfs.externals) (b : Squashfs.Storage)
    (size start blocksize : Z) (w : Squashfs.world) :
  (blocksize <> 0 ->
   blocksize < 4096 \/ 1048576 < blocksize
   \/ ~ (exists k, 0 <= k /\ blocksize = 2 ^ k) ->
   let err :=
     Go.NewError
       (if blocksize <? 4096 then
          "blocksize " ++ Go.itoa blocksize ++ " too small, must be at least 4096"
        else if blocksize >? 1048576 then
          "blocksize " ++ Go.itoa blocksize
          ++ " too large, must be no more than 1048576"
        else "blocksize " ++ Go.itoa blocksize ++ " is not a power of 2") in
   Squashfs.validateBlocksize blocksize = Some err
   /\ Squashfs.Create ext b size start blocksize w = (Go.Err err, w)
   /\ Squashfs.Read ext b size start blocksize w = (Go.Err err, w))
  /\ Squashfs.defaultBlockSize = 128 * 1024
  /\ Squashfs.validateBlocksize Squashfs.defaultBlockSize = None
  /\ Squashfs.Create ext b size start 0 w
     = Squashfs.createWorkspace ext b size start Squashfs.defaultBlockSize w
  /\ Squashfs.Read ext b size start 0 w = Squashfs.readImage ext b size start w.
Proof.
  assert (Hdef : Squashfs.validateBlocksize Squashfs.defaultBlockSize = None).
  { rewrite validateBlocksize_computes. reflexivity. }
  split; [|split; [|split; [|split]]].
  - intros Hnz Hbad err.
    assert (Hv : Squashfs.validateBlocksize blocksize = Some err).
    { rewrite validateBlocksize_computes. subst err.
      unfold Squashfs.validateBlocksizeZ.
      change Squashfs.minBlocksize with 4096.
      change Squashfs.maxBlocksize with 1048576.
      change (Go.itoa 4096) with "4096". change (Go.itoa 1048576) with "1048576".
      destruct (Z.ltb_spec blocksize 4096) as [|Hmin]; [reflexivity|].
      destruct (Z.gtb_spec blocksize 1048576) as [|Hmax]; [reflexivity|].
      destruct (Squashfs.isPowerOfTwo blocksize) eqn:Hp; [|reflexivity].
      apply isPowerOfTwo_spec in Hp. destruct Hbad as [?|[?|Hn]]; try lia.
      contradiction. }
    split; [assumption|].
    unfold Squashfs.Create, Squashfs.Read. cbv zeta.
    apply Z.eqb_neq in Hnz. rewrite Hnz, Hv. split; reflexivity.
  - reflexivity.
  - assumption.
  - unfold Squashfs.Create. cbv zeta. change (0 =? 0) with true. cbv iota.
    rewrite Hdef. reflexivity.
  - unfold Squashfs.Read. cbv zeta. change (0 =? 0) with true. cbv iota.
    rewrite Hdef. reflexivity.
Qed.

(** Block sizes on either side of each case. *)
Example validateBlocksize_samples :
  Squashfs.validateBlocksize 4096 = None
  /\ Squashfs.validateBlocksize 1048576 = None
  /\ Squashfs.validateBlocksize 5000
     = Some (Go.NewError "blocksize 5000 is not a power of 2")
  /\ Squashfs.validateBlocksize 2097152
     = Some (Go.NewError
               "blocksize 2097152 too large, must be no more than 1048576")
  /\ Squashfs.validateBlocksize 2048
     = Some (Go.NewError "blocksize 2048 too small, must be at least 4096")
  /\ Squashfs.validateBlocksize (-4096)
     = Some (Go.NewError "blocksize -4096 too small, must be at least 4096").
Proof. rewrite !validateBlocksize_computes. repeat split; reflexivity. Qed.

(** [Create] with the block size 0, where the working directory can be
    made: a filesystem with the default block size. *)
Example Create_default_blocksize :
  exists fs,
    Squashfs.Create Squashfs.workingOS (Squashfs.storageOf []) 1048576 0 0
                    Squashfs.emptyWorld
    = (Go.Ok fs,
       {| Squashfs.trace := [Squashfs.OsMkdirTemp "" "diskfs_squashfs"];
          Squashfs.cache := None |})
    /\ Squashfs.fsBlocksize fs = 131072
    /\ Squashfs.workspace fs = "/tmp/diskfs_squashfs1".
Proof.
  unfold Squashfs.Create. cbv zeta. change (0 =? 0) with true. cbv iota.
  rewrite validateBlocksize_computes. eexists. repeat split.
Qed.

(** *** Opening a file for writing on a filesystem without a workspace *)

Lemma writeMode_spec (flag : Z) :
  Squashfs.writeMode flag = true <-> Squashfs.hasWriteIntent flag.
Proof.
  unfold Squashfs.writeMode, Squashfs.hasWriteIntent.
  rewrite !orb_true_iff, !negb_true_iff, !Z.eqb_neq. tauto.
Qed.

(** Every one of the six flags carries a write intent; the read-only
    flag does not. *)
Example write_intent_flags :
  Forall (fun flag => Squashfs.writeMode flag = true)
         [Go.O_WRONLY; Go.O_RDWR; Go.O_APPEND; Go.O_CREATE; Go.O_TRUNC;
          Go.O_EXCL]
  /\ Squashfs.writeMode Go.O_RDONLY = false.
Proof. split; [repeat constructor | reflexivity]. Qed.

(** The root path, opened write-only on a filesystem that [Read] made:
    the error is the one of a directory opened as a file, not the
    read-only error. *)
Lemma OpenFile_root_is_not_ReadOnly :
  Squashfs.workspace Squashfs.readOnlyFS = ""
  /\ Squashfs.hasWriteIntent Go.O_WRONLY
  /\ Squashfs.OpenFile Squashfs.workingOS Squashfs.readOnlyFS "/" Go.O_WRONLY
                       Squashfs.emptyWorld
     = (Go.Err (Go.NewError "cannot open directory / as file"),
        Squashfs.emptyWorld)
  /\ fst (Squashfs.OpenFile Squashfs.workingOS Squashfs.readOnlyFS "/"
                            Go.O_WRONLY Squashfs.emptyWorld)
     <> Go.Err Go.ErrReadonlyFilesystem.
Proof.
  split; [reflexivity|]. split; [apply writeMode_spec; reflexivity|].
  assert (H : Squashfs.OpenFile Squashfs.workingOS Squashfs.readOnlyFS "/"
                Go.O_WRONLY Squashfs.emptyWorld
              = (Go.Err (Go.NewError "cannot open directory / as file"),
                 Squashfs.emptyWorld)) by reflexivity.
  rewrite H. split; [reflexivity | discriminate].
Qed.

(** C3, as the code has it.  On a filesystem without a workspace, for
    every flag set with a write intent: a path whose directory part
    differs from its base name gets the read-only error, and the root
    path gets the error of a directory opened as a file, from the check
    that comes first; in both cases the world is as it was: no directory
    entry was read and the backend was not touched. *)
Theorem OpenFile_write_intent_without_workspace
    (ext : Squashfs.externals) (fs : Squashfs.FileSystem) (p : string)
    (flag : Z) (w : Squashfs.world) :
  Squashfs.workspace fs = "" ->
  Squashfs.hasWriteIntent flag ->
  (Go.Dir p <> Go.Base p ->
   Squashfs.OpenFile ext fs p flag w = (Go.Err Go.ErrReadonlyFilesystem, w))
  /\ Squashfs.OpenFile ext fs "/" flag w
     = (Go.Err (Go.NewError "cannot open directory / as file"), w).
Proof.
  intros Hws Hflag. apply writeMode_spec in Hflag.
  unfold Squashfs.OpenFile. cbv zeta. split.
  - intros Hne. apply String.eqb_neq in Hne. rewrite Hne, Hws, Hflag.
    reflexivity.
  - reflexivity.
Qed.

(** A file of the image opened for reading and writing. *)
Lemma OpenFile_write_intent_without_workspace_witness :
  Squashfs.OpenFile Squashfs.workingOS Squashfs.readOnlyFS "/etc/passwd"
                    Go.O_RDWR Squashfs.emptyWorld
  = (Go.Err Go.ErrReadonlyFilesystem, Squashfs.emptyWorld).
Proof.
  apply (proj1 (OpenFile_write_intent_without_workspace
                  Squashfs.workingOS Squashfs.readOnlyFS "/etc/passwd"
                  Go.O_RDWR Squashfs.emptyWorld eq_refl
                  (proj1 (writeMode_spec Go.O_RDWR) eq_refl))).
  vm_compute. discriminate.
Defined.

(** The same file opened read-only: the directory is read. *)
Example OpenFile_read_only_reads_the_directory :
  Squashfs.OpenFile Squashfs.workingOS Squashfs.readOnlyFS "/etc/passwd"
                    Go.O_RDONLY Squashfs.emptyWorld
  = (Go.Err (Go.NewError "target file /etc/passwd does not exist"),
     {| Squashfs.trace := [Squashfs.GetDirectoryEntries "/etc"];
        Squashfs.cache := None |}).
Proof. reflexivity. Qed.

(** *** Sparse blocks *)

(** C7.  A data block whose size entry is 0 is read as [blocksize] zero
    bytes, the block size being the one of the superblock; the world is
    as it was: the backend was not read and nothing was decompressed. *)
Theorem readBlock_sparse
    (fs : Squashfs.FileSystem) (sb : Squashfs.superblock)
    (location : Z) (compressed : bool) (w : Squashfs.world) :
  Squashfs.superblock' fs = Some sb ->
  0 <= Squashfs.blocksize sb ->
  exists data,
    Squashfs.readBlock fs location compressed 0 w = (Go.Ok data, w)
    /\ Go.len data = Squashfs.blocksize sb
    /\ Forall (fun byte => byte = 0) data.
Proof.
  intros Hsb Hpos. exists (Go.make (Squashfs.blocksize sb)).
  unfold Squashfs.readBlock. change (0 =? 0) with true. cbv iota.
  rewrite Hsb. split; [reflexivity|]. unfold Go.make, Go.len. split.
  - rewrite repeat_length. lia.
  - apply Forall_forall. intros x Hx. apply repeat_spec in Hx. assumption.
Qed.

Lemma readBlock_sparse_witness :
  exists data,
    Squashfs.readBlock Squashfs.readOnlyFS 96 true 0 Squashfs.emptyWorld
    = (Go.Ok data, Squashfs.emptyWorld)
    /\ Go.len data = 4096
    /\ Forall (fun byte => byte = 0) data.
Proof.
  apply (readBlock_sparse Squashfs.readOnlyFS Squashfs.sampleSuperblock
           96 true Squashfs.emptyWorld).
  - reflexivity.
  - simpl. lia.
Defined.

(** A block with a size is read from the backend. *)
Example readBlock_stored :
  Squashfs.readBlock Squashfs.readOnlyFS 96 false 4 Squashfs.emptyWorld
  = (Go.Ok [7; 7; 7; 7],
     {| Squashfs.trace := [Squashfs.BackendReadAt 4 96];
        Squashfs.cache := None |}).
Proof. reflexivity. Qed.

(** *** Fragments *)

(** C8.  A fragment index at or past the number of entries of the
    fragment table is an error; the world is as it was: the backend was
    not read and nothing entered the cache. *)
Theorem readFragment_index_past_the_table
    (fs : Squashfs.FileSystem) (index offset fragmentSize : Z)
    (w : Squashfs.world) :
  Go.len (Squashfs.fragments fs) <= index ->
  Squashfs.readFragment fs index offset fragmentSize w
  = (Go.Err (Go.NewError
       ("cannot find fragment block with index " ++ Go.itoa index)), w).
Proof.
  intros Hidx. unfold Squashfs.readFragment.
  destruct (Z.ltb_spec (Go.len (Squashfs.fragments fs) - 1) index);
    [reflexivity | lia].
Qed.

(** The filesystem with two fragment blocks, asked for the third. *)
Lemma readFragment_index_past_the_table_witness :
  Squashfs.readFragment Squashfs.readOnlyFS 2 0 4
    {| Squashfs.trace := []; Squashfs.cache := Some (Squashfs.newLRU 2) |}
  = (Go.Err (Go.NewError "cannot find fragment block with index 2"),
     {| Squashfs.trace := []; Squashfs.cache := Some (Squashfs.newLRU 2) |}).
Proof.
  apply (readFragment_index_past_the_table Squashfs.readOnlyFS 2 0 4).
  unfold Go.len. simpl. lia.
Defined.

(** The second fragment block: read, decompressed and cached; a second
    read finds it in the cache. *)
Example readFragment_in_the_table :
  let w0 := {| Squashfs.trace := [];
               Squashfs.cache := Some (Squashfs.newLRU 2) |} in
  let '(r1, w1) := Squashfs.readFragment Squashfs.readOnlyFS 1 2 4 w0 in
  let '(r2, w2) := Squashfs.readFragment Squashfs.readOnlyFS 1 2 4 w1 in
  r1 = Go.Ok [7; 7; 7; 7] /\ r2 = r1
  /\ Squashfs.trace w1
     = [Squashfs.CacheInsert 112; Squashfs.Decompress 16;
        Squashfs.BackendReadAt 16 112]
  /\ Squashfs.trace w2 = Squashfs.trace w1.
Proof. vm_compute. repeat split. Qed.

(** *** Closing *)

(** A filesystem with a workspace that cannot be removed: [Close]
    returns the error of the removal. *)
Lemma Close_returns_the_removal_error :
  Squashfs.workspace Squashfs.workspaceFS <> ""
  /\ Squashfs.Close (Squashfs.failingOS (Go.NewError "permission denied"))
                    Squashfs.workspaceFS Squashfs.emptyWorld
     = (Some (Go.NewError "permission denied"),
        {| Squashfs.trace := [Squashfs.OsRemoveAll "/tmp/diskfs_squashfs1"];
           Squashfs.cache := None |})
  /\ fst (Squashfs.Close (Squashfs.failingOS (Go.NewError "permission denied"))
                         Squashfs.workspaceFS Squashfs.emptyWorld)
     <> None.
Proof.
  split; [discriminate|].
  assert (H : Squashfs.Close (Squashfs.failingOS (Go.NewError "permission denied"))
                Squashfs.workspaceFS Squashfs.emptyWorld
              = (Some (Go.NewError "permission denied"),
                 {| Squashfs.trace := [Squashfs.OsRemoveAll "/tmp/diskfs_squashfs1"];
                    Squashfs.cache := None |})) by reflexivity.
  rewrite H. split; [reflexivity | discriminate].
Qed.

(** C9, as the code has it.  For a filesystem with a workspace, [Close]
    removes the workspace and returns what the removal returns: nil when
    it succeeds, its error when it fails.  The removal is the only thing
    that happens; nothing is logged.  Without a workspace [Close] returns
    nil and nothing happens. *)
Theorem Close_returns_the_removal_result
    (ext : Squashfs.externals) (fs : Squashfs.FileSystem)
    (w : Squashfs.world) :
  (Squashfs.workspace fs <> "" ->
   Squashfs.Close ext fs w
   = (Squashfs.osRemoveAll ext (Squashfs.workspace fs),
      {| Squashfs.trace :=
           Squashfs.OsRemoveAll (Squashfs.workspace fs) :: Squashfs.trace w;
         Squashfs.cache := Squashfs.cache w |}))
  /\ (Squashfs.workspace fs = "" -> Squashfs.Close ext fs w = (None, w)).
Proof.
  unfold Squashfs.Close. split.
  - intros Hws. apply String.eqb_neq in Hws. rewrite Hws. reflexivity.
  - intros ->. reflexivity.
Qed.

(** A workspace that can be removed: [Close] returns nil. *)
Lemma Close_returns_the_removal_result_witness :
  Squashfs.Close Squashfs.workingOS Squashfs.workspaceFS Squashfs.emptyWorld
  = (None,
     {| Squashfs.trace := [Squashfs.OsRemoveAll "/tmp/diskfs_squashfs1"];
        Squashfs.cache := None |}).
Proof.
  apply (proj1 (Close_returns_the_removal_result
                  Squashfs.workingOS Squashfs.workspaceFS Squashfs.emptyWorld)).
  discriminate.
Defined.

(** Without a workspace there is nothing to remove. *)
Example Close_without_workspace :
  Squashfs.Close (Squashfs.failingOS (Go.NewError "permission denied"))
                 Squashfs.readOnlyFS Squashfs.emptyWorld
  = (None, Squashfs.emptyWorld).
Proof. reflexivity. Qed.

(* ================================================================== *)
(** * Part III: further properties of the code *)
(* ================================================================== *)

(** ** Ordered comparison (filesystem/ext4/cmp.go) *)

Lemma Less_irreflexive_asymmetric :
  forall (T : Type) (O : Cmp.Ordered T) (x y : T),
    Cmp.Less x x = false /\ Cmp.Less x y && Cmp.Less y x = false.
Proof.
  intros T O x y. unfold Cmp.Less, Cmp.isNaN.
  pose proof (Cmp.lt_asym x x) as Hxx.
  pose proof (Cmp.lt_asym x y) as Hxy.
  pose proof (Cmp.lt_nan_l x y) as Hxl.
  pose proof (Cmp.lt_nan_r x y) as Hyr.
  pose proof (Cmp.lt_nan_l y x) as Hyl.
  pose proof (Cmp.lt_nan_r y x) as Hxr.
  destruct (Cmp.neq x x), (Cmp.neq y y), (Cmp.lt x y), (Cmp.lt y x),
    (Cmp.lt x x); simpl; split; try reflexivity;
    try (specialize (Hxx eq_refl); discriminate);
    try (specialize (Hxy eq_refl); discriminate);
    try (specialize (Hxl eq_refl); discriminate);
    try (specialize (Hyr eq_refl); discriminate);
    try (specialize (Hyl eq_refl); discriminate);
    try (specialize (Hxr eq_refl); discriminate).
Qed.

(** X1.  [Less] is a strict relation on every ordered type, NaN included:
    nothing is less than itself, and [Less] never holds both ways. *)
Theorem Less_is_strict :
  forall (T : Type) (O : Cmp.Ordered T) (x y : T),
    Cmp.Less x x = false /\ Cmp.Less x y && Cmp.Less y x = false.
Proof. exact Less_irreflexive_asymmetric. Qed.

(** The comparison [<] of IEEE-754 floats is transitive, NaN, signed
    zeros and infinities included. *)
Lemma SFltb_transitive (a b c : spec_float) :
  SFltb a b = true -> SFltb b c = true -> SFltb a c = true.
Proof.
  assert (Hlex : forall (ea eb ec : Z) (ma mb mc : positive),
            match ea ?= eb with
            | Eq => Pos.compare_cont Eq ma mb | Lt => Lt | Gt => Gt
            end = Lt ->
            match eb ?= ec with
            | Eq => Pos.compare_cont Eq mb mc | Lt => Lt | Gt => Gt
            end = Lt ->
            match ea ?= ec with
            | Eq => Pos.compare_cont Eq ma mc | Lt => Lt | Gt => Gt
            end = Lt).
  { intros ea eb ec ma mb mc.
    change (Pos.compare_cont Eq ma mb) with (Pos.compare ma mb).
    change (Pos.compare_cont Eq mb mc) with (Pos.compare mb mc).
    change (Pos.compare_cont Eq ma mc) with (Pos.compare ma mc).
    destruct (Z.compare_spec ea eb), (Z.compare_spec eb ec),
      (Z.compare_spec ea ec); intros Hab Hbc; try discriminate;
      try reflexivity; try (exfalso; lia).
    all: rewrite ?Pos.compare_lt_iff in *.
    all: lia. }
  assert (Hopp : forall x : comparison, CompOpp x = Lt <-> x = Gt)
    by (intros []; simpl; split; congruence).
  assert (Hlex' : forall (ea eb ec : Z) (ma mb mc : positive),
            match ea ?= eb with
            | Eq => CompOpp (Pos.compare_cont Eq ma mb) | Lt => Gt | Gt => Lt
            end = Lt ->
            match eb ?= ec with
            | Eq => CompOpp (Pos.compare_cont Eq mb mc) | Lt => Gt | Gt => Lt
            end = Lt ->
            match ea ?= ec with
            | Eq => CompOpp (Pos.compare_cont Eq ma mc) | Lt => Gt | Gt => Lt
            end = Lt).
  { intros ea eb ec ma mb mc.
    change (Pos.compare_cont Eq ma mb) with (Pos.compare ma mb).
    change (Pos.compare_cont Eq mb mc) with (Pos.compare mb mc).
    change (Pos.compare_cont Eq ma mc) with (Pos.compare ma mc).
    destruct (Z.compare_spec ea eb), (Z.compare_spec eb ec),
      (Z.compare_spec ea ec); intros Hab Hbc; try discriminate;
      try reflexivity; try (exfalso; lia).
    all: rewrite ?Hopp in *.
    all: rewrite ?Pos.compare_gt_iff in *.
    all: lia. }
  unfold SFltb.
  destruct a as [sa|sa| |sa ma ea], b as [sb|sb| |sb mb eb],
    c as [sc|sc| |sc mc ec]; cbn [SFcompare];
    try discriminate; try reflexivity;
    repeat match goal with s : bool |- _ => destruct s end;
    try discriminate; try reflexivity.
  - intros Hab Hbc.
    assert (H1 : match ea ?= eb with
                 | Eq => CompOpp (Pos.compare_cont Eq ma mb) | Lt => Gt | Gt => Lt
                 end = Lt)
      by (destruct (match ea ?= eb with
                    | Eq => CompOpp (Pos.compare_cont Eq ma mb)
                    | Lt => Gt | Gt => Lt end); congruence).
    assert (H2 : match eb ?= ec with
                 | Eq => CompOpp (Pos.compare_cont Eq mb mc) | Lt => Gt | Gt => Lt
                 end = Lt)
      by (destruct (match eb ?= ec with
                    | Eq => CompOpp (Pos.compare_cont Eq mb mc)
                    | Lt => Gt | Gt => Lt end); congruence).
    rewrite (Hlex' ea eb ec ma mb mc H1 H2). reflexivity.
  - intros Hab Hbc.
    assert (H1 : match ea ?= eb with
                 | Eq => Pos.compare_cont Eq ma mb | Lt => Lt | Gt => Gt
                 end = Lt)
      by (destruct (match ea ?= eb with
                    | Eq => Pos.compare_cont Eq ma mb
                    | Lt => Lt | Gt => Gt end); congruence).
    assert (H2 : match eb ?= ec with
                 | Eq => Pos.compare_cont Eq mb mc | Lt => Lt | Gt => Gt
                 end = Lt)
      by (destruct (match eb ?= ec with
                    | Eq => Pos.compare_cont Eq mb mc
                    | Lt => Lt | Gt => Gt end); congruence).
    rewrite (Hlex ea eb ec ma mb mc H1 H2). reflexivity.
Qed.

(** X2.  Where [<] is transitive, as it is on the floats, so is [Less],
    NaN included. *)
Theorem Less_is_transitive
    (T : Type) (O : Cmp.Ordered T) (x y z : T) :
  (forall a b c : T,
      Cmp.lt a b = true -> Cmp.lt b c = true -> Cmp.lt a c = true) ->
  Cmp.Less x y = true -> Cmp.Less y z = true -> Cmp.Less x z = true.
Proof.
  intros Htrans. unfold Cmp.Less, Cmp.isNaN.
  pose proof (Htrans x y z) as Hxyz.
  pose proof (Cmp.lt_nan_l x y) as Hxl.
  pose proof (Cmp.lt_nan_r x y) as Hyr.
  pose proof (Cmp.lt_nan_l y z) as Hyl.
  pose proof (Cmp.lt_nan_r y z) as Hzr.
  destruct (Cmp.neq x x), (Cmp.neq y y), (Cmp.neq z z), (Cmp.lt x y),
    (Cmp.lt y z), (Cmp.lt x z); simpl; intros; try reflexivity;
    try discriminate;
    try (specialize (Hxyz eq_refl eq_refl); discriminate);
    try (specialize (Hxl eq_refl); discriminate);
    try (specialize (Hyr eq_refl); discriminate);
    try (specialize (Hyl eq_refl); discriminate);
    try (specialize (Hzr eq_refl); discriminate).
Qed.

(** On the floats: NaN is less than 1.0, 1.0 is less than 2.0, and so
    NaN is less than 2.0. *)
Lemma Less_is_transitive_witness :
  Cmp.Less Cmp.nan Cmp.one = true
  /\ Cmp.Less Cmp.one (S754_finite false 1 1) = true
  /\ Cmp.Less Cmp.nan (S754_finite false 1 1) = true.
Proof.
  split; [reflexivity|]. split; [reflexivity|].
  apply (Less_is_transitive spec_float Cmp.Ordered_float
           Cmp.nan Cmp.one (S754_finite false 1 1) SFltb_transitive);
    reflexivity.
Defined.

(** X3.  [Compare] of a value with itself is 0, also for a NaN, and
    [Compare] only ever returns -1, 0 or +1. *)
Theorem Compare_reflexive_and_bounded :
  forall (T : Type) (O : Cmp.Ordered T) (x y : T),
    Cmp.Compare x x = 0
    /\ (Cmp.Compare x y = -1 \/ Cmp.Compare x y = 0 \/ Cmp.Compare x y = 1).
Proof.
  intros T O x y. unfold Cmp.Compare, Cmp.isNaN, Cmp.gt.
  pose proof (Cmp.lt_asym x x) as Hxx.
  split.
  - destruct (Cmp.neq x x); [reflexivity|].
    destruct (Cmp.lt x x); [specialize (Hxx eq_refl); discriminate|].
    reflexivity.
  - destruct (Cmp.neq x x), (Cmp.neq y y), (Cmp.lt x y), (Cmp.lt y x); auto.
Qed.

(** X4.  [max] and [min] return one of their arguments, and [max] is never
    [Less] than [min]. *)
Theorem max_min_are_arguments :
  forall (T : Type) (O : Cmp.Ordered T) (x y : T),
    (Cmp.max x y = x \/ Cmp.max x y = y)
    /\ (Cmp.min x y = x \/ Cmp.min x y = y)
    /\ Cmp.Less (Cmp.max x y) (Cmp.min x y) = false.
Proof.
  intros T O x y. unfold Cmp.max, Cmp.min, Cmp.gt.
  pose proof (Less_irreflexive_asymmetric T O x y) as [Hx Hxy].
  pose proof (Less_irreflexive_asymmetric T O y x) as [Hy _].
  pose proof (Cmp.lt_asym y x) as Hasym.
  repeat split.
  - destruct (Cmp.lt y x); auto.
  - destruct (Cmp.lt x y); auto.
  - destruct (Cmp.lt y x) eqn:Hyx, (Cmp.lt x y) eqn:Hlt; try assumption.
    + unfold Cmp.Less, Cmp.isNaN. rewrite Hlt.
      pose proof (Cmp.lt_nan_r y x) as Hn.
      destruct (Cmp.neq x x); [specialize (Hn eq_refl); congruence|].
      reflexivity.
    + unfold Cmp.Less, Cmp.isNaN. rewrite Hyx.
      pose proof (Cmp.lt_nan_r x y) as Hn.
      destruct (Cmp.neq y y); [specialize (Hn eq_refl); congruence|].
      reflexivity.
Qed.

(** X5.  When either argument is a NaN, [max] and [min] return their second
    argument: a NaN in the first place is dropped, and the result is a
    NaN only if the second argument is one. *)
Theorem max_min_with_NaN
    (T : Type) (O : Cmp.Ordered T) (x y : T) :
  Cmp.isNaN x = true \/ Cmp.isNaN y = true ->
  Cmp.max x y = y /\ Cmp.min x y = y.
Proof.
  unfold Cmp.isNaN, Cmp.max, Cmp.min, Cmp.gt. intros [Hx|Hy].
  - rewrite (Cmp.lt_nan_r y x Hx), (Cmp.lt_nan_l x y Hx). split; reflexivity.
  - rewrite (Cmp.lt_nan_l y x Hy), (Cmp.lt_nan_r x y Hy). split; reflexivity.
Qed.

(** The maximum of NaN and 1.0 is 1.0. *)
Lemma max_min_with_NaN_witness :
  Cmp.max Cmp.nan Cmp.one = Cmp.one /\ Cmp.min Cmp.nan Cmp.one = Cmp.one.
Proof.
  apply (max_min_with_NaN spec_float Cmp.Ordered_float Cmp.nan Cmp.one).
  left. reflexivity.
Defined.

(** X6.  On integers [Less], [Compare], [max] and [min] are the order, the
    three-way comparison, the maximum and the minimum of the integers. *)
Theorem Ordered_int_is_the_integer_order :
  forall x y : Z,
    Cmp.Less x y = (x <? y)
    /\ Cmp.Compare x y
       = match x ?= y with Lt => -1 | Eq => 0 | Gt => 1 end
    /\ Cmp.max x y = Z.max x y
    /\ Cmp.min x y = Z.min x y.
Proof.
  intros x y.
  unfold Cmp.Less, Cmp.Compare, Cmp.max, Cmp.min, Cmp.isNaN, Cmp.gt. simpl.
  rewrite !Z.eqb_refl. simpl.
  destruct (Z.ltb_spec x y), (Z.ltb_spec y x), (Z.compare_spec x y);
    try lia; repeat split; try reflexivity; lia.
Qed.

(** ** Partition access through the disk (disk/disk.go) *)

(** X7.  A partition number below 0 or above the number of partitions is
    refused by [ReadPartitionContents] and [WritePartitionContents] with
    the count -1 and an error that tells which of the two it is; no
    partition is read or written.  The number is looked at after the
    backend was made writable. *)
Theorem partition_number_out_of_range_is_refused
    (d : Disk.Disk) (t : Disk.Table) (part : Z) (reader : list Go.byte) :
  Disk.Table' d = Some t ->
  Disk.writable (Disk.Backend d) = None ->
  let n := Go.len (Disk.GetPartitions t) in
  (part < 0 ->
   Disk.ReadPartitionContents d part
   = ([], Disk.Return (-1) (Some (Go.NewError
        "cannot read contents of a partition without specifying a partition")))
   /\ Disk.WritePartitionContents d part reader
      = ([Disk.Writable], Disk.Return (-1) (Some (Go.NewError
           "cannot write contents of a partition without specifying a partition"))))
  /\ (n < part ->
      Disk.ReadPartitionContents d part
      = ([], Disk.Return (-1) (Some (Go.NewError
           ("cannot read contents of partition " ++ Go.itoa part
            ++ " which is greater than max partition " ++ Go.itoa n))))
      /\ Disk.WritePartitionContents d part reader
         = ([Disk.Writable], Disk.Return (-1) (Some (Go.NewError
              ("cannot write contents of partition " ++ Go.itoa part
               ++ " which is greater than max partition " ++ Go.itoa n))))).
Proof.
  intros Ht Hw. cbv zeta.
  assert (Hlen : 0 <= Go.len (Disk.GetPartitions t)) by (unfold Go.len; lia).
  unfold Disk.ReadPartitionContents, Disk.WritePartitionContents.
  rewrite Ht, Hw. split; intros Hpart.
  - destruct (Z.ltb_spec part 0); [|lia]. split; reflexivity.
  - destruct (Z.ltb_spec part 0); [lia|].
    destruct (Z.gtb_spec part (Go.len (Disk.GetPartitions t))); [|lia].
    split; reflexivity.
Qed.

(** The disk with one partition, asked for the partition 2. *)
Lemma partition_number_out_of_range_is_refused_witness :
  Disk.ReadPartitionContents Disk.oneDisk 2
  = ([], Disk.Return (-1) (Some (Go.NewError
       "cannot read contents of partition 2 which is greater than max partition 1"))).
Proof.
  assert (Hhigh : Go.len [Disk.onePartition] < 2)
    by (unfold Go.len; simpl; lia).
  destruct (partition_number_out_of_range_is_refused Disk.oneDisk
              {| Disk.GetPartitions := [Disk.onePartition] |} 2 []
              eq_refl eq_refl) as [_ Hr].
  exact (proj1 (Hr Hhigh)).
Defined.

(** X8.  A partition number from 1 to the number of partitions selects the
    entry before it in the table: the call is handed to that partition
    and to no other, and what the partition returns is returned, the
    count of a write converted to int64. *)
Theorem partition_index_selects_the_slot
    (d : Disk.Disk) (t : Disk.Table) (part : Z) (reader : list Go.byte) :
  Disk.Table' d = Some t ->
  1 <= part <= Go.len (Disk.GetPartitions t) ->
  exists p,
    nth_error (Disk.GetPartitions t) (Z.to_nat (part - 1)) = Some p
    /\ Disk.ReadPartitionContents d part
       = ([Disk.ReadContents (part - 1)],
          Disk.Return (fst (Disk.readContents p)) (snd (Disk.readContents p)))
    /\ (Disk.writable (Disk.Backend d) = None ->
        Disk.WritePartitionContents d part reader
        = ([Disk.Writable; Disk.WriteContents (part - 1)],
           Disk.Return (Disk.int64 (fst (Disk.writeContents p reader)))
                       (snd (Disk.writeContents p reader)))).
Proof.
  intros Ht [Hlo Hhi].
  destruct (nth_error (Disk.GetPartitions t) (Z.to_nat (part - 1))) as [p|] eqn:Hp.
  2:{ apply nth_error_None in Hp. unfold Go.len in Hhi. lia. }
  exists p. split; [reflexivity|].
  assert (Hidx : Go.index (Disk.GetPartitions t) (part - 1) = Some p).
  { unfold Go.index. destruct (Z.ltb_spec (part - 1) 0); [lia | assumption]. }
  unfold Disk.ReadPartitionContents, Disk.WritePartitionContents.
  rewrite Ht.
  destruct (Z.ltb_spec part 0); [lia|].
  destruct (Z.gtb_spec part (Go.len (Disk.GetPartitions t))); [lia|].
  rewrite Hidx. split.
  - destruct (Disk.readContents p). reflexivity.
  - intros Hw. rewrite Hw. destruct (Disk.writeContents p reader). reflexivity.
Qed.

Lemma partition_index_selects_the_slot_witness :
  Disk.ReadPartitionContents Disk.oneDisk 1
  = ([Disk.ReadContents 0], Disk.Return (20480 * 512) None).
Proof.
  assert (Hrange : 1 <= 1 <= Go.len [Disk.onePartition])
    by (unfold Go.len; simpl; lia).
  destruct (partition_index_selects_the_slot Disk.oneDisk
              {| Disk.GetPartitions := [Disk.onePartition] |} 1 []
              eq_refl Hrange) as (p & Hp & Hr & _).
  injection Hp as <-. exact Hr.
Defined.

(** A backend that cannot be made writable fails every write of
    partition contents with its own error and the count -1, before the
    table and the partition number are looked at. *)
Theorem write_needs_a_writable_backend
    (d : Disk.Disk) (part : Z) (reader : list Go.byte) (err : Go.error) :
  Disk.writable (Disk.Backend d) = Some err ->
  Disk.WritePartitionContents d part reader
  = ([Disk.Writable], Disk.Return (-1) (Some err)).
Proof.
  intros Hw. unfold Disk.WritePartitionContents. rewrite Hw. reflexivity.
Qed.

(** A disk image opened read-only. *)
Lemma write_needs_a_writable_backend_witness :
  Disk.WritePartitionContents
    {| Disk.Backend := {| Disk.writable := Some (Go.NewError "read-only file") |};
       Disk.Size := 1048576;
       Disk.LogicalBlocksize := 512;
       Disk.PhysicalBlocksize := 512;
       Disk.Table' := None;
       Disk.DefaultBlocks := false |} 1 [1; 2; 3]
  = ([Disk.Writable], Disk.Return (-1) (Some (Go.NewError "read-only file"))).
Proof.
  apply (write_needs_a_writable_backend
           {| Disk.Backend :=
                {| Disk.writable := Some (Go.NewError "read-only file") |};
              Disk.Size := 1048576;
              Disk.LogicalBlocksize := 512;
              Disk.PhysicalBlocksize := 512;
              Disk.Table' := None;
              Disk.DefaultBlocks := false |} 1 [1; 2; 3]
           (Go.NewError "read-only file")).
  reflexivity.
Defined.

(** ** Filesystems on a disk (disk/disk.go) *)

(** A partition number for which [extent] gives a size and a start. *)
Lemma extent_of_whole_disk (d : Disk.Disk) :
  DiskFS.extent d 0 = Some (Disk.Size d, 0).
Proof. reflexivity. Qed.

(** With a partition number that has an extent, both methods get to the
    filesystem packages, on that extent. *)
Lemma filesystem_methods_on_extent
    (F : Type) (ext : Squashfs.externals) (drv : DiskFS.drivers F)
    (d : Disk.Disk) (b : Squashfs.Storage) (part size start : Z)
    (w : Squashfs.world) :
  DiskFS.extent d part = Some (size, start) ->
  DiskFS.GetFilesystem ext drv d b part w
  = DiskFS.probe ext drv d b part size start w
  /\ forall spec, DiskFS.Partition spec = part ->
       DiskFS.CreateFilesystem ext drv d b spec w
       = DiskFS.create ext drv d b spec size start w.
Proof.
  unfold DiskFS.extent, DiskFS.GetFilesystem, DiskFS.CreateFilesystem.
  intros Hext. split; [|intros spec ->]; cbv zeta;
    destruct (part =? 0);
    try (injection Hext as <- <-; reflexivity);
    (destruct (Disk.Table' d) as [t|]; [|discriminate]);
    (destruct (part >? Go.len (Disk.GetPartitions t)); [discriminate|]);
    (destruct (Go.index (Disk.GetPartitions t) (part - 1)) as [p|];
     [|discriminate]);
    injection Hext as <- <-; reflexivity.
Qed.

(** X9.  [GetFilesystem] tries fat32, then iso9660, then squashfs, then ext4,
    each on the extent of the partition; fat32, squashfs and ext4 get the
    logical block size, iso9660 the physical one, or 0 on a disk with
    default blocks.  When all four return an error, the errors are
    dropped and the error returned names the partition. *)
Theorem GetFilesystem_tries_four_types
    (F : Type) (ext : Squashfs.externals) (drv : DiskFS.drivers F)
    (d : Disk.Disk) (b : Squashfs.Storage) (part size start : Z)
    (w : Squashfs.world) (e1 e2 e3 e4 : Go.error) :
  DiskFS.extent d part = Some (size, start) ->
  DiskFS.fat32Read drv size start (Disk.LogicalBlocksize d) = Go.Err e1 ->
  DiskFS.iso9660Read drv size start
    (if Disk.DefaultBlocks d then 0 else Disk.PhysicalBlocksize d)
  = Go.Err e2 ->
  fst (Squashfs.Read ext b size start (Disk.LogicalBlocksize d) w)
  = Go.Err e3 ->
  DiskFS.ext4Read drv size start (Disk.LogicalBlocksize d) = Go.Err e4 ->
  DiskFS.GetFilesystem ext drv d b part w
  = ([DiskFS.Fat32Read size start (Disk.LogicalBlocksize d);
      DiskFS.Iso9660Read size start
        (if Disk.DefaultBlocks d then 0 else Disk.PhysicalBlocksize d);
      DiskFS.SquashfsRead size start (Disk.LogicalBlocksize d);
      DiskFS.Ext4Read size start (Disk.LogicalBlocksize d)],
     Go.Err (Go.NewError ("unknown filesystem on partition " ++ Go.itoa part)),
     snd (Squashfs.Read ext b size start (Disk.LogicalBlocksize d) w)).
Proof.
  intros Hext Hfat Hiso Hsq Hext4.
  rewrite (proj1 (filesystem_methods_on_extent F ext drv d b part size start w Hext)).
  unfold DiskFS.probe, DiskFS.pbs. cbv zeta.
  rewrite Hfat, Hiso, Hext4.
  destruct (Squashfs.Read ext b size start (Disk.LogicalBlocksize d) w)
    as [r w'].
  cbn [fst snd] in *. rewrite Hsq. reflexivity.
Qed.

(** The disk with one partition, where no package finds a filesystem:
    squashfs refuses the logical block size of 512 bytes. *)
Lemma GetFilesystem_tries_four_types_witness :
  DiskFS.GetFilesystem Squashfs.workingOS DiskFS.noDrivers Disk.oneDisk
                       (Squashfs.storageOf []) 1 Squashfs.emptyWorld
  = ([DiskFS.Fat32Read 10485760 1048576 512;
      DiskFS.Iso9660Read 10485760 1048576 512;
      DiskFS.SquashfsRead 10485760 1048576 512;
      DiskFS.Ext4Read 10485760 1048576 512],
     Go.Err (Go.NewError "unknown filesystem on partition 1"),
     Squashfs.emptyWorld).
Proof.
  assert (Hsq : Squashfs.Read Squashfs.workingOS (Squashfs.storageOf [])
                  10485760 1048576 512 Squashfs.emptyWorld
                = (Go.Err (Go.NewError
                     "blocksize 512 too small, must be at least 4096"),
                   Squashfs.emptyWorld)).
  { unfold Squashfs.Read. cbv zeta. change (512 =? 0) with false. cbv iota.
    rewrite validateBlocksize_computes. reflexivity. }
  pose proof (GetFilesystem_tries_four_types unit Squashfs.workingOS
                DiskFS.noDrivers Disk.oneDisk (Squashfs.storageOf []) 1
                10485760 1048576 Squashfs.emptyWorld
                (Go.NewError "fat32: no boot sector")
                (Go.NewError "iso9660: no volume descriptor")
                (Go.NewError "blocksize 512 too small, must be at least 4096")
                (Go.NewError "ext4: no superblock")
                eq_refl) as H.
  simpl Disk.LogicalBlocksize in H. simpl Disk.DefaultBlocks in H.
  simpl Disk.PhysicalBlocksize in H. cbv iota in H.
  rewrite Hsq in H. apply H; reflexivity.
Defined.

(** X10.  The first package that reads a filesystem wins, and the packages
    after it are not tried: when fat32 reads one, [GetFilesystem] returns
    it after that single call, and the squashfs package is not entered. *)
Theorem GetFilesystem_first_match_wins
    (F : Type) (ext : Squashfs.externals) (drv : DiskFS.drivers F)
    (d : Disk.Disk) (b : Squashfs.Storage) (part size start : Z)
    (w : Squashfs.world) (f : F) :
  DiskFS.extent d part = Some (size, start) ->
  DiskFS.fat32Read drv size start (Disk.LogicalBlocksize d) = Go.Ok f ->
  DiskFS.GetFilesystem ext drv d b part w
  = ([DiskFS.Fat32Read size start (Disk.LogicalBlocksize d)],
     Go.Ok (DiskFS.Foreign f), w).
Proof.
  intros Hext Hfat.
  rewrite (proj1 (filesystem_methods_on_extent F ext drv d b part size start w Hext)).
  unfold DiskFS.probe. cbv zeta. rewrite Hfat. reflexivity.
Qed.

Lemma GetFilesystem_first_match_wins_witness :
  DiskFS.GetFilesystem Squashfs.workingOS DiskFS.fat32Drivers Disk.oneDisk
                       (Squashfs.storageOf []) 0 Squashfs.emptyWorld
  = ([DiskFS.Fat32Read 16777216 0 512], Go.Ok (DiskFS.Foreign tt),
     Squashfs.emptyWorld).
Proof.
  apply (GetFilesystem_first_match_wins unit Squashfs.workingOS
           DiskFS.fat32Drivers Disk.oneDisk (Squashfs.storageOf []) 0
           16777216 0 Squashfs.emptyWorld tt); reflexivity.
Defined.

(** The partition number 0 stands for the whole disk: [GetFilesystem]
    and [CreateFilesystem] then work on the size of the disk from the
    offset 0 and do not look at the partition table, which may be
    missing. *)
Theorem partition_zero_is_the_whole_disk :
  forall (F : Type) (ext : Squashfs.externals) (drv : DiskFS.drivers F)
         (d : Disk.Disk) (b : Squashfs.Storage) (t : option Disk.Table)
         (spec : DiskFS.FilesystemSpec) (w : Squashfs.world),
    DiskFS.GetFilesystem ext drv (DiskFS.withTable d t) b 0 w
    = DiskFS.probe ext drv d b 0 (Disk.Size d) 0 w
    /\ DiskFS.CreateFilesystem ext drv (DiskFS.withTable d t) b
         {| DiskFS.Partition := 0; DiskFS.FSType' := DiskFS.FSType' spec;
            DiskFS.VolumeLabel := DiskFS.VolumeLabel spec;
            DiskFS.WorkDir := DiskFS.WorkDir spec |} w
       = DiskFS.create ext drv d b
           {| DiskFS.Partition := 0; DiskFS.FSType' := DiskFS.FSType' spec;
              DiskFS.VolumeLabel := DiskFS.VolumeLabel spec;
              DiskFS.WorkDir := DiskFS.WorkDir spec |} (Disk.Size d) 0 w.
Proof. intros. split; reflexivity. Qed.

(** X11.  Through the disk, squashfs gets the logical block size of the disk
    as its block size.  When that size is not 0 and is not a squashfs
    block size (below 4096, above 1048576 or no power of two, as the
    usual 512 is), [CreateFilesystem] of type squashfs fails with the
    error of the validation, and [GetFilesystem] never returns a squashfs
    filesystem and leaves the world of the squashfs package as it was:
    the image is not read. *)
Theorem squashfs_needs_a_valid_logical_blocksize
    (F : Type) (ext : Squashfs.externals) (drv : DiskFS.drivers F)
    (d : Disk.Disk) (b : Squashfs.Storage) (spec : DiskFS.FilesystemSpec)
    (size start : Z) (w : Squashfs.world) (err : Go.error) :
  Disk.LogicalBlocksize d <> 0 ->
  Squashfs.validateBlocksize (Disk.LogicalBlocksize d) = Some err ->
  DiskFS.extent d (DiskFS.Partition spec) = Some (size, start) ->
  (DiskFS.FSType' spec = DiskFS.TypeSquashfs ->
   DiskFS.CreateFilesystem ext drv d b spec w
   = ([DiskFS.SquashfsCreate size start (Disk.LogicalBlocksize d)],
      Go.Err err, w))
  /\ (forall fs,
        snd (fst (DiskFS.GetFilesystem ext drv d b (DiskFS.Partition spec) w))
        <> Go.Ok (DiskFS.Squash fs))
  /\ snd (DiskFS.GetFilesystem ext drv d b (DiskFS.Partition spec) w) = w.
Proof.
  intros Hnz Hv Hext.
  destruct (filesystem_methods_on_extent F ext drv d b (DiskFS.Partition spec)
              size start w Hext) as [Hget Hcreate].
  assert (Hread : forall size' start',
             Squashfs.Read ext b size' start' (Disk.LogicalBlocksize d) w
             = (Go.Err err, w)).
  { intros. unfold Squashfs.Read. cbv zeta.
    apply Z.eqb_neq in Hnz. rewrite Hnz, Hv. reflexivity. }
  assert (Hmake : forall size' start',
             Squashfs.Create ext b size' start' (Disk.LogicalBlocksize d) w
             = (Go.Err err, w)).
  { intros. unfold Squashfs.Create. cbv zeta.
    apply Z.eqb_neq in Hnz. rewrite Hnz, Hv. reflexivity. }
  split; [|split].
  - intros Hty. rewrite (Hcreate spec eq_refl).
    unfold DiskFS.create. rewrite Hty, Hmake. reflexivity.
  - intros fs. rewrite Hget. unfold DiskFS.probe. cbv zeta. rewrite Hread.
    destruct (DiskFS.fat32Read drv size start (Disk.LogicalBlocksize d));
      destruct (DiskFS.iso9660Read drv size start (DiskFS.pbs d));
      destruct (DiskFS.ext4Read drv size start (Disk.LogicalBlocksize d));
      simpl; discriminate.
  - rewrite Hget. unfold DiskFS.probe. cbv zeta. rewrite Hread.
    destruct (DiskFS.fat32Read drv size start (Disk.LogicalBlocksize d));
      destruct (DiskFS.iso9660Read drv size start (DiskFS.pbs d));
      destruct (DiskFS.ext4Read drv size start (Disk.LogicalBlocksize d));
      reflexivity.
Qed.

(** A squashfs filesystem asked for on the first partition of a disk
    with 512-byte logical blocks. *)
Lemma squashfs_needs_a_valid_logical_blocksize_witness :
  DiskFS.CreateFilesystem Squashfs.workingOS DiskFS.noDrivers Disk.oneDisk
    (Squashfs.storageOf [])
    {| DiskFS.Partition := 1; DiskFS.FSType' := DiskFS.TypeSquashfs;
       DiskFS.VolumeLabel := ""; DiskFS.WorkDir := "" |}
    Squashfs.emptyWorld
  = ([DiskFS.SquashfsCreate 10485760 1048576 512],
     Go.Err (Go.NewError "blocksize 512 too small, must be at least 4096"),
     Squashfs.emptyWorld).
Proof.
  assert (Hv : Squashfs.validateBlocksize (Disk.LogicalBlocksize Disk.oneDisk)
               = Some (Go.NewError
                   "blocksize 512 too small, must be at least 4096")).
  { rewrite validateBlocksize_computes. reflexivity. }
  assert (Hnz : Disk.LogicalBlocksize Disk.oneDisk <> 0) by discriminate.
  destruct (squashfs_needs_a_valid_logical_blocksize unit Squashfs.workingOS
              DiskFS.noDrivers Disk.oneDisk (Squashfs.storageOf [])
              {| DiskFS.Partition := 1; DiskFS.FSType' := DiskFS.TypeSquashfs;
                 DiskFS.VolumeLabel := ""; DiskFS.WorkDir := "" |}
              10485760 1048576 Squashfs.emptyWorld _ Hnz Hv eq_refl)
    as (Hc & _).
  exact (Hc eq_refl).
Defined.

(** X12.  A partition number above the number of partitions is refused with
    an error before any filesystem package is called; a negative one
    passes that check and indexes the table before its first entry: a
    run-time panic, in [GetFilesystem] and in [CreateFilesystem] alike. *)
Theorem filesystem_partition_number_out_of_range
    (F : Type) (ext : Squashfs.externals) (drv : DiskFS.drivers F)
    (d : Disk.Disk) (b : Squashfs.Storage) (t : Disk.Table)
    (spec : DiskFS.FilesystemSpec) (w : Squashfs.world) :
  Disk.Table' d = Some t ->
  let part := DiskFS.Partition spec in
  let n := Go.len (Disk.GetPartitions t) in
  (n < part ->
   DiskFS.GetFilesystem ext drv d b part w
   = ([], Go.Err (Go.NewError
        ("cannot get filesystem on partition " ++ Go.itoa part
         ++ " greater than maximum partition " ++ Go.itoa n)), w)
   /\ DiskFS.CreateFilesystem ext drv d b spec w
      = ([], Go.Err (Go.NewError
           ("cannot create filesystem on partition " ++ Go.itoa part
            ++ " greater than maximum partition " ++ Go.itoa n)), w))
  /\ (part < 0 ->
      DiskFS.GetFilesystem ext drv d b part w
      = ([], Go.Panic "index out of range", w)
      /\ DiskFS.CreateFilesystem ext drv d b spec w
         = ([], Go.Panic "index out of range", w)).
Proof.
  intros Ht part n. subst part n.
  unfold DiskFS.GetFilesystem, DiskFS.CreateFilesystem. cbv zeta. rewrite Ht.
  assert (Hlen : 0 <= Go.len (Disk.GetPartitions t)) by (unfold Go.len; lia).
  split; intros Hpart.
  - destruct (Z.eqb_spec (DiskFS.Partition spec) 0); [lia|].
    destruct (Z.gtb_spec (DiskFS.Partition spec)
                (Go.len (Disk.GetPartitions t))); [|lia].
    split; reflexivity.
  - destruct (Z.eqb_spec (DiskFS.Partition spec) 0); [lia|].
    destruct (Z.gtb_spec (DiskFS.Partition spec)
                (Go.len (Disk.GetPartitions t))); [lia|].
    unfold Go.index.
    destruct (Z.ltb_spec (DiskFS.Partition spec - 1) 0); [|lia].
    split; reflexivity.
Qed.

Lemma filesystem_partition_number_out_of_range_witness :
  DiskFS.GetFilesystem Squashfs.workingOS DiskFS.fat32Drivers Disk.oneDisk
    (Squashfs.storageOf []) 2 Squashfs.emptyWorld
  = ([], Go.Err (Go.NewError
       "cannot get filesystem on partition 2 greater than maximum partition 1"),
     Squashfs.emptyWorld)
  /\ DiskFS.GetFilesystem Squashfs.workingOS DiskFS.fat32Drivers Disk.oneDisk
       (Squashfs.storageOf []) (-1) Squashfs.emptyWorld
     = ([], Go.Panic "index out of range", Squashfs.emptyWorld).
Proof.
  split.
  - apply (filesystem_partition_number_out_of_range unit Squashfs.workingOS
             DiskFS.fat32Drivers Disk.oneDisk (Squashfs.storageOf [])
             {| Disk.GetPartitions := [Disk.onePartition] |}
             {| DiskFS.Partition := 2; DiskFS.FSType' := DiskFS.TypeFat32;
                DiskFS.VolumeLabel := ""; DiskFS.WorkDir := "" |}
             Squashfs.emptyWorld eq_refl).
    unfold Go.len; simpl; lia.
  - apply (filesystem_partition_number_out_of_range unit Squashfs.workingOS
             DiskFS.fat32Drivers Disk.oneDisk (Squashfs.storageOf [])
             {| Disk.GetPartitions := [Disk.onePartition] |}
             {| DiskFS.Partition := -1; DiskFS.FSType' := DiskFS.TypeFat32;
                DiskFS.VolumeLabel := ""; DiskFS.WorkDir := "" |}
             Squashfs.emptyWorld eq_refl).
    simpl; lia.
Defined.

(** X13.  [Close] passes on the error of the backend and then leaves the disk
    as it is; when the backend closes, the disk becomes the zero disk,
    which has no partition table: reading the contents of any of its
    partitions is refused with an error. *)
Theorem Close_resets_the_disk :
  forall (d : Disk.Disk) (closed : option Go.error) (part : Z),
    (forall err, closed = Some err ->
       DiskFS.Close d closed = (Some err, d))
    /\ (closed = None ->
        fst (DiskFS.Close d closed) = None
        /\ Disk.Table' (snd (DiskFS.Close d closed)) = None
        /\ Disk.ReadPartitionContents (snd (DiskFS.Close d closed)) part
           = ([], Disk.Return (-1) (Some (Go.NewError
                "cannot read contents of a partition on a disk without a partition table")))).
Proof.
  intros d closed part. split.
  - intros err ->. reflexivity.
  - intros ->. repeat split.
Qed.

(** X14.  [GetPartitionTable] keeps the table it has read in the disk and
    changes nothing else of it; from then on the contents of the
    partitions 1 to the length of that table are read from the entries of
    that table, whatever table the disk had before.  When the table
    cannot be read, the disk is left as it is. *)
Theorem GetPartitionTable_saves_the_table
    (d : Disk.Disk) (t : Disk.Table) (part : Z) :
  1 <= part <= Go.len (Disk.GetPartitions t) ->
  let d' := snd (DiskFS.GetPartitionTable d (Go.Ok t)) in
  fst (DiskFS.GetPartitionTable d (Go.Ok t)) = Go.Ok t
  /\ d' = DiskFS.withTable d (Some t)
  /\ (exists p,
        nth_error (Disk.GetPartitions t) (Z.to_nat (part - 1)) = Some p
        /\ Disk.ReadPartitionContents d' part
           = ([Disk.ReadContents (part - 1)],
              Disk.Return (fst (Disk.readContents p))
                          (snd (Disk.readContents p))))
  /\ (forall e, DiskFS.GetPartitionTable d (Go.Err e) = (Go.Err e, d)).
Proof.
  intros [Hlo Hhi]. cbv zeta.
  split; [reflexivity|]. split; [reflexivity|]. split; [|reflexivity].
  destruct (nth_error (Disk.GetPartitions t) (Z.to_nat (part - 1)))
    as [p|] eqn:Hp.
  2:{ apply nth_error_None in Hp. unfold Go.len in Hhi. lia. }
  exists p. split; [reflexivity|].
  unfold Disk.ReadPartitionContents, DiskFS.GetPartitionTable.
  cbn [snd Disk.Table'].
  destruct (Z.ltb_spec part 0); [lia|].
  destruct (Z.gtb_spec part (Go.len (Disk.GetPartitions t))); [lia|].
  unfold Go.index. destruct (Z.ltb_spec (part - 1) 0); [lia|].
  rewrite Hp. destruct (Disk.readContents p). reflexivity.
Qed.

(** A disk without a table, after the table with one partition was
    read. *)
Lemma GetPartitionTable_saves_the_table_witness :
  Disk.ReadPartitionContents
    (snd (DiskFS.GetPartitionTable (DiskFS.withTable Disk.oneDisk None)
            (Go.Ok {| Disk.GetPartitions := [Disk.onePartition] |}))) 1
  = ([Disk.ReadContents 0], Disk.Return (20480 * 512) None).
Proof.
  assert (Hrange : 1 <= 1 <= Go.len [Disk.onePartition])
    by (unfold Go.len; simpl; lia).
  destruct (GetPartitionTable_saves_the_table
              (DiskFS.withTable Disk.oneDisk None)
              {| Disk.GetPartitions := [Disk.onePartition] |} 1 Hrange)
    as (_ & _ & (p & Hp & Hr) & _).
  injection Hp as <-. exact Hr.
Defined.

(** ** The squashfs facade (filesystem/squashfs/squashfs.go) *)

Ltac squashfs_steps :=
  unfold Squashfs.throughCache, Squashfs.andThen, Squashfs.backendReadAt,
    Squashfs.runDecompress in *;
  unfold Squashfs.bind, Squashfs.ret, Squashfs.emit, Squashfs.setCache,
    Squashfs.getCache in *;
  cbn beta iota zeta in *.

Ltac split_match :=
  match goal with
  | H : context [match ?x with _ => _ end] |- _ =>
      let E := fresh "E" in destruct x eqn:E
  | H : context [if ?x then _ else _] |- _ =>
      let E := fresh "E" in destruct x eqn:E
  end.

(** What [Read] returns when it returns a filesystem. *)
Lemma Read_result
    (ext : Squashfs.externals) (b : Squashfs.Storage)
    (size start blocksize : Z) (w w' : Squashfs.world)
    (fs : Squashfs.FileSystem) :
  Squashfs.Read ext b size start blocksize w = (Go.Ok fs, w') ->
  exists bytes s root,
    Squashfs.ReadAt b (Squashfs.superblockSize ext) start = (bytes, None)
    /\ Go.len bytes = Squashfs.superblockSize ext
    /\ Squashfs.parseSuperblock ext bytes = Go.Ok s
    /\ Squashfs.blocksize s <> 0
    /\ Squashfs.newCompressor ext (Squashfs.compression s)
       = Go.Ok (Squashfs.compressor fs)
    /\ Squashfs.fragmentTable ext s = Go.Ok (Squashfs.fragments fs)
    /\ Squashfs.uidsGidsTable ext s = Go.Ok (Squashfs.uidsGids fs)
    /\ Squashfs.inodeAt ext (Squashfs.rootInodeBlock s)
         (Squashfs.rootInodeOffset s) (Squashfs.inodeBasicDirectory ext)
         (Some (Squashfs.newLRU
                  (Z.quot Squashfs.defaultCacheSize (Squashfs.blocksize s))))
       = (Go.Ok root, Squashfs.cache w')
    /\ Squashfs.workspace fs = ""
    /\ Squashfs.fsSize fs = size /\ Squashfs.fsStart fs = start
    /\ Squashfs.backend fs = b
    /\ Squashfs.superblock' fs = Some s
    /\ Squashfs.fsBlocksize fs = Squashfs.blocksize s
    /\ Squashfs.rootDir fs = Some root.
Proof.
  unfold Squashfs.Read. cbv zeta. intros H.
  destruct (Squashfs.validateBlocksize _); [discriminate|].
  unfold Squashfs.readImage in H. squashfs_steps.
  destruct (Squashfs.ReadAt b (Squashfs.superblockSize ext) start)
    as [bytes err] eqn:Hread.
  squashfs_steps. destruct err; [discriminate|].
  destruct (Z.eqb_spec (Go.len bytes) (Squashfs.superblockSize ext))
    as [Hlen|]; cbn [negb] in H; [|discriminate].
  destruct (Squashfs.parseSuperblock ext bytes) as [s|e|msg] eqn:Hs;
    cbn [Squashfs.wrap] in H; try discriminate.
  unfold Squashfs.loadTables in H.
  destruct (Squashfs.newCompressor ext (Squashfs.compression s))
    as [c|e|msg] eqn:Hc; cbn [Squashfs.wrap] in H; try discriminate.
  squashfs_steps.
  destruct (Squashfs.fragmentTable ext s) as [fr|e|msg] eqn:Hfr;
    cbn [Squashfs.wrap] in H; try discriminate.
  squashfs_steps.
  assert (Hfinish :
    forall (xa : option Squashfs.xAttrTable) (w1 : Squashfs.world),
      (match Squashfs.wrap "error reading uids/gids: "
               (Squashfs.uidsGidsTable ext s) with
       | Go.Ok a1 =>
           if Squashfs.blocksize s =? 0
           then fun w0 : Squashfs.world =>
                  (Go.Panic "integer divide by zero", w0)
           else fun w0 : Squashfs.world =>
             let '(a2, w'0) :=
               Squashfs.throughCache
                 (Squashfs.inodeAt ext (Squashfs.rootInodeBlock s)
                    (Squashfs.rootInodeOffset s)
                    (Squashfs.inodeBasicDirectory ext))
                 {| Squashfs.trace :=
                      Squashfs.GetInode (Squashfs.rootInodeBlock s)
                        (Squashfs.rootInodeOffset s)
                      :: Squashfs.trace
                           {| Squashfs.trace := Squashfs.trace w0;
                              Squashfs.cache :=
                                Some (Squashfs.newLRU
                                        (Z.quot Squashfs.defaultCacheSize
                                                (Squashfs.blocksize s))) |};
                    Squashfs.cache :=
                      Squashfs.cache
                        {| Squashfs.trace := Squashfs.trace w0;
                           Squashfs.cache :=
                             Some (Squashfs.newLRU
                                     (Z.quot Squashfs.defaultCacheSize
                                             (Squashfs.blocksize s))) |} |} in
             match a2 with
             | Go.Ok rootInode =>
                 fun w1 : Squashfs.world =>
                   (Go.Ok {| Squashfs.workspace := "";
                             Squashfs.superblock' := Some s;
                             Squashfs.fsSize := size;
                             Squashfs.fsStart := start;
                             Squashfs.backend := b;
                             Squashfs.fsBlocksize := Squashfs.blocksize s;
                             Squashfs.compressor := c;
                             Squashfs.fragments := fr;
                             Squashfs.uidsGids := a1;
                             Squashfs.xattrs := xa;
                             Squashfs.rootDir := Some rootInode |}, w1)
             | Go.Err _ =>
                 fun w1 : Squashfs.world =>
                   (Go.Err (Go.NewError "unable to read root inode"), w1)
             | Go.Panic msg => fun w1 : Squashfs.world => (Go.Panic msg, w1)
             end w'0
       | Go.Err e => fun w0 : Squashfs.world => (Go.Err e, w0)
       | Go.Panic msg => fun w0 : Squashfs.world => (Go.Panic msg, w0)
       end w1) = (Go.Ok fs, w') ->
      exists root,
        Squashfs.blocksize s <> 0
        /\ Go.Ok c = Go.Ok (Squashfs.compressor fs)
        /\ Go.Ok fr = Go.Ok (Squashfs.fragments fs)
        /\ Squashfs.uidsGidsTable ext s = Go.Ok (Squashfs.uidsGids fs)
        /\ Squashfs.inodeAt ext (Squashfs.rootInodeBlock s)
             (Squashfs.rootInodeOffset s) (Squashfs.inodeBasicDirectory ext)
             (Some (Squashfs.newLRU
                      (Z.quot Squashfs.defaultCacheSize (Squashfs.blocksize s))))
           = (Go.Ok root, Squashfs.cache w')
        /\ Squashfs.workspace fs = ""
        /\ Squashfs.fsSize fs = size /\ Squashfs.fsStart fs = start
        /\ Squashfs.backend fs = b
        /\ Squashfs.superblock' fs = Some s
        /\ Squashfs.fsBlocksize fs = Squashfs.blocksize s
        /\ Squashfs.rootDir fs = Some root).
  { intros xa w1 Hfs.
    destruct (Squashfs.uidsGidsTable ext s) as [ug|e|msg] eqn:Hug;
      cbn [Squashfs.wrap] in Hfs; try discriminate.
    destruct (Z.eqb_spec (Squashfs.blocksize s) 0) as [|Hbs];
      [discriminate|].
    unfold Squashfs.throughCache in Hfs. squashfs_steps.
    cbn [Squashfs.cache Squashfs.trace] in Hfs.
    destruct (Squashfs.inodeAt ext (Squashfs.rootInodeBlock s)
                (Squashfs.rootInodeOffset s) (Squashfs.inodeBasicDirectory ext)
                (Some (Squashfs.newLRU
                         (Z.quot Squashfs.defaultCacheSize
                                 (Squashfs.blocksize s)))))
      as [[root|e|msg] c'] eqn:Hroot; squashfs_steps; try discriminate.
    injection Hfs as <- <-. exists root. cbn.
    repeat (split; [first [reflexivity | assumption]|]). reflexivity. }
  destruct (negb (Squashfs.noXattrs s)
            && negb (Squashfs.xattrTableStart s =? 18446744073709551615)).
  - destruct (Squashfs.xattrsTable ext s) as [xa|e|msg];
      cbn [Squashfs.wrap] in H; try discriminate.
    apply Hfinish in H. destruct H as (root & H).
    exists bytes, s, root.
    destruct H as (H1 & H2 & H3 & H4 & H5 & H6 & H7 & H8 & H9 & H10 & H11
                   & H12).
    repeat (split; [first [reflexivity | assumption | congruence]|]).
    assumption.
  - apply Hfinish in H. destruct H as (root & H).
    exists bytes, s, root.
    destruct H as (H1 & H2 & H3 & H4 & H5 & H6 & H7 & H8 & H9 & H10 & H11
                   & H12).
    repeat (split; [first [reflexivity | assumption | congruence]|]).
    assumption.
Qed.

Example Read_finds_the_image :
  Squashfs.Read Sqfs.imageOS (Squashfs.storageOf (repeat 0 96)) 1048576 0 0
                Squashfs.emptyWorld
  = (Go.Ok Sqfs.imageFS, Sqfs.imageWorld).
Proof.
  unfold Squashfs.Read. cbv zeta. change (0 =? 0) with true. cbv iota.
  rewrite validateBlocksize_computes. reflexivity.
Qed.



(** X16.  A filesystem that [Read] has returned is read-only: it has no
    workspace, so [SetLabel], [Mkdir], [Rename] and [Remove] fail with the
    read-only error without a call to the system, and so does [OpenFile]
    with a write intent on the path of a file. *)
Theorem Read_gives_a_read_only_filesystem
    (ext : Squashfs.externals) (sys : Sqfs.system) (b : Squashfs.Storage)
    (size start blocksize : Z) (w w' : Squashfs.world)
    (fs : Squashfs.FileSystem) (p q : string) (flag : Z)
    (w'' : Squashfs.world) :
  Squashfs.Read ext b size start blocksize w = (Go.Ok fs, w') ->
  Sqfs.Workspace fs = ""
  /\ Sqfs.SetLabel fs p = ([], Some Go.ErrReadonlyFilesystem)
  /\ Sqfs.Mkdir sys fs p = ([], Some Go.ErrReadonlyFilesystem)
  /\ Sqfs.Rename sys fs p q = ([], Some Go.ErrReadonlyFilesystem)
  /\ Sqfs.Remove sys fs p = ([], Some Go.ErrReadonlyFilesystem)
  /\ (Squashfs.hasWriteIntent flag -> Go.Dir p <> Go.Base p ->
      Squashfs.OpenFile ext fs p flag w''
      = (Go.Err Go.ErrReadonlyFilesystem, w'')).
Proof.
  intros Hread.
  apply Read_result in Hread
    as (bytes & s & root & _ & _ & _ & _ & _ & _ & _ & _ & Hws & _).
  unfold Sqfs.Workspace, Sqfs.SetLabel, Sqfs.Mkdir, Sqfs.Rename, Sqfs.Remove.
  rewrite Hws. repeat (split; [reflexivity|]).
  intros Hflag Hpath. apply writeMode_spec in Hflag.
  apply String.eqb_neq in Hpath.
  unfold Squashfs.OpenFile. cbv zeta. rewrite Hpath, Hws, Hflag. reflexivity.
Qed.

Lemma Read_gives_a_read_only_filesystem_witness :
  Sqfs.Mkdir Sqfs.workingSystem Sqfs.imageFS "/var/log"
  = ([], Some Go.ErrReadonlyFilesystem)
  /\ Sqfs.Remove Sqfs.workingSystem Sqfs.imageFS "/README"
     = ([], Some Go.ErrReadonlyFilesystem).
Proof.
  pose proof (Read_gives_a_read_only_filesystem Sqfs.imageOS Sqfs.workingSystem
                (Squashfs.storageOf (repeat 0 96)) 1048576 0 0
                Squashfs.emptyWorld Sqfs.imageWorld Sqfs.imageFS
                "/var/log" "" 0 Squashfs.emptyWorld Read_finds_the_image)
    as (_ & _ & Hmk & _).
  pose proof (Read_gives_a_read_only_filesystem Sqfs.imageOS Sqfs.workingSystem
                (Squashfs.storageOf (repeat 0 96)) 1048576 0 0
                Squashfs.emptyWorld Sqfs.imageWorld Sqfs.imageFS
                "/README" "" 0 Squashfs.emptyWorld Read_finds_the_image)
    as (_ & _ & _ & _ & Hrm & _).
  split; [exact Hmk | exact Hrm].
Defined.

(** X17.  [Read] uses its block size argument for the validation alone: every
    accepted argument, 0 included, gives the same result, and the block
    size of the filesystem returned is the one of the superblock. *)
Theorem Read_takes_the_blocksize_from_the_superblock
    (ext : Squashfs.externals) (b : Squashfs.Storage)
    (size start blocksize : Z) (w : Squashfs.world) :
  blocksize = 0 \/ Squashfs.validateBlocksize blocksize = None ->
  Squashfs.Read ext b size start blocksize w
  = Squashfs.Read ext b size start 0 w
  /\ forall fs w',
       Squashfs.Read ext b size start blocksize w = (Go.Ok fs, w') ->
       exists s, Squashfs.superblock' fs = Some s
                 /\ Squashfs.fsBlocksize fs = Squashfs.blocksize s.
Proof.
  intros Hok. split.
  - assert (Hdef : Squashfs.validateBlocksize Squashfs.defaultBlockSize = None).
    { rewrite validateBlocksize_computes. reflexivity. }
    assert (Hzero : Squashfs.Read ext b size start 0 w
                    = Squashfs.readImage ext b size start w).
    { unfold Squashfs.Read. cbv zeta. change (0 =? 0) with true. cbv iota.
      rewrite Hdef. reflexivity. }
    destruct Hok as [->|Hv]; [reflexivity|].
    rewrite Hzero. unfold Squashfs.Read. cbv zeta.
    destruct (blocksize =? 0); [rewrite Hdef | rewrite Hv]; reflexivity.
  - intros fs w' Hread.
    apply Read_result in Hread
      as (bytes & s & root & _ & _ & _ & _ & _ & _ & _ & _ & _ & _ & _ & _
          & Hs & Hbs & _).
    exists s. split; assumption.
Qed.

(** The image with 4 KiB blocks, read with the block size 1 MiB. *)
Lemma Read_takes_the_blocksize_from_the_superblock_witness :
  Squashfs.Read Sqfs.imageOS (Squashfs.storageOf (repeat 0 96)) 1048576 0
                1048576 Squashfs.emptyWorld
  = (Go.Ok Sqfs.imageFS, Sqfs.imageWorld)
  /\ Squashfs.fsBlocksize Sqfs.imageFS = 4096.
Proof.
  assert (Hv : 1048576 = 0 \/ Squashfs.validateBlocksize 1048576 = None).
  { right. rewrite validateBlocksize_computes. reflexivity. }
  destruct (Read_takes_the_blocksize_from_the_superblock Sqfs.imageOS
              (Squashfs.storageOf (repeat 0 96)) 1048576 0 1048576
              Squashfs.emptyWorld Hv) as [Heq _].
  split; [|reflexivity].
  rewrite Heq. exact Read_finds_the_image.
Defined.

(** X18.  A filesystem that [Create] has returned has the working directory
    that the system made as its workspace, no superblock, and a block
    size that is a power of two from 4096 to 1048576: the argument, or
    131072 for the argument 0.  Making the directory is all that
    happened. *)
Theorem Create_result
    (ext : Squashfs.externals) (b : Squashfs.Storage)
    (size start blocksize : Z) (w w' : Squashfs.world)
    (fs : Squashfs.FileSystem) :
  Squashfs.Create ext b size start blocksize w = (Go.Ok fs, w') ->
  Squashfs.osMkdirTemp ext "" "diskfs_squashfs" = (Squashfs.workspace fs, None)
  /\ Squashfs.superblock' fs = None
  /\ Squashfs.fsBlocksize fs = (if blocksize =? 0 then 131072 else blocksize)
  /\ 4096 <= Squashfs.fsBlocksize fs <= 1048576
  /\ (exists k, 0 <= k /\ Squashfs.fsBlocksize fs = 2 ^ k)
  /\ w' = {| Squashfs.trace :=
               Squashfs.OsMkdirTemp "" "diskfs_squashfs" :: Squashfs.trace w;
             Squashfs.cache := Squashfs.cache w |}.
Proof.
  unfold Squashfs.Create, Squashfs.createWorkspace. cbv zeta.
  set (bs := if blocksize =? 0 then Squashfs.defaultBlockSize else blocksize).
  intros H.
  destruct (Squashfs.validateBlocksize bs) eqn:Hv; [discriminate|].
  squashfs_steps.
  destruct (Squashfs.osMkdirTemp ext "" "diskfs_squashfs") as [tmpdir [e|]];
    [discriminate|].
  injection H as <- <-. simpl.
  rewrite validateBlocksize_computes in Hv.
  unfold Squashfs.validateBlocksizeZ in Hv.
  change Squashfs.minBlocksize with 4096 in Hv.
  change Squashfs.maxBlocksize with 1048576 in Hv.
  destruct (Z.ltb_spec bs 4096); [discriminate|].
  destruct (Z.gtb_spec bs 1048576); [discriminate|].
  destruct (Squashfs.isPowerOfTwo bs) eqn:Hp; [|discriminate].
  apply isPowerOfTwo_spec in Hp.
  repeat (split; [first [reflexivity | assumption | lia]|]).
  reflexivity.
Qed.

Lemma Create_result_witness :
  exists fs w',
    Squashfs.Create Squashfs.workingOS (Squashfs.storageOf []) 1048576 0 0
                    Squashfs.emptyWorld = (Go.Ok fs, w')
    /\ Squashfs.fsBlocksize fs = 131072
    /\ Squashfs.workspace fs = "/tmp/diskfs_squashfs1".
Proof.
  destruct (Squashfs.Create Squashfs.workingOS (Squashfs.storageOf [])
              1048576 0 0 Squashfs.emptyWorld) as [[fs| |] w'] eqn:Hc.
  - exists fs, w'. split; [reflexivity|].
    destruct (Create_result Squashfs.workingOS (Squashfs.storageOf [])
                1048576 0 0 Squashfs.emptyWorld w' fs Hc)
      as (Hws & _ & Hbs & _).
    split; [exact Hbs|]. simpl in Hws. congruence.
  - exfalso.
    destruct (Create_default_blocksize) as (fs' & Hc' & _). congruence.
  - exfalso.
    destruct (Create_default_blocksize) as (fs' & Hc' & _). congruence.
Defined.

(** *** The size of the cache *)

(** X19.  On a filesystem with a cache and a positive block size,
    [GetCacheSize] after [SetCacheSize n] is [n] rounded down to a whole
    number of blocks, and 0 for a negative [n]; the two calls do nothing
    outside the cache. *)
Theorem GetCacheSize_after_SetCacheSize
    (fs : Squashfs.FileSystem) (l : Squashfs.lru) (n : Z) (w : Squashfs.world) :
  Squashfs.cache w = Some l ->
  0 < Squashfs.fsBlocksize fs ->
  let w' := snd (Sqfs.SetCacheSize fs n w) in
  let size := fst (Sqfs.GetCacheSize fs w') in
  fst (Sqfs.SetCacheSize fs n w) = Go.Ok tt
  /\ size = Z.max 0 (n / Squashfs.fsBlocksize fs) * Squashfs.fsBlocksize fs
  /\ (0 <= n -> size <= n < size + Squashfs.fsBlocksize fs)
  /\ (n < Squashfs.fsBlocksize fs -> size = 0)
  /\ Squashfs.trace (snd (Sqfs.GetCacheSize fs w')) = Squashfs.trace w.
Proof.
  intros Hc Hbs. cbv zeta.
  unfold Sqfs.SetCacheSize, Sqfs.GetCacheSize.
  squashfs_steps. rewrite Hc.
  destruct (Z.eqb_spec (Squashfs.fsBlocksize fs) 0); [lia|].
  cbn [fst snd Squashfs.cache Squashfs.trace Sqfs.setMaxBlocks Squashfs.maxBlocks].
  set (bs := Squashfs.fsBlocksize fs) in *.
  assert (Hq : 0 <= n -> Z.quot n bs = n / bs)
    by (intros; apply Z.quot_div_nonneg; lia).
  assert (Hneg : n < 0 -> Z.quot n bs <= 0).
  { intros. pose proof (Z.quot_opp_l n bs ltac:(lia)) as Ho.
    pose proof (Z.quot_pos (- n) bs ltac:(lia) ltac:(lia)). lia. }
  split; [reflexivity|].
  destruct (Z.leb_spec (Z.quot n bs) 0) as [Hle|Hgt].
  - destruct (Z.le_gt_cases 0 n) as [Hn|Hn].
    + rewrite Hq in Hle by assumption.
      pose proof (Z.div_pos n bs Hn Hbs).
      assert (Hz : n / bs = 0) by lia.
      pose proof (Z.mod_pos_bound n bs Hbs).
      pose proof (Z.div_mod n bs ltac:(lia)).
      rewrite Hz. simpl. repeat split; try reflexivity; try lia; nia.
    + assert (n / bs < 0) by (apply Z.div_lt_upper_bound; lia).
      rewrite Z.max_l by lia. simpl. repeat split; try reflexivity; lia.
  - assert (Hn : 0 <= n) by (destruct (Z.le_gt_cases 0 n); [assumption|]; lia).
    rewrite Hq in * by assumption.
    pose proof (Z.mod_pos_bound n bs Hbs).
    pose proof (Z.div_mod n bs ltac:(lia)).
    rewrite Z.max_r by lia. repeat split; try reflexivity; try nia.
Qed.

(** The cache of the image with 4 KiB blocks, set to 10000 bytes: two
    blocks. *)
Lemma GetCacheSize_after_SetCacheSize_witness :
  fst (Sqfs.GetCacheSize Sqfs.imageFS
         (snd (Sqfs.SetCacheSize Sqfs.imageFS 10000 Sqfs.imageWorld)))
  = 8192.
Proof.
  assert (Hbs : 0 < Squashfs.fsBlocksize Sqfs.imageFS) by (simpl; lia).
  destruct (GetCacheSize_after_SetCacheSize Sqfs.imageFS
              {| Squashfs.maxBlocks := 32768;
                 Squashfs.blocks := [(96, ([1; 0], 2))] |}
              10000 Sqfs.imageWorld eq_refl Hbs)
    as (_ & Hsize & _).
  exact Hsize.
Defined.

(** Without a cache [SetCacheSize] does nothing and [GetCacheSize] is 0,
    whatever the block size. *)
Example cache_size_without_cache :
  Sqfs.SetCacheSize Squashfs.workspaceFS 1048576 Squashfs.emptyWorld
  = (Go.Ok tt, Squashfs.emptyWorld)
  /\ Sqfs.GetCacheSize Squashfs.workspaceFS Squashfs.emptyWorld
     = (0, Squashfs.emptyWorld).
Proof. split; reflexivity. Qed.

(** *** Opening a file for reading *)

(** The loop of [OpenFile] takes the first entry of the directory that
    has the name: it is the target unless it is a directory, and entries
    after it are not looked at. *)
Lemma findTarget_is_find (p filename : string)
    (entries : list Squashfs.directoryEntry) :
  Squashfs.findTarget p filename entries
  = match find (fun e => String.eqb (Squashfs.name e) filename) entries with
    | None => Go.Ok None
    | Some e =>
        if Squashfs.isSubdirectory e
        then Go.Err (Go.NewError ("cannot open directory " ++ p ++ " as file"))
        else Go.Ok (Some e)
    end.
Proof.
  induction entries as [|e rest IH]; [reflexivity|]. simpl.
  destruct (String.eqb (Squashfs.name e) filename);
    destruct (Squashfs.isSubdirectory e); simpl; auto.
Qed.

(** X20.  On a filesystem without a workspace, for a path whose directory
    part differs from its base name, [OpenFile] without a write intent
    reads the entries of the directory part, once and through the cache,
    which is left as that read leaves it.  When the read fails the error
    names the directory; otherwise the first entry with the base name
    decides: it is opened if it is a file, an error is returned if it is
    a directory, and when there is none the file does not exist. *)
Theorem OpenFile_for_reading
    (ext : Squashfs.externals) (fs : Squashfs.FileSystem) (p : string)
    (flag : Z) (w : Squashfs.world) :
  Squashfs.workspace fs = "" ->
  Squashfs.writeMode flag = false ->
  Go.Dir p <> Go.Base p ->
  let read :=
    Squashfs.directoryEntries ext (Go.Dir p) (Squashfs.rootDir fs)
                              (Squashfs.cache w) in
  let listed :=
    {| Squashfs.trace :=
         Squashfs.GetDirectoryEntries (Go.Dir p) :: Squashfs.trace w;
       Squashfs.cache := snd read |} in
  Squashfs.OpenFile ext fs p flag w
  = match fst read with
    | Go.Err _ =>
        (Go.Err (Go.NewError ("could not read directory entries for "
                              ++ Go.Dir p)), listed)
    | Go.Panic msg => (Go.Panic msg, listed)
    | Go.Ok entries =>
        match find (fun e => String.eqb (Squashfs.name e) (Go.Base p))
                   entries with
        | None =>
            (Go.Err (Go.NewError ("target file " ++ p ++ " does not exist")),
             listed)
        | Some e =>
            if Squashfs.isSubdirectory e then
              (Go.Err (Go.NewError ("cannot open directory " ++ p
                                    ++ " as file")), listed)
            else
              (match Squashfs.entryOpen ext e with
               | Some err => Go.Err err
               | None => Go.Ok (Squashfs.ImageFile e)
               end,
               {| Squashfs.trace :=
                    Squashfs.EntryOpen (Squashfs.name e)
                      :: Squashfs.GetDirectoryEntries (Go.Dir p)
                      :: Squashfs.trace w;
                  Squashfs.cache := snd read |})
        end
    end.
Proof.
  intros Hws Hflag Hpath read listed. subst read listed.
  apply String.eqb_neq in Hpath.
  destruct (Squashfs.directoryEntries ext (Go.Dir p) (Squashfs.rootDir fs)
              (Squashfs.cache w)) as [[entries|e|msg] c'] eqn:Hdir;
    cbn [fst snd];
    unfold Squashfs.OpenFile, Squashfs.readDirectory; cbv zeta;
    rewrite Hpath, Hws, Hflag; cbn [String.eqb]; squashfs_steps;
    cbn [Squashfs.cache Squashfs.trace]; rewrite Hdir; squashfs_steps;
    cbn [Squashfs.wrap Squashfs.trace Squashfs.cache];
    try reflexivity.
  rewrite findTarget_is_find.
  destruct (find _ entries) as [e|]; [|reflexivity].
  destruct (Squashfs.isSubdirectory e); [reflexivity|].
  squashfs_steps. destruct (Squashfs.entryOpen ext e); reflexivity.
Qed.

(** The file README of the image, opened read-only after [Read]: the
    block of the directory joins the block of the root inode in the
    cache. *)
Lemma OpenFile_for_reading_witness :
  Squashfs.OpenFile Sqfs.imageOS Sqfs.imageFS "/README" Go.O_RDONLY
                    Sqfs.imageWorld
  = (Go.Ok (Squashfs.ImageFile
              {| Squashfs.isSubdirectory := false; Squashfs.name := "README";
                 Squashfs.entrySize := 7; Squashfs.mode := 420;
                 Squashfs.uid := 0; Squashfs.gid := 0 |}),
     {| Squashfs.trace :=
          Squashfs.EntryOpen "README" :: Squashfs.GetDirectoryEntries "/"
            :: Squashfs.trace Sqfs.imageWorld;
        Squashfs.cache :=
          Some {| Squashfs.maxBlocks := 32768;
                  Squashfs.blocks := [(104, ([2; 0], 2)); (96, ([1; 0], 2))] |} |}).
Proof.
  assert (Hpath : Go.Dir "/README" <> Go.Base "/README")
    by (vm_compute; discriminate).
  rewrite (OpenFile_for_reading Sqfs.imageOS Sqfs.imageFS "/README" Go.O_RDONLY
             Sqfs.imageWorld eq_refl eq_refl Hpath).
  reflexivity.
Defined.

Example OpenFile_directory_for_reading :
  fst (Squashfs.OpenFile Sqfs.imageOS Sqfs.imageFS "/etc" Go.O_RDONLY
         Squashfs.emptyWorld)
  = Go.Err (Go.NewError "cannot open directory /etc as file").
Proof. reflexivity. Qed.

(** On a filesystem with a workspace [OpenFile] opens the file of that
    name under the workspace, with the flags it was given and the mode
    0o644, and reads nothing of the image. *)
Theorem OpenFile_in_the_workspace
    (ext : Squashfs.externals) (fs : Squashfs.FileSystem) (p : string)
    (flag : Z) (w : Squashfs.world) :
  Squashfs.workspace fs <> "" ->
  Go.Dir p <> Go.Base p ->
  let full := Go.Join (Squashfs.workspace fs) p in
  Squashfs.OpenFile ext fs p flag w
  = (match Squashfs.osOpenFile ext full flag 420 with
     | Some err =>
         Go.Err (Go.NewError ("target file " ++ p ++ " does not exist: "
                              ++ Go.Error err))
     | None => Go.Ok (Squashfs.WorkspaceFile full flag)
     end,
     {| Squashfs.trace := Squashfs.OsOpenFile full flag 420 :: Squashfs.trace w;
        Squashfs.cache := Squashfs.cache w |}).
Proof.
  intros Hws Hpath full. subst full.
  apply String.eqb_neq in Hws. apply String.eqb_neq in Hpath.
  unfold Squashfs.OpenFile. cbv zeta. rewrite Hpath, Hws.
  squashfs_steps. change Squashfs.perm644 with 420.
  destruct (Squashfs.osOpenFile ext _ flag 420); reflexivity.
Qed.

Lemma OpenFile_in_the_workspace_witness :
  Squashfs.OpenFile Squashfs.workingOS Squashfs.workspaceFS "/etc/hosts"
                    Go.O_RDWR Squashfs.emptyWorld
  = (Go.Ok (Squashfs.WorkspaceFile "/tmp/diskfs_squashfs1/etc/hosts" 2),
     {| Squashfs.trace :=
          [Squashfs.OsOpenFile "/tmp/diskfs_squashfs1/etc/hosts" 2 420];
        Squashfs.cache := None |}).
Proof.
  assert (Hws : Squashfs.workspace Squashfs.workspaceFS <> "") by discriminate.
  assert (Hpath : Go.Dir "/etc/hosts" <> Go.Base "/etc/hosts")
    by (vm_compute; discriminate).
  rewrite (OpenFile_in_the_workspace Squashfs.workingOS Squashfs.workspaceFS
             "/etc/hosts" Go.O_RDWR Squashfs.emptyWorld Hws Hpath).
  reflexivity.
Defined.

(** *** Reading a stored block *)

(** X21.  When [readBlock] gives the bytes of a block whose size on disk is
    not 0, the backend was read once, for that size at that location, and
    gave as many bytes; the read may have met the end of the file.  A
    block that is not compressed is returned as read, with nothing
    decompressed; a compressed one is the output of the compressor of the
    filesystem, called once.  The cache is not touched. *)
Theorem readBlock_of_a_stored_block
    (fs : Squashfs.FileSystem) (location size : Z) (compressed : bool)
    (w w' : Squashfs.world) (data : list Go.byte) :
  size <> 0 ->
  Squashfs.readBlock fs location compressed size w = (Go.Ok data, w') ->
  let b := fst (Squashfs.ReadAt (Squashfs.backend fs) size location) in
  let err := snd (Squashfs.ReadAt (Squashfs.backend fs) size location) in
  Go.len b = size
  /\ (err = None \/ err = Some Go.EOF)
  /\ Squashfs.cache w' = Squashfs.cache w
  /\ (if compressed then
        (exists c, Squashfs.compressor fs = Some c
                   /\ Squashfs.decompress c b = Go.Ok data)
        /\ Squashfs.trace w'
           = Squashfs.Decompress size :: Squashfs.BackendReadAt size location
               :: Squashfs.trace w
      else
        data = b
        /\ Squashfs.trace w'
           = Squashfs.BackendReadAt size location :: Squashfs.trace w).
Proof.
  intros Hsize Hread. cbv zeta.
  unfold Squashfs.readBlock in Hread.
  destruct (Z.eqb_spec size 0) as [|_]; [contradiction|].
  squashfs_steps.
  destruct (Squashfs.ReadAt (Squashfs.backend fs) size location) as [b err].
  squashfs_steps. cbn [fst snd].
  assert (Herr : Squashfs.failed err = None -> err = None \/ err = Some Go.EOF).
  { destruct err as [[]|]; simpl; intros; try discriminate; auto. }
  destruct (Squashfs.failed err); [discriminate|].
  destruct (Z.eqb_spec (Go.len b) size) as [Hlen|]; [|discriminate].
  cbn [negb] in Hread.
  split; [assumption|]. split; [auto|].
  destruct compressed.
  - destruct (Squashfs.compressor fs) as [c|]; [|discriminate].
    squashfs_steps.
    destruct (Squashfs.decompress c b) as [d|e|msg] eqn:Hc;
      cbn [Squashfs.wrap] in Hread; try discriminate.
    injection Hread as -> <-. cbn [Squashfs.cache Squashfs.trace].
    rewrite Hlen. split; [reflexivity|]. split; [|reflexivity].
    exists c. split; [reflexivity | assumption].
  - injection Hread as -> <-. cbn [Squashfs.cache Squashfs.trace].
    repeat split.
Qed.

(** The four bytes at offset 2 of a backend of eight, stored as they
    are. *)
Lemma readBlock_of_a_stored_block_witness :
  Go.len (fst (Squashfs.ReadAt (Squashfs.storageOf [1; 2; 3; 4; 5; 6; 7; 8])
                 4 2)) = 4.
Proof.
  pose (fs := {| Squashfs.workspace := "";
                 Squashfs.superblock' := Some Squashfs.sampleSuperblock;
                 Squashfs.fsSize := 8;
                 Squashfs.fsStart := 0;
                 Squashfs.backend :=
                   Squashfs.storageOf [1; 2; 3; 4; 5; 6; 7; 8];
                 Squashfs.fsBlocksize := 4096;
                 Squashfs.compressor := None;
                 Squashfs.fragments := [];
                 Squashfs.uidsGids := [];
                 Squashfs.xattrs := None;
                 Squashfs.rootDir := None |}).
  assert (Hsize : 4 <> 0) by lia.
  assert (Hread : Squashfs.readBlock fs 2 false 4 Squashfs.emptyWorld
                  = (Go.Ok [3; 4; 5; 6],
                     {| Squashfs.trace := [Squashfs.BackendReadAt 4 2];
                        Squashfs.cache := None |}))
    by reflexivity.
  exact (proj1 (readBlock_of_a_stored_block fs 2 4 false _ _ _ Hsize Hread)).
Defined.

(** X22.  A read that gives fewer bytes than the size of the block is an
    error, also when the backend reports the end of the file and no
    error; and a compressed block on a filesystem without a compressor is
    a run-time panic, after the read. *)
Theorem readBlock_short_read_or_no_compressor
    (fs : Squashfs.FileSystem) (location size : Z) (compressed : bool)
    (w : Squashfs.world) :
  size <> 0 ->
  Squashfs.failed (snd (Squashfs.ReadAt (Squashfs.backend fs) size location))
  = None ->
  let b := fst (Squashfs.ReadAt (Squashfs.backend fs) size location) in
  let read :=
    {| Squashfs.trace := Squashfs.BackendReadAt size location :: Squashfs.trace w;
       Squashfs.cache := Squashfs.cache w |} in
  (Go.len b <> size ->
   Squashfs.readBlock fs location compressed size w
   = (Go.Err (Go.NewError ("read " ++ Go.itoa (Go.len b)
                           ++ " bytes instead of expected " ++ Go.itoa size)),
      read))
  /\ (Go.len b = size -> compressed = true -> Squashfs.compressor fs = None ->
      Squashfs.readBlock fs location compressed size w
      = (Go.Panic "nil pointer dereference", read)).
Proof.
  intros Hsize Herr. cbv zeta.
  unfold Squashfs.readBlock.
  destruct (Z.eqb_spec size 0) as [|_]; [contradiction|].
  squashfs_steps.
  destruct (Squashfs.ReadAt (Squashfs.backend fs) size location) as [b err].
  squashfs_steps. cbn [fst snd] in *. rewrite Herr.
  split.
  - intros Hlen. destruct (Z.eqb_spec (Go.len b) size); [contradiction|].
    reflexivity.
  - intros Hlen -> ->. destruct (Z.eqb_spec (Go.len b) size); [|contradiction].
    reflexivity.
Qed.

(** Eight bytes asked of a backend that holds four. *)
Lemma readBlock_short_read_or_no_compressor_witness :
  Squashfs.readBlock Sqfs.imageFS 92 false 8 Squashfs.emptyWorld
  = (Go.Err (Go.NewError "read 4 bytes instead of expected 8"),
     {| Squashfs.trace := [Squashfs.BackendReadAt 8 92];
        Squashfs.cache := None |}).
Proof.
  assert (Hsize : 8 <> 0) by lia.
  assert (Herr : Squashfs.failed
                   (snd (Squashfs.ReadAt (Squashfs.backend Sqfs.imageFS) 8 92))
                 = None) by reflexivity.
  assert (Hlen : Go.len (fst (Squashfs.ReadAt (Squashfs.backend Sqfs.imageFS)
                                8 92)) <> 8)
    by (vm_compute; discriminate).
  exact (proj1 (readBlock_short_read_or_no_compressor Sqfs.imageFS 92 8 false
                  Squashfs.emptyWorld Hsize Herr) Hlen).
Defined.

(** X23.  The loader of [readFragment] reads a fragment block as [readBlock]
    reads a data block: for a fragment whose size on disk is not 0, on a
    filesystem with a compressor, it gives the bytes that [readBlock]
    gives for the same position, flag and size, with the same reads, and
    it fails when [readBlock] fails. *)
Theorem fetchFragment_reads_like_readBlock
    (fs : Squashfs.FileSystem) (index pos : Z)
    (fragmentInfo : Squashfs.fragmentEntry) (w : Squashfs.world) :
  Squashfs.size fragmentInfo <> 0 ->
  Squashfs.compressor fs <> None ->
  let fetched := Squashfs.fetchFragment fs index fragmentInfo pos w in
  let read := Squashfs.readBlock fs pos (Squashfs.compressed fragmentInfo)
                                 (Squashfs.size fragmentInfo) w in
  snd fetched = snd read
  /\ (forall data, fst read = Go.Ok data <-> fst fetched = Go.Ok (data, 0))
  /\ (forall data n, fst fetched = Go.Ok (data, n) -> n = 0)
  /\ ((exists e, fst read = Go.Err e) <-> (exists e, fst fetched = Go.Err e)).
Proof.
  intros Hsize Hc. cbv zeta.
  unfold Squashfs.fetchFragment, Squashfs.readBlock.
  destruct (Z.eqb_spec (Squashfs.size fragmentInfo) 0) as [|_];
    [contradiction|].
  squashfs_steps.
  destruct (Squashfs.ReadAt (Squashfs.backend fs) (Squashfs.size fragmentInfo)
                            pos) as [b err].
  squashfs_steps.
  destruct (Squashfs.failed err).
  { cbn [fst snd]. repeat split; intros; try discriminate; eauto. }
  destruct (negb (Go.len b =? Squashfs.size fragmentInfo)).
  { cbn [fst snd]. repeat split; intros; try discriminate; eauto. }
  destruct (Squashfs.compressed fragmentInfo).
  - destruct (Squashfs.compressor fs) as [c|]; [|contradiction].
    squashfs_steps.
    destruct (Squashfs.decompress c b); cbn [Squashfs.wrap fst snd];
      repeat split; intros; try discriminate; try congruence; eauto;
      try (destruct H; discriminate).
  - cbn [fst snd]. repeat split; intros; try discriminate; try congruence;
      try (destruct H; discriminate).
Qed.

Lemma fetchFragment_reads_like_readBlock_witness :
  fst (Squashfs.fetchFragment Sqfs.imageFS 0
         {| Squashfs.start := 90; Squashfs.size := 4;
            Squashfs.compressed := true |} 90 Squashfs.emptyWorld)
  = Go.Ok ([0; 0; 0; 0], 0).
Proof.
  assert (Hsize : 4 <> 0) by lia.
  assert (Hc : Squashfs.compressor Sqfs.imageFS <> None) by discriminate.
  destruct (fetchFragment_reads_like_readBlock Sqfs.imageFS 0 90
              {| Squashfs.start := 90; Squashfs.size := 4;
                 Squashfs.compressed := true |} Squashfs.emptyWorld Hsize Hc)
    as (_ & Hsame & _).
  apply Hsame. reflexivity.
Defined.

(** *** The index of a table *)

(** Induction over a slice of bytes, eight at a time. *)
Lemma by_eight_bytes (P : list Go.byte -> Prop) :
  (forall b, (List.length b < 8)%nat -> P b) ->
  (forall b0 b1 b2 b3 b4 b5 b6 b7 rest,
      P rest -> P (b0 :: b1 :: b2 :: b3 :: b4 :: b5 :: b6 :: b7 :: rest)) ->
  forall b, P b.
Proof.
  intros Hshort Hstep b.
  induction b as [b IH] using (induction_ltof1 _ (@List.length Go.byte)).
  unfold ltof in IH.
  destruct b as [|b0 [|b1 [|b2 [|b3 [|b4 [|b5 [|b6 [|b7 rest]]]]]]]];
    try (apply Hshort; simpl; lia).
  apply Hstep. apply IH. simpl. lia.
Qed.

Lemma indexOffsets_short (b : list Go.byte) :
  (List.length b < 8)%nat -> Sqfs.indexOffsets b = [].
Proof.
  intros H.
  destruct b as [|b0 [|b1 [|b2 [|b3 [|b4 [|b5 [|b6 [|b7 rest]]]]]]]];
    try reflexivity.
  simpl in H. lia.
Qed.

Lemma indexOffsets_length (b : list Go.byte) (k : Z) :
  0 <= k -> Go.len b = 8 * k ->
  List.length (Sqfs.indexOffsets b) = Z.to_nat k.
Proof.
  unfold Go.len. revert k.
  induction b as [b Hshort|b0 b1 b2 b3 b4 b5 b6 b7 rest IH] using by_eight_bytes;
    intros k Hk Hlen.
  - rewrite indexOffsets_short by assumption. simpl. lia.
  - cbn [Sqfs.indexOffsets List.length].
    cbn [List.length] in Hlen.
    rewrite (IH (k - 1)) by lia. lia.
Qed.

(** The meta blocks that the loop of [readUidsGids] reads are those of
    the index, in its order, up to the first that fails. *)
Lemma readIdBlocks_calls (px : Sqfs.parsers) (b : list Go.byte) (i : Z) :
  (exists n, fst (Sqfs.readIdBlocks px i b)
             = map Sqfs.MetaBlockRead (firstn n (Sqfs.indexOffsets b)))
  /\ (forall data, snd (Sqfs.readIdBlocks px i b) = Go.Ok data ->
        fst (Sqfs.readIdBlocks px i b)
        = map Sqfs.MetaBlockRead (Sqfs.indexOffsets b)).
Proof.
  revert i.
  induction b as [b Hshort|b0 b1 b2 b3 b4 b5 b6 b7 rest IH] using by_eight_bytes;
    intros i.
  - rewrite indexOffsets_short by assumption.
    destruct b as [|c0 [|c1 [|c2 [|c3 [|c4 [|c5 [|c6 [|c7 rest]]]]]]]];
      try (split; [exists O; reflexivity | reflexivity]).
    simpl in Hshort. lia.
  - cbn [Sqfs.readIdBlocks Sqfs.indexOffsets]. cbv zeta.
    destruct (Sqfs.readMetaBlock px _) as [[uncompressed n]|e|msg].
    + destruct (IH (i + 8)) as [[m Hm] Hall].
      destruct (Sqfs.readIdBlocks px (i + 8) rest) as [calls r].
      cbn [fst snd] in *. split.
      * exists (S m). cbn [firstn map]. rewrite Hm. reflexivity.
      * intros data Hdata. destruct r as [d|e|msg]; try discriminate.
        cbn [map]. rewrite (Hall d eq_refl). reflexivity.
    + split; [exists 1%nat; reflexivity | discriminate].
    + split; [exists 1%nat; reflexivity | discriminate].
Qed.

(** The same for the loop of [readFragmentTable]. *)
Lemma fragmentBlocks_calls (px : Sqfs.parsers) (offsets : list Z) (i : Z) :
  (exists n, fst (Sqfs.fragmentBlocks px i offsets)
             = map Sqfs.MetaBlockRead (firstn n offsets))
  /\ (forall entries, snd (Sqfs.fragmentBlocks px i offsets) = Go.Ok entries ->
        fst (Sqfs.fragmentBlocks px i offsets)
        = map Sqfs.MetaBlockRead offsets).
Proof.
  revert i. induction offsets as [|offset rest IH]; intros i.
  - split; [exists O; reflexivity | reflexivity].
  - cbn [Sqfs.fragmentBlocks].
    destruct (Sqfs.readMetaBlock px offset) as [[uncompressed n]|e|msg].
    + destruct (Sqfs.fragmentEntries _ px i 0 uncompressed) as [es|e|msg].
      * destruct (IH (i + 1)) as [[m Hm] Hall].
        destruct (Sqfs.fragmentBlocks px (i + 1) rest) as [calls r].
        cbn [fst snd] in *. split.
        -- exists (S m). cbn [firstn map]. rewrite Hm. reflexivity.
        -- intros entries Hentries. destruct r as [d|e|msg]; try discriminate.
           cbn [map]. rewrite (Hall d eq_refl). reflexivity.
      * split; [exists 1%nat; reflexivity | discriminate].
      * split; [exists 1%nat; reflexivity | discriminate].
    + split; [exists 1%nat; reflexivity | discriminate].
    + split; [exists 1%nat; reflexivity | discriminate].
Qed.

(** The number of index entries of the id table, in 16-bit arithmetic:
    right up to 16384 ids, too small above. *)
Lemma idBlocks_value (idCount : Z) :
  0 < idCount < 65536 ->
  1 <= Sqfs.idBlocks idCount <= 8
  /\ (idCount <= 16384 -> Sqfs.idBlocks idCount = (4 * idCount + 8191) / 8192)
  /\ (16384 < idCount -> 8192 * Sqfs.idBlocks idCount < 4 * idCount).
Proof.
  intros H. unfold Sqfs.idBlocks, Sqfs.uint16, Sqfs.idEntrySize.
  change Squashfs.metadataBlockSize with 8192.
  change (2 ^ 16) with 65536. cbv zeta.
  change (8192 mod 65536) with 8192.
  assert (Hb : 0 <= (idCount * 4) mod 65536 < 65536)
    by (apply Z.mod_pos_bound; lia).
  set (idBytes := (idCount * 4) mod 65536) in *.
  assert (Hm : 0 <= (idBytes - 1) mod 65536 < 65536)
    by (apply Z.mod_pos_bound; lia).
  set (m := (idBytes - 1) mod 65536) in *.
  assert (Hq : 0 <= m / 8192 <= 7).
  { split; [apply Z.div_pos; lia|].
    apply Z.lt_succ_r. apply Z.div_lt_upper_bound; lia. }
  rewrite (Z.mod_small (m / 8192 + 1)) by lia.
  split; [lia|]. split.
  - intros Hle. subst m idBytes.
    destruct (Z.eq_dec idCount 16384) as [->|Hne]; [reflexivity|].
    rewrite (Z.mod_small (idCount * 4)) by lia.
    rewrite (Z.mod_small (idCount * 4 - 1)) by lia.
    replace (4 * idCount + 8191) with (idCount * 4 - 1 + 1 * 8192) by lia.
    rewrite Z.div_add by lia. reflexivity.
  - intros Hgt. lia.
Qed.

(** X24.  [readUidsGids], for a table that is not empty, reads the index of the
    id table at [idTableStart] first: 8 bytes for each metadata block of
    the ids.  The number of blocks is computed in 16 bits: it is the
    number of blocks that 4-byte ids fill when there are at most 16384
    ids, and is too small for more ids, never above 8.  The metadata
    blocks read after that are the blocks of the index, in its order; on
    success each one was read once. *)
Theorem readUidsGids_reads_the_index
    (px : Sqfs.parsers) (s : Sqfs.tables) (file : Squashfs.Storage) :
  0 < Sqfs.idCount s < 65536 ->
  let k := Sqfs.idBlocks (Sqfs.idCount s) in
  let start := Squashfs.int64 (Sqfs.idTableStart s) in
  let index := fst (Squashfs.ReadAt file (8 * k) start) in
  1 <= k <= 8
  /\ (Sqfs.idCount s <= 16384 -> k = (4 * Sqfs.idCount s + 8191) / 8192)
  /\ (16384 < Sqfs.idCount s -> 8192 * k < 4 * Sqfs.idCount s)
  /\ exists calls n,
       fst (Sqfs.readUidsGids px s file) = Sqfs.BackendRead (8 * k) start :: calls
       /\ calls = map Sqfs.MetaBlockRead (firstn n (Sqfs.indexOffsets index))
       /\ (forall ids, snd (Sqfs.readUidsGids px s file) = Go.Ok ids ->
             Go.len index = 8 * k
             /\ calls = map Sqfs.MetaBlockRead (Sqfs.indexOffsets index)
             /\ List.length calls = Z.to_nat k).
Proof.
  intros Hcount. cbv zeta.
  destruct (idBlocks_value (Sqfs.idCount s) Hcount) as (Hk & Hsmall & Hlarge).
  split; [assumption|]. split; [assumption|]. split; [assumption|].
  unfold Sqfs.readUidsGids. cbv zeta.
  destruct (Z.eqb_spec (Sqfs.idCount s) 0) as [|_]; [lia|].
  set (k := Sqfs.idBlocks (Sqfs.idCount s)) in *.
  replace (Sqfs.uint16 (k * 8)) with (8 * k)
    by (unfold Sqfs.uint16; rewrite Z.mod_small; lia).
  destruct (Squashfs.ReadAt file (8 * k) _) as [b err]. cbn [fst].
  destruct (Squashfs.failed err).
  { exists [], O. repeat split; try discriminate. }
  destruct (Z.eqb_spec (Go.len b) (8 * k)) as [Hlen|Hlen]; cbn [negb].
  2:{ exists [], O. repeat split; try discriminate. }
  destruct (readIdBlocks_calls px b 0) as [[n Hn] Hall].
  destruct (Sqfs.readIdBlocks px 0 b) as [calls r]. cbn [fst snd] in *.
  exists calls, n. split; [reflexivity|]. split; [assumption|].
  intros ids Hids. destruct r as [data|e|msg]; try discriminate.
  rewrite (Hall data eq_refl). split; [assumption|]. split; [reflexivity|].
  rewrite length_map. apply indexOffsets_length; lia.
Qed.

(** Three ids: one block, so an index of 8 bytes at the start of the
    table. *)
Lemma readUidsGids_reads_the_index_witness :
  exists calls,
    fst (Sqfs.readUidsGids Sqfs.sampleParsers
           {| Sqfs.fragmentCount := 0; Sqfs.fragmentTableStart := 0;
              Sqfs.idTableStart := 16; Sqfs.idCount := 3 |}
           (Squashfs.storageOf (repeat 0 96)))
    = Sqfs.BackendRead 8 16 :: calls.
Proof.
  assert (Hcount : 0 < 3 < 65536) by lia.
  destruct (readUidsGids_reads_the_index Sqfs.sampleParsers
              {| Sqfs.fragmentCount := 0; Sqfs.fragmentTableStart := 0;
                 Sqfs.idTableStart := 16; Sqfs.idCount := 3 |}
              (Squashfs.storageOf (repeat 0 96)) Hcount)
    as (_ & _ & _ & calls & n & Hcalls & _).
  exists calls. exact Hcalls.
Defined.

(** With 16385 ids, which fill nine metadata blocks, the index that is
    read has one entry. *)
Example readUidsGids_index_wraps :
  Sqfs.idBlocks 16385 = 1 /\ (4 * 16385 + 8191) / 8192 = 9.
Proof. split; reflexivity. Qed.

(** The number of index entries of the fragment table. *)
Lemma fragmentBlockCount_value (fragmentCount : Z) :
  0 <= fragmentCount < 2 ^ 32 ->
  Sqfs.fragmentBlockCount fragmentCount = (fragmentCount + 511) / 512
  /\ 0 <= (fragmentCount + 511) / 512 <= 2 ^ 23.
Proof.
  intros H. unfold Sqfs.fragmentBlockCount, Sqfs.uint32. cbv zeta.
  change (2 ^ 32) with 4294967296 in *. change (2 ^ 23) with 8388608.
  pose proof (Z.div_mod fragmentCount 512 ltac:(lia)) as Hdm.
  pose proof (Z.mod_pos_bound fragmentCount 512 ltac:(lia)) as Hr.
  assert (Hq : 0 <= fragmentCount / 512 < 8388608).
  { split; [apply Z.div_pos; lia | apply Z.div_lt_upper_bound; lia]. }
  rewrite (Z.mod_small (fragmentCount / 512)) by lia.
  assert (Hceil : (fragmentCount + 511) / 512
                  = fragmentCount / 512
                    + (if fragmentCount mod 512 >? 0 then 1 else 0)).
  { destruct (Z.gtb_spec (fragmentCount mod 512) 0).
    - symmetry. apply Z.div_unique with (r := fragmentCount mod 512 - 1); lia.
    - symmetry. apply Z.div_unique with (r := 511); lia. }
  rewrite Hceil.
  destruct (fragmentCount mod 512 >? 0).
  - rewrite Z.mod_small by lia. lia.
  - lia.
Qed.

(** X25.  [readFragmentTable] reads the index of the fragment table at
    [fragmentTableStart] first: 8 bytes for every 512 fragments or part of
    them.  Any error of that read, the end of the file included, makes it
    fail with nothing else read.  The metadata blocks read after that are
    the blocks of the index, in its order; on success each one was read
    once. *)
Theorem readFragmentTable_reads_the_index
    (px : Sqfs.parsers) (s : Sqfs.tables) (file : Squashfs.Storage) :
  0 <= Sqfs.fragmentCount s < 2 ^ 32 ->
  let k := (Sqfs.fragmentCount s + 511) / 512 in
  let start := Squashfs.int64 (Sqfs.fragmentTableStart s) in
  let index := fst (Squashfs.ReadAt file (8 * k) start) in
  let err := snd (Squashfs.ReadAt file (8 * k) start) in
  exists calls n,
    fst (Sqfs.readFragmentTable px s file)
    = Sqfs.BackendRead (8 * k) start :: calls
    /\ calls = map Sqfs.MetaBlockRead (firstn n (Sqfs.indexOffsets index))
    /\ (forall e, err = Some e ->
          calls = []
          /\ snd (Sqfs.readFragmentTable px s file)
             = Go.Err (Go.NewError ("error reading fragment table index: "
                                    ++ Go.Error e)))
    /\ (forall entries,
          snd (Sqfs.readFragmentTable px s file) = Go.Ok entries ->
          err = None
          /\ Go.len index = 8 * k
          /\ calls = map Sqfs.MetaBlockRead (Sqfs.indexOffsets index)
          /\ List.length calls = Z.to_nat k).
Proof.
  intros Hcount. cbv zeta.
  destruct (fragmentBlockCount_value (Sqfs.fragmentCount s) Hcount)
    as [Hk Hbound].
  change (2 ^ 23) with 8388608 in Hbound.
  unfold Sqfs.readFragmentTable. cbv zeta. rewrite Hk.
  set (k := (Sqfs.fragmentCount s + 511) / 512) in *.
  replace (Sqfs.uint32 (8 * k)) with (8 * k)
    by (unfold Sqfs.uint32; change (2 ^ 32) with 4294967296;
        rewrite Z.mod_small; lia).
  destruct (Squashfs.ReadAt file (8 * k) _) as [b err]. cbn [fst snd].
  destruct err as [e|].
  { exists [], O. split; [reflexivity|]. split; [reflexivity|]. split.
    - intros e' [= <-]. split; reflexivity.
    - discriminate. }
  destruct (Z.eqb_spec (Go.len b) (8 * k)) as [Hlen|Hlen]; cbn [negb].
  2:{ exists [], O. repeat split; try discriminate. }
  destruct (fragmentBlocks_calls px (Sqfs.indexOffsets b) 0) as [[n Hn] Hall].
  destruct (Sqfs.fragmentBlocks px 0 (Sqfs.indexOffsets b)) as [calls r].
  cbn [fst snd] in *.
  exists calls, n. split; [reflexivity|]. split; [assumption|].
  split; [discriminate|].
  intros entries ->. rewrite (Hall entries eq_refl).
  split; [reflexivity|]. split; [assumption|]. split; [reflexivity|].
  rewrite length_map. apply indexOffsets_length; lia.
Qed.

(** 513 fragments: an index of two entries, 16 bytes. *)
Lemma readFragmentTable_reads_the_index_witness :
  exists calls,
    fst (Sqfs.readFragmentTable Sqfs.sampleParsers
           {| Sqfs.fragmentCount := 513; Sqfs.fragmentTableStart := 32;
              Sqfs.idTableStart := 16; Sqfs.idCount := 3 |}
           (Squashfs.storageOf (repeat 0 96)))
    = Sqfs.BackendRead 16 32 :: calls.
Proof.
  assert (Hcount : 0 <= 513 < 2 ^ 32) by lia.
  destruct (readFragmentTable_reads_the_index Sqfs.sampleParsers
              {| Sqfs.fragmentCount := 513; Sqfs.fragmentTableStart := 32;
                 Sqfs.idTableStart := 16; Sqfs.idCount := 3 |}
              (Squashfs.storageOf (repeat 0 96)) Hcount)
    as (calls & n & Hcalls & _).
  exists calls. exact Hcalls.
Defined.

(** An index that ends where the file ends: the id table is read, the
    fragment table is not. *)
Example index_at_the_end_of_the_file :
  snd (Sqfs.readUidsGids Sqfs.sampleParsers
         {| Sqfs.fragmentCount := 1; Sqfs.fragmentTableStart := 88;
            Sqfs.idTableStart := 88; Sqfs.idCount := 1 |}
         {| Squashfs.ReadAt := fun n off =>
              (firstn (Z.to_nat n) (skipn (Z.to_nat off) (repeat 0 96)),
               if 96 <=? off + n then Some Go.EOF else None) |})
  = Go.Ok [0; 0; 0; 0; 0; 0; 0; 0]
  /\ snd (Sqfs.readFragmentTable Sqfs.sampleParsers
            {| Sqfs.fragmentCount := 1; Sqfs.fragmentTableStart := 88;
               Sqfs.idTableStart := 88; Sqfs.idCount := 1 |}
            {| Squashfs.ReadAt := fun n off =>
                 (firstn (Z.to_nat n) (skipn (Z.to_nat off) (repeat 0 96)),
                  if 96 <=? off + n then Some Go.EOF else None) |})
     = Go.Err (Go.NewError "error reading fragment table index: EOF").
Proof. split; reflexivity. Qed.

(** *** Reading an inode *)

(** X26.  [getInode] reads the metadata at most three times, always at the
    block and offset it was given, and first for the minimum size of the
    type it was told.  When it gives an inode, the header is what the
    first read holds, and the body was parsed as the type that the header
    names, whatever type the caller expected. *)
Theorem getInode_reads_and_trusts_the_header
    (H B : Type) (ir : Sqfs.inodeReader H B) (fs : Squashfs.FileSystem)
    (blockOffset byteOffset iType : Z) :
  let size := Sqfs.inodeTypeToSize ir iType in
  let result := Sqfs.getInode ir fs blockOffset byteOffset iType in
  (exists more,
     fst result = Sqfs.MetadataRead blockOffset byteOffset size :: more
     /\ (List.length more <= 2)%nat
     /\ Forall (fun c => exists n, c = Sqfs.MetadataRead blockOffset byteOffset n)
               more)
  /\ (forall header body, snd result = Go.Ok (header, body) ->
        (exists first,
           Sqfs.readMetadata ir blockOffset byteOffset size = Go.Ok first
           /\ Sqfs.parseInodeHeader ir first = Go.Ok header)
        /\ (exists n bytes rest extra,
              Sqfs.readMetadata ir blockOffset byteOffset n = Go.Ok bytes
              /\ Go.slice bytes (Sqfs.inodeHeaderSize ir) (Go.len bytes)
                 = Some rest
              /\ Sqfs.parseInodeBody ir rest (Squashfs.fsBlocksize fs)
                   (Sqfs.headerInodeType ir header)
                 = Go.Ok (body, extra))).
Proof.
  cbv zeta.
  destruct (Sqfs.getInode ir fs blockOffset byteOffset iType)
    as [calls result] eqn:Hresult.
  cbn [fst snd]. revert Hresult.
  unfold Sqfs.getInode. cbv zeta.
  unfold Sqfs.readInodeBytes at 1.
  destruct (Sqfs.readMetadata ir blockOffset byteOffset
              (Sqfs.inodeTypeToSize ir iType)) as [first|e|msg] eqn:Hfirst;
    cbn [Squashfs.wrap];
    try (intros [= <- <-]; split;
         [exists []; repeat split; auto | discriminate]).
  destruct (Sqfs.parseInodeHeader ir first) as [header|e|msg] eqn:Hheader;
    cbn [Squashfs.wrap];
    try (intros [= <- <-]; split;
         [exists []; repeat split; auto | discriminate]).
  set (differs := negb (Sqfs.headerInodeType ir header =? iType)).
  set (iType' := if differs then Sqfs.headerInodeType ir header else iType).
  assert (HiType : iType' = Sqfs.headerInodeType ir header).
  { subst iType' differs.
    destruct (Z.eqb_spec (Sqfs.headerInodeType ir header) iType);
      cbn [negb]; congruence. }
  set (size' := if differs then Sqfs.inodeTypeToSize ir iType'
                else Sqfs.inodeTypeToSize ir iType).
  set (reread := differs && (size' >? Go.len first)).
  set (read1 := Sqfs.MetadataRead blockOffset byteOffset
                  (Sqfs.inodeTypeToSize ir iType)).
  assert (Hsecond :
    exists n second,
      Sqfs.readMetadata ir blockOffset byteOffset n = Go.Ok second
      /\ forall bytes,
           (if reread
            then Sqfs.readInodeBytes ir blockOffset byteOffset size'
            else Go.Ok first) = Go.Ok bytes ->
           bytes = second).
  { destruct reread.
    - unfold Sqfs.readInodeBytes.
      destruct (Sqfs.readMetadata ir blockOffset byteOffset size')
        as [second|e|msg] eqn:Hsecond; cbn [Squashfs.wrap].
      + exists size', second. split; [assumption | congruence].
      + exists (Sqfs.inodeTypeToSize ir iType), first.
        split; [exact Hfirst | discriminate].
      + exists (Sqfs.inodeTypeToSize ir iType), first.
        split; [exact Hfirst | discriminate].
    - exists (Sqfs.inodeTypeToSize ir iType), first.
      split; [exact Hfirst | congruence]. }
  assert (Hcalls2 :
    exists more,
      (if reread
       then [read1; Sqfs.MetadataRead blockOffset byteOffset size']
       else [read1]) = read1 :: more
      /\ (List.length more <= 1)%nat
      /\ Forall (fun c => exists n,
                   c = Sqfs.MetadataRead blockOffset byteOffset n) more).
  { destruct reread.
    - eexists. split; [reflexivity|]. split; [simpl; lia|].
      repeat constructor. eexists. reflexivity.
    - exists []. repeat split; auto. }
  destruct Hcalls2 as (more & Hmore & Hlen & Hall). rewrite Hmore.
  assert (Hthree :
    forall n,
    exists more',
      ((read1 :: more) ++ [Sqfs.MetadataRead blockOffset byteOffset n])%list
      = read1 :: more'
      /\ (List.length more' <= 2)%nat
      /\ Forall (fun c => exists n,
                   c = Sqfs.MetadataRead blockOffset byteOffset n) more').
  { intros n. exists (more ++ [Sqfs.MetadataRead blockOffset byteOffset n])%list.
    split; [reflexivity|]. split.
    - rewrite length_app. simpl. lia.
    - apply Forall_app. split; [assumption|].
      repeat constructor. eexists. reflexivity. }
  assert (Htwo :
    exists more',
      read1 :: more = read1 :: more'
      /\ (List.length more' <= 2)%nat
      /\ Forall (fun c => exists n,
                   c = Sqfs.MetadataRead blockOffset byteOffset n) more').
  { exists more. split; [reflexivity|]. split; [lia | assumption]. }
  destruct Hsecond as (n2 & second & Hread2 & Hsecond).
  destruct (if reread
            then Sqfs.readInodeBytes ir blockOffset byteOffset size'
            else Go.Ok first) as [bytes|e|msg] eqn:Hbytes;
    try (intros [= <- <-]; split; [exact Htwo | discriminate]).
  assert (Hsame : bytes = second) by (apply Hsecond; reflexivity).
  subst bytes. clear Hsecond.
  unfold Sqfs.parseBodyOf at 1.
  destruct (Go.slice second (Sqfs.inodeHeaderSize ir) (Go.len second))
    as [rest|] eqn:Hrest;
    try (intros [= <- <-]; split; [exact Htwo | discriminate]).
  destruct (Sqfs.parseInodeBody ir rest (Squashfs.fsBlocksize fs) iType')
    as [[body extra]|e|msg] eqn:Hbody; cbn [Squashfs.wrap];
    try (intros [= <- <-]; split; [exact Htwo | discriminate]).
  destruct (extra >? 0).
  - unfold Sqfs.readInodeBytes.
    destruct (Sqfs.readMetadata ir blockOffset byteOffset (size' + extra))
      as [third|e|msg] eqn:Hthird; cbn [Squashfs.wrap];
      try (intros [= <- <-]; split; [apply Hthree | discriminate]).
    unfold Sqfs.parseBodyOf.
    destruct (Go.slice third (Sqfs.inodeHeaderSize ir) (Go.len third))
      as [rest3|] eqn:Hrest3;
      try (intros [= <- <-]; split; [apply Hthree | discriminate]).
    destruct (Sqfs.parseInodeBody ir rest3 (Squashfs.fsBlocksize fs) iType')
      as [[body3 extra3]|e|msg] eqn:Hbody3; cbn [Squashfs.wrap];
      try (intros [= <- <-]; split; [apply Hthree | discriminate]).
    intros [= <- <-]. split; [apply Hthree|].
    intros h b [= <- <-]. split.
    + exists first. split; [reflexivity | assumption].
    + exists (size' + extra), third, rest3, extra3.
      rewrite <- HiType. repeat split; assumption.
  - intros [= <- <-]. split; [exact Htwo|].
    intros h b [= <- <-]. split.
    + exists first. split; [reflexivity | assumption].
    + exists n2, second, rest, extra.
      rewrite <- HiType. repeat split; assumption.
Qed.

(** An inode of type 2 looked for as type 1: the header is believed, and
    the byte that the body asks for is read. *)
Example getInode_with_another_type :
  Sqfs.getInode (Sqfs.sampleInodeReader [9; 2; 7; 5]) Sqfs.imageFS 0 1 1
  = ([Sqfs.MetadataRead 0 1 2; Sqfs.MetadataRead 0 1 3], Go.Ok (2, 7)).
Proof. reflexivity. Qed.

(** *** Paths under the workspace *)

Lemma splitSlash_not_nil (s : string) : Go.splitSlash s <> [].
Proof.
  destruct s as [|c s]; simpl; [discriminate|].
  destruct (Ascii.eqb c "/"); [discriminate|].
  destruct (Go.splitSlash s); discriminate.
Qed.

Lemma splitSlash_name (s : string) :
  ~ In "/"%char (list_ascii_of_string s) -> Go.splitSlash s = [s].
Proof.
  induction s as [|c s IH]; simpl; intros Hs; [reflexivity|].
  destruct (Ascii.eqb_spec c "/") as [->|_]; [exfalso; auto|].
  rewrite IH by auto. reflexivity.
Qed.

Lemma splitSlash_slash (a b : string) :
  Go.splitSlash (a ++ String "/" b)
  = (Go.splitSlash a ++ Go.splitSlash b)%list.
Proof.
  induction a as [|c a IH]; [reflexivity|].
  cbn [String.append Go.splitSlash]. rewrite IH.
  destruct (Ascii.eqb c "/"); [reflexivity|].
  pose proof (splitSlash_not_nil a) as Ha.
  destruct (Go.splitSlash a); [contradiction | reflexivity].
Qed.

Lemma append_assoc (a b c : string) : (a ++ b) ++ c = a ++ (b ++ c).
Proof.
  induction a as [|x a IH]; simpl; [reflexivity | rewrite IH; reflexivity].
Qed.

(** [path.Join] of a workspace of two elements and a path that starts
    with the parent directory. *)
Lemma Join_parent (d w n : string) :
  (forall s, In s [d; w; n] ->
     s <> "" /\ s <> "." /\ s <> ".."
     /\ ~ In "/"%char (list_ascii_of_string s)) ->
  Go.Join ("/" ++ d ++ "/" ++ w) ("../" ++ n) = "/" ++ d ++ "/" ++ n.
Proof.
  intros Hnames.
  destruct (Hnames d) as (Hd1 & Hd2 & Hd3 & Hd4); [simpl; auto|].
  destruct (Hnames w) as (Hw1 & Hw2 & Hw3 & Hw4); [simpl; auto|].
  destruct (Hnames n) as (Hn1 & Hn2 & Hn3 & Hn4); [simpl; auto|].
  apply String.eqb_neq in Hd1, Hd2, Hd3, Hw1, Hw2, Hw3, Hn1, Hn2, Hn3.
  assert (Hrooted : forall s, String.prefix "/" (String "/" s) = true).
  { intros s. cbn [String.prefix].
    destruct (ascii_dec "/" "/"); [destruct s; reflexivity | contradiction]. }
  assert (Hsplit :
    Go.splitSlash (("/" ++ d ++ "/" ++ w) ++ "/" ++ "../" ++ n)
    = [""; d; w; ".."; n]).
  { replace (("/" ++ d ++ "/" ++ w) ++ "/" ++ "../" ++ n)
      with ("" ++ String "/" (d ++ String "/" (w ++ String "/"
              (".." ++ String "/" n)))).
    2:{ cbn [String.append]. rewrite append_assoc. reflexivity. }
    rewrite !splitSlash_slash.
    rewrite (splitSlash_name d), (splitSlash_name w), (splitSlash_name n)
      by assumption.
    reflexivity. }
  unfold Go.Join.
  replace (String.eqb ("/" ++ d ++ "/" ++ w) "") with false by reflexivity.
  replace (String.eqb ("../" ++ n) "") with false by reflexivity.
  cbn [andb]. unfold Go.Clean.
  replace (String.eqb (("/" ++ d ++ "/" ++ w) ++ "/" ++ "../" ++ n) "")
    with false by reflexivity.
  rewrite Hsplit.
  replace (String.prefix "/" (("/" ++ d ++ "/" ++ w) ++ "/" ++ "../" ++ n))
    with true by (symmetry; apply Hrooted).
  cbn [fold_left]. unfold Go.cleanStep.
  replace (String.eqb "" "") with true by reflexivity. cbn [orb].
  rewrite Hd1, Hd2, Hd3. cbn [orb].
  rewrite Hw1, Hw2, Hw3. cbn [orb].
  replace (String.eqb ".." "") with false by reflexivity.
  replace (String.eqb ".." ".") with false by reflexivity.
  replace (String.eqb ".." "..") with true by reflexivity.
  cbn [orb]. rewrite Hw3.
  rewrite Hn1, Hn2, Hn3. cbn [orb rev app String.concat].
  reflexivity.
Qed.

(** X27.  The methods that work in the workspace join the path to it with
    [path.Join] and do not keep the result below the workspace: for a
    workspace [/d/w] the path [../n] is the file [/d/n], beside the
    workspace, and [Remove], [Mkdir] and [Rename] act on it. *)
Theorem workspace_does_not_confine_paths
    (sys : Sqfs.system) (fs : Squashfs.FileSystem) (d w n : string) :
  (forall s, In s [d; w; n] ->
     s <> "" /\ s <> "." /\ s <> ".."
     /\ ~ In "/"%char (list_ascii_of_string s)) ->
  Squashfs.workspace fs = "/" ++ d ++ "/" ++ w ->
  let outside := "/" ++ d ++ "/" ++ n in
  Sqfs.Remove sys fs ("../" ++ n)
  = ([Sqfs.OsRemove outside], Sqfs.osRemove sys outside)
  /\ fst (Sqfs.Mkdir sys fs ("../" ++ n)) = [Sqfs.OsMkdirAll outside 493]
  /\ Sqfs.Rename sys fs ("../" ++ n) ("../" ++ n)
     = ([Sqfs.OsRename outside outside], Sqfs.osRename sys outside outside).
Proof.
  intros Hnames Hws. cbv zeta.
  unfold Sqfs.Remove, Sqfs.Mkdir, Sqfs.Rename. cbv zeta.
  rewrite Hws, (Join_parent d w n Hnames).
  cbn [String.append String.eqb Ascii.eqb Bool.eqb andb].
  change Sqfs.perm755 with 493.
  split; [reflexivity|]. split; [|reflexivity].
  destruct (Sqfs.osMkdirAll sys _ 493); reflexivity.
Qed.

(** The workspace [/tmp/ws] and the path [../passwd]. *)
Lemma workspace_does_not_confine_paths_witness :
  Sqfs.Remove Sqfs.workingSystem
    {| Squashfs.workspace := "/tmp/ws";
       Squashfs.superblock' := None;
       Squashfs.fsSize := 1048576;
       Squashfs.fsStart := 0;
       Squashfs.backend := Squashfs.storageOf [];
       Squashfs.fsBlocksize := 131072;
       Squashfs.compressor := None;
       Squashfs.fragments := [];
       Squashfs.uidsGids := [];
       Squashfs.xattrs := None;
       Squashfs.rootDir := None |} "../passwd"
  = ([Sqfs.OsRemove "/tmp/passwd"], None).
Proof.
  assert (Hnames : forall s, In s ["tmp"; "ws"; "passwd"] ->
            s <> "" /\ s <> "." /\ s <> ".."
            /\ ~ In "/"%char (list_ascii_of_string s)).
  { intros s [<-|[<-|[<-|[]]]]; repeat split; try discriminate;
      simpl; intuition discriminate. }
  exact (proj1 (workspace_does_not_confine_paths Sqfs.workingSystem
                  {| Squashfs.workspace := "/tmp/ws";
                     Squashfs.superblock' := None;
                     Squashfs.fsSize := 1048576;
                     Squashfs.fsStart := 0;
                     Squashfs.backend := Squashfs.storageOf [];
                     Squashfs.fsBlocksize := 131072;
                     Squashfs.compressor := None;
                     Squashfs.fragments := [];
                     Squashfs.uidsGids := [];
                     Squashfs.xattrs := None;
                     Squashfs.rootDir := None |}
                  "tmp" "ws" "passwd" Hnames eq_refl)).
Defined.

(** *** Listing a directory and opening its files *)

(** X28.  On a filesystem without a workspace, for a path whose directory
    part differs from its base name, what [OpenFile] does with the path
    for reading is told by the list that [ReadDir] gives for the
    directory part: a file is opened only if it is listed there under
    the base name and is not a directory; when no listed entry has the
    base name the file does not exist; and [ReadDir] made no call to the
    system. *)
Theorem ReadDir_lists_what_OpenFile_opens
    (E I : Type) (ext : Squashfs.externals) (dirs : Sqfs.directories E I)
    (fs : Squashfs.FileSystem) (p : string) (flag : Z)
    (w w1 : Squashfs.world) (calls : list Sqfs.call)
    (infos : list (Sqfs.FileInfo I)) :
  Squashfs.workspace fs = "" ->
  Squashfs.writeMode flag = false ->
  Go.Dir p <> Go.Base p ->
  Sqfs.ReadDir ext dirs fs (Go.Dir p) w = (calls, Go.Ok infos, w1) ->
  calls = []
  /\ (forall f,
        fst (Squashfs.OpenFile ext fs p flag w) = Go.Ok f ->
        exists e,
          f = Squashfs.ImageFile e
          /\ In (Sqfs.EntryInfo e) infos
          /\ Squashfs.name e = Go.Base p
          /\ Squashfs.isSubdirectory e = false)
  /\ ((forall e, In (Sqfs.EntryInfo e) infos -> Squashfs.name e <> Go.Base p) ->
      fst (Squashfs.OpenFile ext fs p flag w)
      = Go.Err (Go.NewError ("target file " ++ p ++ " does not exist"))).
Proof.
  intros Hws Hflag Hpath Hlist.
  unfold Sqfs.ReadDir, Squashfs.readDirectory in Hlist.
  rewrite Hws in Hlist. cbn [String.eqb negb] in Hlist. squashfs_steps.
  cbn [Squashfs.cache Squashfs.trace] in Hlist.
  destruct (Squashfs.directoryEntries ext (Go.Dir p) (Squashfs.rootDir fs)
              (Squashfs.cache w))
    as [[entries|e|msg] c'] eqn:Hdir; squashfs_steps;
    cbn [Squashfs.wrap] in Hlist; try discriminate.
  injection Hlist as <- <- _.
  split; [reflexivity|].
  apply String.eqb_neq in Hpath.
  unfold Squashfs.OpenFile, Squashfs.readDirectory. cbv zeta.
  rewrite Hpath, Hws, Hflag. cbn [String.eqb]. squashfs_steps.
  cbn [Squashfs.cache Squashfs.trace]. rewrite Hdir.
  squashfs_steps. cbn [Squashfs.wrap]. rewrite findTarget_is_find.
  destruct (find (fun e => String.eqb (Squashfs.name e) (Go.Base p)) entries)
    as [e|] eqn:Hfind.
  - apply find_some in Hfind as [Hin Hname].
    apply String.eqb_eq in Hname.
    split.
    + intros f Hf. destruct (Squashfs.isSubdirectory e) eqn:Hsub;
        [discriminate|].
      squashfs_steps. cbn [fst] in Hf.
      destruct (Squashfs.entryOpen ext e); [discriminate|].
      injection Hf as <-. exists e.
      split; [reflexivity|]. split; [|split; assumption].
      apply in_map. assumption.
    + intros Hnone. exfalso. apply (Hnone e); [|assumption].
      apply in_map. assumption.
  - split; [discriminate | reflexivity].
Qed.

(** The root of the image lists etc and README; README is opened. *)
Lemma ReadDir_lists_what_OpenFile_opens_witness :
  exists e,
    Squashfs.ImageFile
      {| Squashfs.isSubdirectory := false; Squashfs.name := "README";
         Squashfs.entrySize := 7; Squashfs.mode := 420;
         Squashfs.uid := 0; Squashfs.gid := 0 |}
    = Squashfs.ImageFile e
    /\ Squashfs.name e = "README".
Proof.
  pose (dirs := {| Sqfs.osReadDir := fun _ : string => Go.Ok (@nil unit);
                   Sqfs.entryInfo := fun _ : unit => Go.Ok tt |}).
  assert (Hpath : Go.Dir "/README" <> Go.Base "/README")
    by (vm_compute; discriminate).
  destruct (ReadDir_lists_what_OpenFile_opens unit unit Sqfs.imageOS dirs
              Sqfs.imageFS "/README" Go.O_RDONLY Squashfs.emptyWorld
              _ _ _ eq_refl eq_refl Hpath eq_refl) as (_ & Hopen & _).
  destruct (Hopen _ eq_refl) as (e & He & _ & Hname & _).
  exists e. split; [exact He | exact Hname].
Defined.

(** X29.  On a filesystem with a workspace [ReadDir] lists the directory of
    that name under the workspace, with one call to the system, and reads
    nothing of the image; an entry whose information cannot be had fails
    the whole listing. *)
Theorem ReadDir_in_the_workspace
    (E I : Type) (ext : Squashfs.externals) (dirs : Sqfs.directories E I)
    (fs : Squashfs.FileSystem) (p : string) (w : Squashfs.world)
    (dirEntries : list E) :
  Squashfs.workspace fs <> "" ->
  Sqfs.osReadDir dirs (Go.Join (Squashfs.workspace fs) p) = Go.Ok dirEntries ->
  let result := Sqfs.ReadDir ext dirs fs p w in
  snd result = w
  /\ fst (fst result) = [Sqfs.OsReadDir (Go.Join (Squashfs.workspace fs) p)]
  /\ (forall fi, snd (fst result) = Go.Ok fi ->
        Forall2 (fun e info => exists i,
                   Sqfs.entryInfo dirs e = Go.Ok i /\ info = Sqfs.OsInfo i)
                dirEntries fi)
  /\ (forall e err, In e dirEntries -> Sqfs.entryInfo dirs e = Go.Err err ->
        forall fi, snd (fst result) <> Go.Ok fi).
Proof.
  intros Hws Hread. cbv zeta. apply String.eqb_neq in Hws.
  unfold Sqfs.ReadDir. rewrite Hws. cbn [negb]. squashfs_steps.
  cbn [fst snd]. rewrite Hread. clear Hread.
  split; [reflexivity|]. split; [reflexivity|]. split.
  - induction dirEntries as [|e rest IH]; intros fi Hfi.
    + injection Hfi as <-. constructor.
    + cbn [Sqfs.workspaceInfos] in Hfi.
      destruct (Sqfs.entryInfo dirs e) as [i| |] eqn:Hi; try discriminate.
      destruct (Sqfs.workspaceInfos dirs p rest) as [fi'| |];
        try discriminate.
      injection Hfi as <-. constructor.
      * exists i. split; [assumption | reflexivity].
      * apply IH. reflexivity.
  - induction dirEntries as [|e0 rest IH];
      intros e err Hin Herr fi Hfi; [contradiction|].
    cbn [Sqfs.workspaceInfos] in Hfi.
    destruct Hin as [->|Hin].
    + rewrite Herr in Hfi. discriminate.
    + destruct (Sqfs.entryInfo dirs e0); try discriminate.
      destruct (Sqfs.workspaceInfos dirs p rest) as [fi'| |] eqn:Hrest;
        try discriminate.
      apply (IH e err Hin Herr fi'). reflexivity.
Qed.

Lemma ReadDir_in_the_workspace_witness :
  fst (fst (Sqfs.ReadDir Squashfs.workingOS
              {| Sqfs.osReadDir := fun _ : string => Go.Ok ["hosts"; "passwd"];
                 Sqfs.entryInfo := fun e : string => Go.Ok (String.length e) |}
              Squashfs.workspaceFS "/etc" Squashfs.emptyWorld))
  = [Sqfs.OsReadDir (Go.Join "/tmp/diskfs_squashfs1" "/etc")].
Proof.
  assert (Hws : Squashfs.workspace Squashfs.workspaceFS <> "") by discriminate.
  destruct (ReadDir_in_the_workspace string nat Squashfs.workingOS
              {| Sqfs.osReadDir := fun _ : string => Go.Ok ["hosts"; "passwd"];
                 Sqfs.entryInfo := fun e : string => Go.Ok (String.length e) |}
              Squashfs.workspaceFS "/etc" Squashfs.emptyWorld
              ["hosts"; "passwd"] Hws eq_refl) as (_ & Hcalls & _).
  exact Hcalls.
Defined.
